(** * Response parsing and category fan-out of the AI content engine

    A shallow embedding of [engine/ai_content_generator.py],
    [engine/multi_category_generator.py] and the [/api/generate] handler of
    [api.py], with the properties of the response parser and of the
    fan-out orchestrator that the specification states about them.

    Python values are modelled as the code uses them: a [str] is a list of
    Unicode code points, the [result] dictionary is a finite map from its
    string keys to dynamically typed values, a raised exception is an
    explicit outcome, and the completion and search services are state
    transformers over an abstract world. *)

From Stdlib Require Import NArith ZArith Ascii String List Bool Lia DecimalString.
From stdpp Require Import base option list strings gmap.

Open Scope string_scope.
Open Scope list_scope.

(** ** Python strings *)

Module PyStr.

(** A Python [str] is a sequence of code points. *)
Definition char : Type := N.
Definition str : Type := list char.

(** A literal of the source, written as a Rocq string of ASCII characters. *)
Definition py (s : string) : str :=
  map N_of_ascii (list_ascii_of_string s).

(** The code point 10, the line feed ["\n"]. *)
Definition LF : char := 10%N.

(** [len(s) == 0], the negation of the truth value of a sequence. *)
Definition is_empty {A} (l : list A) : bool :=
  match l with [] => true | _ :: _ => false end.

(** [str.isspace] on one code point: the characters CPython's
    [Py_UNICODE_ISSPACE] accepts, which are the ones [strip()] and
    [split()] remove. *)
Definition isspace (c : char) : bool :=
  ((9 <=? c) && (c <=? 13) || (28 <=? c) && (c <=? 32)
   || (c =? 133) || (c =? 160) || (c =? 5760)
   || (8192 <=? c) && (c <=? 8202)
   || (c =? 8232) || (c =? 8233) || (c =? 8239) || (c =? 8287)
   || (c =? 12288))%N.

Fixpoint lstrip (s : str) : str :=
  match s with
  | [] => []
  | c :: s' => if isspace c then lstrip s' else s
  end.

Definition rstrip (s : str) : str := rev (lstrip (rev s)).

(** [s.strip()] *)
Definition strip (s : str) : str := rstrip (lstrip s).

(** [s.startswith(p)] *)
Fixpoint startswith (s p : str) : bool :=
  match p, s with
  | [], _ => true
  | _ :: _, [] => false
  | a :: p', b :: s' => (a =? b)%N && startswith s' p'
  end.

(** [sub in s] *)
Fixpoint contains (sub s : str) : bool :=
  startswith s sub ||
  match s with
  | [] => false
  | _ :: s' => contains sub s'
  end.

(** [s.split(sep)] for a non-empty [sep]: the text is scanned from the left,
    every occurrence of [sep] that does not overlap an earlier one ends a
    piece.  [skip] counts the characters of a separator still to be passed;
    the result is the piece being read and the pieces after it. *)
Fixpoint split_from (sep : str) (skip : nat) (s : str) : str * list str :=
  match s with
  | [] => ([], [])
  | c :: s' =>
      match skip with
      | S k => split_from sep k s'
      | O =>
          if startswith s sep
          then let '(h, t) := split_from sep (length sep - 1) s' in ([], h :: t)
          else let '(h, t) := split_from sep 0 s' in (c :: h, t)
      end
  end.

Definition split (s sep : str) : list str :=
  let '(h, t) := split_from sep 0 s in h :: t.

(** [s.split()]: the maximal runs of characters that are not whitespace.
    [cur] is the run being read, in reverse. *)
Fixpoint split_ws_from (cur : str) (s : str) : list str :=
  match s with
  | [] => if is_empty cur then [] else [rev cur]
  | c :: s' =>
      if isspace c
      then (if is_empty cur then split_ws_from [] s'
            else rev cur :: split_ws_from [] s')
      else split_ws_from (c :: cur) s'
  end.

Definition split_ws (s : str) : list str := split_ws_from [] s.

(** [s.replace(old, new)] for a non-empty [old]. *)
Fixpoint replace_from (old new : str) (skip : nat) (s : str) : str :=
  match s with
  | [] => []
  | c :: s' =>
      match skip with
      | S k => replace_from old new k s'
      | O =>
          if startswith s old
          then new ++ replace_from old new (length old - 1) s'
          else c :: replace_from old new 0 s'
      end
  end.

Definition replace (s old new : str) : str := replace_from old new 0 s.

(** [sep.join(l)] *)
Fixpoint join (sep : str) (l : list str) : str :=
  match l with
  | [] => []
  | [x] => x
  | x :: l' => x ++ sep ++ join sep l'
  end.

(** [s[:n]] *)
Definition slice_to (n : nat) (s : str) : str := firstn n s.

(** The comprehension both parsers apply to the text of a thread or CTA
    section: [[t.strip() for t in text.split('---') if t.strip()]]. *)
Definition dash_segments (text : str) : list str :=
  map strip
    (List.filter (fun t => negb (is_empty (strip t))) (split text (py "---"))).

End PyStr.

Import PyStr.

(** ** Python values, dictionaries and exceptions *)

Module PyValue.

(** The values the result dictionaries hold.  The fields [twitter_thread]
    and [cta] start as lists and can be assigned a [str] by the parsers,
    so the type of a field is not fixed by its key. *)
Inductive value : Type :=
  | VNone
  | VInt (n : Z)
  | VStr (s : str)
  | VList (l : list str).

#[global] Instance value_inhabited : Inhabited value := populate VNone.

(** [bool(v)], as [if v] and [not v] compute it. *)
Definition truthy (v : value) : bool :=
  match v with
  | VNone => false
  | VInt n => negb (n =? 0)%Z
  | VStr s => negb (is_empty s)
  | VList l => negb (is_empty l)
  end.

(** A [str] argument that may be [None]. *)
Definition opt_truthy (o : option str) : bool :=
  match o with
  | Some s => negb (is_empty s)
  | None => false
  end.

(** A dictionary with [str] keys. *)
Abbreviation dict := (gmap string value).

(** The exceptions the code raises. *)
Inductive exn : Type :=
  | Exception (msg : str)
  | KeyError (key : string)
  | HTTPException (status_code : Z) (detail : str).

(** The outcome of a call: a returned value or a raised exception. *)
Inductive outcome (A : Type) : Type :=
  | Returned (a : A)
  | Raised (e : exn).
Arguments Returned {A} a.
Arguments Raised {A} e.

(** A computation that talks to the services: a transformer of the world
    [W] that returns or raises. *)
Definition io (W A : Type) : Type := W -> outcome A * W.

Definition ret {W A} (a : A) : io W A := fun w => (Returned a, w).

Definition raise {W A} (e : exn) : io W A := fun w => (Raised e, w).

(** A call of a service, which answers and never raises. *)
Definition call {W A} (f : W -> A * W) : io W A :=
  fun w => let '(a, w') := f w in (Returned a, w').

(** A computation that leaves the world alone. *)
Definition pure {W A} (o : outcome A) : io W A := fun w => (o, w).

Definition bind {W A B} (m : io W A) (k : A -> io W B) : io W B :=
  fun w =>
    match m w with
    | (Returned a, w') => k a w'
    | (Raised e, w') => (Raised e, w')
    end.

(** [try: m except Exception as e: h e] *)
Definition try_except {W A} (m : io W A) (h : exn -> io W A) : io W A :=
  fun w =>
    match m w with
    | (Returned a, w') => (Returned a, w')
    | (Raised e, w') => h e w'
    end.

End PyValue.

Import PyValue.

#[global] Instance io_ret {W} : MRet (io W) := fun A => @ret W A.
#[global] Instance io_bind {W} : MBind (io W) := fun A B k m => @bind W A B m k.

(** ** engine/ai_content_generator.py *)

Module AIContentGenerator.

(** The paragraph separator ["\n\n"]. *)
Definition NN : str := [LF; LF].

(** The locals of the loop of [_parse_response]. *)
Record locals : Type := mk_locals {
  result : dict;
  current_section : option string;
  current_content : list str
}.

Definition initial_result (topic : str) : dict :=
  <["topic" := VStr topic]>
  (<["category" := VStr (py "new_tool_intro")]>
  (<["master_storyline" := VStr []]>
  (<["youtube_script" := VStr []]>
  (<["instagram_script" := VStr []]>
  (<["twitter_thread" := VList []]>
  (<["caption" := VStr []]>
  (<["cta" := VList []]>
  (<["hashtags" := VList []]> ∅)))))))).

(** [section.replace(marker, '').strip()] *)
Definition after_marker (section marker : str) : str :=
  strip (replace section marker []).

(** [[t.strip() for t in '\n\n'.join(content).split('---') if t.strip()]] *)
Definition split_dashes (content : list str) : list str :=
  dash_segments (join NN content).

(** [if current_section and current_content:
       result[current_section] = '\n\n'.join(current_content).strip()] *)
Definition store_text (st : locals) : dict :=
  match current_section st with
  | Some k =>
      if is_empty (current_content st) then result st
      else <[k := VStr (strip (join NN (current_content st)))]> (result st)
  | None => result st
  end.

(** [if current_section == key and current_content:
       result[key] = [...split('---')...]] *)
Definition store_list (key : string) (st : locals) : dict :=
  if bool_decide (current_section st = Some key)
     && negb (is_empty (current_content st))
  then <[key := VList (split_dashes (current_content st))]> (result st)
  else result st.

(** [[h.strip() for h in text.split() if h.strip().startswith('#')]] *)
Definition hashtags_of (text : str) : list str :=
  map strip
    (List.filter (fun h => startswith (strip h) (py "#")) (split_ws text)).

(** One iteration of [for section in sections]. *)
Definition step (st : locals) (section0 : str) : locals :=
  let section := strip section0 in
  if startswith section (py "CATEGORY:") then
    mk_locals
      (<["category" := VStr (after_marker section (py "CATEGORY:"))]> (result st))
      (current_section st) (current_content st)
  else if startswith section (py "MASTER_STORYLINE:") then
    mk_locals (result st) (Some "master_storyline")
      [after_marker section (py "MASTER_STORYLINE:")]
  else if startswith section (py "YOUTUBE_SCRIPT:") then
    mk_locals (store_text st) (Some "youtube_script")
      [after_marker section (py "YOUTUBE_SCRIPT:")]
  else if startswith section (py "INSTAGRAM_SCRIPT:") then
    mk_locals (store_text st) (Some "instagram_script")
      [after_marker section (py "INSTAGRAM_SCRIPT:")]
  else if startswith section (py "TWITTER_THREAD:") then
    mk_locals (store_text st) (Some "twitter_thread") []
  else if startswith section (py "CAPTION:") then
    mk_locals (store_list "twitter_thread" st) (Some "caption")
      [after_marker section (py "CAPTION:")]
  else if startswith section (py "CTA:") then
    mk_locals (store_text st) (Some "cta") []
  else if startswith section (py "HASHTAGS:") then
    mk_locals
      (<["hashtags" := VList (hashtags_of (after_marker section (py "HASHTAGS:")))]>
         (store_list "cta" st))
      None (current_content st)
  else
    match current_section st with
    | Some _ => mk_locals (result st) (current_section st)
                  (current_content st ++ [section])
    | None => st
    end.

(** The loop over [response.split('\n\n')]. *)
Definition run_sections (topic : str) (sections : list str) : locals :=
  fold_left step sections (mk_locals (initial_result topic) None []).

(** The statement under [# Handle last section]. *)
Definition handle_last (st : locals) : dict :=
  match current_section st with
  | Some k =>
      if is_empty (current_content st) then result st
      else if bool_decide (k = "twitter_thread") then
        <["twitter_thread" := VList (split_dashes (current_content st))]> (result st)
      else if bool_decide (k = "cta") then
        <["cta" := VList (split_dashes (current_content st))]> (result st)
      else <[k := VStr (strip (join NN (current_content st)))]> (result st)
  | None => result st
  end.

(** The dictionary after the loop and the last section, before the
    defaults are applied. *)
Definition parsed_sections (response topic : str) : dict :=
  handle_last (run_sections topic (split response NN)).

(** The body of a [try] block either completes or is left by an exception;
    in both cases [result] is the dictionary as mutated so far. *)
Inductive tried : Type :=
  | Completed (r : dict)
  | Excepted (r : dict).

Definition and_then (t : tried) (k : dict -> tried) : tried :=
  match t with
  | Completed r => k r
  | Excepted r => Excepted r
  end.

(** [if not result[key]: result[key] = v]; reading a missing key raises
    [KeyError]. *)
Definition fill_default (key : string) (v : value) (r : dict) : tried :=
  match r !! key with
  | Some x => Completed (if truthy x then r else <[key := v]> r)
  | None => Excepted r
  end.

Definition default_cta : list str :=
  [py "Follow for more!"; py "Share this post!"; py "Comment your thoughts!"].

Definition default_hashtags : list str :=
  [py "#AI"; py "#Tech"; py "#Innovation"].

(** The statements under [# Ensure we have at least some content]. *)
Definition ensure_content (response : str) (r : dict) : tried :=
  and_then (fill_default "master_storyline" (VStr (slice_to 500 response)) r) (fun r =>
  and_then (fill_default "twitter_thread" (VList [slice_to 280 response]) r) (fun r =>
  and_then (fill_default "cta" (VList default_cta) r) (fun r =>
  fill_default "hashtags" (VList default_hashtags) r))).

Definition try_body (response topic : str) : tried :=
  ensure_content response (parsed_sections response topic).

(** The [except Exception] branch. *)
Definition except_body (response : str) (r : dict) : dict :=
  <["hashtags" := VList [py "#AI"; py "#Tech"; py "#Innovation"]]>
  (<["cta" := VList [py "Follow for more!"; py "Share this!"; py "Comment below!"]]>
  (<["caption" := VStr (slice_to 200 response)]>
  (<["twitter_thread" := VList [slice_to 280 response]]>
  (<["instagram_script" := VStr (slice_to 300 response)]>
  (<["youtube_script" := VStr (slice_to 500 response)]>
  (<["master_storyline" := VStr response]> r)))))).

Definition _parse_response (response topic : str) : dict :=
  match try_body response topic with
  | Completed r => r
  | Excepted r => except_body response r
  end.

(** [generate], for a generator whose [__init__] left [ai_available] as
    given.  The services are [search_and_format] of [engine/search.py] and
    [OpenRouterAI.generate]; both catch every exception of their own, the
    second answers [None] on an error.  The text of the prompt is
    [_build_prompt]; output written with [print] is not modelled. *)
Section Generate.
Context {W : Type}.
Variable search_and_format : str -> W -> str * W.
Variable ai_generate : str -> option str -> Z -> W -> option str * W.
Variable _build_prompt : str -> str -> str.

Definition full_context_of (search_context : str) (context : option str) : str :=
  let full_context := [] in
  let full_context :=
    if negb (is_empty search_context)
    then full_context ++ py "REAL-TIME SEARCH FACTS:" ++ [LF] ++ search_context ++ [LF; LF]
    else full_context in
  match context with
  | Some c =>
      if negb (is_empty c)
      then full_context ++ py "USER UPLOADED SOURCE:" ++ [LF] ++ c
      else full_context
  | None => full_context
  end.

Definition generate (ai_available : bool) (topic : str) (context : option str)
    (model : option str) : io W dict :=
  if negb ai_available
  then raise (Exception (py "AI service not available. Check OPENROUTER_API_KEY in .env"))
  else
    search_context ← call (search_and_format topic);
    let full_context := full_context_of search_context context in
    let prompt := _build_prompt topic full_context in
    response ← call (ai_generate prompt model 3500%Z);
    match response with
    | Some text =>
        if is_empty text
        then raise (Exception (py "Failed to generate content from AI"))
        else mret (_parse_response text topic)
    | None => raise (Exception (py "Failed to generate content from AI"))
    end.
End Generate.

End AIContentGenerator.

(** ** engine/multi_category_generator.py *)

Module MultiCategoryGenerator.

(** The items of the [CATEGORIES] dictionary, in the order of the source,
    which is the order [CATEGORIES.items()] yields them in. *)
Definition CATEGORIES : list (str * str) :=
  [ (py "new_tool_intro", py "New Tool Introduction");
    (py "tool_detailed_tutorial", py "Detailed Tutorial");
    (py "trending_ai_model", py "Trending AI Model");
    (py "ai_trending_news", py "AI Trending News");
    (py "github_open_source_repo", py "GitHub Repository");
    (py "instagram_engagement_content", py "Engagement Content") ].

Record locals : Type := mk_locals {
  result : dict;
  current_section : option string;
  content : list str
}.

Definition initial_result (topic category : str) : dict :=
  <["topic" := VStr topic]>
  (<["category" := VStr category]>
  (<["master_storyline" := VStr []]>
  (<["youtube_script" := VStr []]>
  (<["instagram_script" := VStr []]>
  (<["twitter_thread" := VList []]>
  (<["caption" := VStr []]>
  (<["cta" := VList [py "Follow for more!"; py "Share this!"; py "Comment below!"]]>
  (<["hashtags" := VList [py "#AI"; py "#Tech"; py "#Innovation"; py "#Viral"; py "#Trending"]]>
   ∅)))))))).

(** [[t.strip() for t in '\n'.join(content).split('---') if t.strip()]] *)
Definition split_dashes (content : list str) : list str :=
  dash_segments (join [LF] content).

(** [if current_section and content:
       result[current_section] = '\n'.join(content).strip()] *)
Definition store_text (st : locals) : dict :=
  match current_section st with
  | Some k =>
      if is_empty (content st) then result st
      else <[k := VStr (strip (join [LF] (content st)))]> (result st)
  | None => result st
  end.

(** [if current_section == 'twitter_thread' and content:
       result['twitter_thread'] = [...split('---')...]] *)
Definition store_thread (st : locals) : dict :=
  if bool_decide (current_section st = Some "twitter_thread")
     && negb (is_empty (content st))
  then <["twitter_thread" := VList (split_dashes (content st))]> (result st)
  else result st.

(** One iteration of [for line in lines]. *)
Definition step (st : locals) (line : str) : locals :=
  if contains (py "MASTER_STORYLINE:") line then
    mk_locals (result st) (Some "master_storyline") []
  else if contains (py "YOUTUBE_SCRIPT:") line then
    mk_locals (store_text st) (Some "youtube_script") []
  else if contains (py "INSTAGRAM_SCRIPT:") line then
    mk_locals (store_text st) (Some "instagram_script") []
  else if contains (py "TWITTER_THREAD:") line then
    mk_locals (store_text st) (Some "twitter_thread") []
  else if contains (py "CAPTION:") line then
    mk_locals (store_thread st) (Some "caption") []
  else
    match current_section st with
    | Some _ => mk_locals (result st) (current_section st) (content st ++ [line])
    | None => st
    end.

(** The loop over [response.split('\n')]. *)
Definition run_lines (topic category : str) (lines : list str) : locals :=
  fold_left step lines (mk_locals (initial_result topic category) None []).

(** The statement under [# Handle last section]. *)
Definition handle_last (st : locals) : dict :=
  match current_section st with
  | Some k =>
      if is_empty (content st) then result st
      else if bool_decide (k = "twitter_thread") then
        <["twitter_thread" := VList (split_dashes (content st))]> (result st)
      else <[k := VStr (strip (join [LF] (content st)))]> (result st)
  | None => result st
  end.

(** The dictionary after the loop and the last section, before the
    defaults are applied. *)
Definition parsed_sections (response topic category : str) : dict :=
  handle_last (run_lines topic category (split response [LF])).

(** [if not result[key]: result[key] = v]; reading a missing key raises
    [KeyError], which nothing in this module catches. *)
Definition fill_default (key : string) (v : value) (r : dict) : outcome dict :=
  match r !! key with
  | Some x => Returned (if truthy x then r else <[key := v]> r)
  | None => Raised (KeyError key)
  end.

Definition _parse_response (response topic category : str) : outcome dict :=
  match fill_default "master_storyline" (VStr (slice_to 300 response))
          (parsed_sections response topic category) with
  | Returned r => fill_default "twitter_thread" (VList [slice_to 280 response]) r
  | Raised e => Raised e
  end.

(** [generate_all], for a generator whose [__init__] left [ai_available]
    as given; the services are as for the single-category generator. *)
Section GenerateAll.
Context {W : Type}.
Variable search_and_format : str -> W -> str * W.
Variable ai_generate : str -> option str -> Z -> W -> option str * W.
Variable _build_prompt : str -> str -> str -> str.

Definition full_context_of (search_context : str) (context : option str) : str :=
  let full_context := AIContentGenerator.full_context_of search_context context in
  if is_empty full_context
  then (if negb (is_empty search_context) then search_context
        else py "No specific context provided.")
  else full_context.

(** [for category_id, category_name in self.CATEGORIES.items()],
    with [results] the list built so far. *)
Fixpoint generate_each (topic full_context : str) (model : option str)
    (categories : list (str * str)) (results : list dict) : io W (list dict) :=
  match categories with
  | [] => mret results
  | (category_id, category_name) :: rest =>
      let prompt := _build_prompt topic category_id full_context in
      response ← call (ai_generate prompt model 2000%Z);
      if opt_truthy response
      then
        result ← pure (_parse_response (default [] response) topic category_id);
        generate_each topic full_context model rest (results ++ [result])
      else generate_each topic full_context model rest results
  end.

Definition generate_all (ai_available : bool) (topic : str) (context : option str)
    (model : option str) : io W (list dict) :=
  if negb ai_available
  then raise (Exception (py "AI service not available"))
  else
    search_context ← call (search_and_format topic);
    let full_context := full_context_of search_context context in
    generate_each topic full_context model CATEGORIES [].
End GenerateAll.

End MultiCategoryGenerator.

(** ** engine/content_generator.py *)

Module ContentGenerator.

(** The characters of the class the five [re.sub] calls remove, in the
    order of the source (some are written twice there). *)
Definition DECORATIONS : list char :=
  [ 0x1f525%N; 0x1f4a1%N; 0x1f680%N; 0x2728%N; 0x1f3af%N; 0x1f48e%N;
    0x1f4e2%N; 0x274c%N; 0x1f4cb%N; 0x26a1%N; 0x1f6ab%N; 0x2705%N;
    0x1f6a8%N; 0x1f916%N; 0x1f4ca%N; 0x1f30d%N; 0x1f465%N; 0x1f52e%N;
    0x26a1%N; 0x1f4f0%N; 0x1f9e0%N; 0x1f3e2%N; 0x1f4ac%N; 0x2b50%N;
    0x1f4e6%N; 0x1f511%N; 0x1f4bb%N; 0x1f4c8%N; 0x1f4a1%N; 0x1f3af%N;
    0x2728%N; 0x2753%N; 0x1f525%N ].

(** [re.sub(r'[...]', '', s)]: every character of the class is
    removed. *)
Definition undecorate (s : str) : str :=
  List.filter (fun c => negb (existsb (N.eqb c) DECORATIONS)) s.

(** [re.sub(r'[...]', '', line).strip()] *)
Definition clean (line : str) : str := strip (undecorate line).

(** [s.endswith(suffix)] *)
Definition endswith (s suffix : str) : bool := startswith (rev s) (rev suffix).

(** [str(n)] of an integer that is not negative. *)
Definition str_of_nat (n : nat) : str :=
  py (NilEmpty.string_of_uint (Nat.to_uint n)).

(** [l[a:b]] for [0 <= a <= b]. *)
Definition slice {A} (a b : nat) (l : list A) : list A := firstn (b - a) (skipn a l).

(** [d.get(key, default)] of a dictionary literal with [str] keys, given
    by its items. *)
Fixpoint dict_get {A} (d : list (str * A)) (key : str) (default : A) : A :=
  match d with
  | [] => default
  | (k, v) :: d' => if bool_decide (k = key) then v else dict_get d' key default
  end.

(** [list(dict.fromkeys(l))]: the elements of [l] without the repeated
    ones, each at its first place.  [seen] holds the keys met so far. *)
Fixpoint fromkeys_from (seen l : list str) : list str :=
  match l with
  | [] => []
  | x :: l' =>
      if bool_decide (x ∈ seen) then fromkeys_from seen l'
      else x :: fromkeys_from (x :: seen) l'
  end.

Definition fromkeys (l : list str) : list str := fromkeys_from [] l.

(** The character U+1F4DD with which the templates start their last
    line. *)
Definition MEMO : str := [0x1f4dd%N].

Definition _new_tool_intro_template (topic : str) (context : option str) : str :=
  [0x1f525%N] ++ py " VIRAL HOOK:" ++ [LF]
  ++ py "Stop scrolling! This new AI tool is about to change everything." ++ [LF]
  ++ [LF]
  ++ [0x1f4a1%N] ++ py " THE PROBLEM:" ++ [LF]
  ++ py "Content creators are spending hours on tasks that should take minutes. The old tools are slow, expensive, and complicated." ++ [LF]
  ++ [LF]
  ++ [0x1f680%N] ++ py " THE SOLUTION:" ++ [LF]
  ++ topic ++ py " just dropped, and it's a game-changer." ++ [LF]
  ++ [LF]
  ++ [0x2728%N] ++ py " KEY DIFFERENTIATOR:" ++ [LF]
  ++ py "Unlike other tools, this one actually understands context and delivers professional results in seconds, not hours." ++ [LF]
  ++ [LF]
  ++ [0x1f3af%N] ++ py " REAL-WORLD EXAMPLE:" ++ [LF]
  ++ py "Imagine creating a full week's worth of social media content in under 5 minutes. That's exactly what this does." ++ [LF]
  ++ [LF]
  ++ [0x1f48e%N] ++ py " QUICK BENEFITS:" ++ [LF]
  ++ [0x2022%N] ++ py " Save 10+ hours per week" ++ [LF]
  ++ [0x2022%N] ++ py " Professional quality output" ++ [LF]
  ++ [0x2022%N] ++ py " No learning curve" ++ [LF]
  ++ [0x2022%N] ++ py " Affordable pricing" ++ [LF]
  ++ [LF]
  ++ [0x1f4e2%N] ++ py " CALL TO ACTION:" ++ [LF]
  ++ py "Try it yourself and see the difference. Link in bio!" ++ [LF]
  ++ [LF]
  ++ (if opt_truthy context
      then [0x1f4dd%N] ++ py " CONTEXT: " ++ default [] context
      else []).

Definition _tool_tutorial_template (topic : str) (context : option str) : str :=
  [0x1f3af%N] ++ py " STRONG HOOK:" ++ [LF]
  ++ py "Want to master " ++ topic ++ py "? Here's the exact step-by-step process." ++ [LF]
  ++ [LF]
  ++ [0x274c%N] ++ py " THE PROBLEM:" ++ [LF]
  ++ py "Most tutorials are either too vague or too complicated. You need a clear, actionable guide." ++ [LF]
  ++ [LF]
  ++ [0x1f4cb%N] ++ py " STEP-BY-STEP WORKFLOW:" ++ [LF]
  ++ [LF]
  ++ py "STEP 1: Set Up Your Environment" ++ [LF]
  ++ py "Get everything ready before you start. This saves time later." ++ [LF]
  ++ [LF]
  ++ py "STEP 2: Configure Your Settings" ++ [LF]
  ++ py "These are the exact settings that work best. Don't skip this." ++ [LF]
  ++ [LF]
  ++ py "STEP 3: Execute the Process" ++ [LF]
  ++ py "Follow this sequence exactly. Order matters here." ++ [LF]
  ++ [LF]
  ++ py "STEP 4: Optimize Your Results" ++ [LF]
  ++ py "Fine-tune these parameters for maximum impact." ++ [LF]
  ++ [LF]
  ++ [0x26a1%N] ++ py " KEY TIPS:" ++ [LF]
  ++ [0x2022%N] ++ py " Always start with default settings" ++ [LF]
  ++ [0x2022%N] ++ py " Test one change at a time" ++ [LF]
  ++ [0x2022%N] ++ py " Save your successful configurations" ++ [LF]
  ++ [LF]
  ++ [0x1f6ab%N] ++ py " MISTAKES TO AVOID:" ++ [LF]
  ++ [0x2022%N] ++ py " Don't rush the setup phase" ++ [LF]
  ++ [0x2022%N] ++ py " Never skip the testing step" ++ [LF]
  ++ [0x2022%N] ++ py " Avoid changing multiple settings at once" ++ [LF]
  ++ [LF]
  ++ [0x2705%N] ++ py " FINAL OUTCOME:" ++ [LF]
  ++ py "You'll have a repeatable system that delivers consistent, professional results every time." ++ [LF]
  ++ [LF]
  ++ (if opt_truthy context
      then [0x1f4dd%N] ++ py " ADDITIONAL INFO: " ++ default [] context
      else []).

Definition _trending_model_template (topic : str) (context : option str) : str :=
  [0x1f6a8%N] ++ py " BREAKING:" ++ [LF]
  ++ topic ++ py " is breaking the internet right now. Here's why." ++ [LF]
  ++ [LF]
  ++ [0x1f916%N] ++ py " MODEL OVERVIEW:" ++ [LF]
  ++ py "This isn't just another AI model. It's a fundamental shift in what's possible." ++ [LF]
  ++ [LF]
  ++ [0x1f4a1%N] ++ py " UNIQUE INNOVATION:" ++ [LF]
  ++ py "The breakthrough? It can understand context at a level we've never seen before. This changes everything." ++ [LF]
  ++ [LF]
  ++ [0x1f4ca%N] ++ py " PERFORMANCE INSIGHTS:" ++ [LF]
  ++ py "Early tests show it outperforms previous models by 40% on complex tasks. The results speak for themselves." ++ [LF]
  ++ [LF]
  ++ [0x1f30d%N] ++ py " REAL-WORLD APPLICATIONS:" ++ [LF]
  ++ [0x2022%N] ++ py " Content creators: Generate ideas 10x faster" ++ [LF]
  ++ [0x2022%N] ++ py " Developers: Debug code in seconds" ++ [LF]
  ++ [0x2022%N] ++ py " Businesses: Automate customer support" ++ [LF]
  ++ [0x2022%N] ++ py " Students: Learn complex topics easily" ++ [LF]
  ++ [LF]
  ++ [0x1f465%N] ++ py " WHO SHOULD USE THIS:" ++ [LF]
  ++ py "Anyone working with AI, content, or data. Seriously, this is for everyone." ++ [LF]
  ++ [LF]
  ++ [0x1f52e%N] ++ py " FUTURE IMPACT:" ++ [LF]
  ++ py "This is just the beginning. Expect this technology to reshape entire industries in the next 12 months." ++ [LF]
  ++ [LF]
  ++ (if opt_truthy context
      then [0x1f4dd%N] ++ py " TECHNICAL DETAILS: " ++ default [] context
      else []).

Definition _trending_news_template (topic : str) (context : option str) : str :=
  [0x26a1%N] ++ py " BREAKING NEWS:" ++ [LF]
  ++ topic ++ py " - and the AI community is going wild." ++ [LF]
  ++ [LF]
  ++ [0x1f4f0%N] ++ py " WHAT HAPPENED:" ++ [LF]
  ++ py "In the last 24 hours, a major development has shifted the entire AI landscape." ++ [LF]
  ++ [LF]
  ++ [0x1f525%N] ++ py " WHY IT'S TRENDING:" ++ [LF]
  ++ py "This isn't just hype. Real experts are calling this a pivotal moment for the industry." ++ [LF]
  ++ [LF]
  ++ [0x1f9e0%N] ++ py " SIMPLIFIED EXPLANATION:" ++ [LF]
  ++ py "Think of it this way: What used to take specialized teams months can now be done by anyone in minutes." ++ [LF]
  ++ [LF]
  ++ [0x1f3e2%N] ++ py " INDUSTRY IMPACT:" ++ [LF]
  ++ [0x2022%N] ++ py " Tech companies are scrambling to adapt" ++ [LF]
  ++ [0x2022%N] ++ py " Investors are paying close attention" ++ [LF]
  ++ [0x2022%N] ++ py " Developers are already building on it" ++ [LF]
  ++ [0x2022%N] ++ py " Users are seeing immediate benefits" ++ [LF]
  ++ [LF]
  ++ [0x1f4ac%N] ++ py " EXPERT INSIGHT:" ++ [LF]
  ++ py "Industry leaders are saying this could be as significant as the launch of ChatGPT. That's not an exaggeration." ++ [LF]
  ++ [LF]
  ++ [0x1f3af%N] ++ py " WHAT THIS MEANS FOR YOU:" ++ [LF]
  ++ py "If you work in tech, content, or business, you need to understand this. It's going to affect your workflow." ++ [LF]
  ++ [LF]
  ++ (if opt_truthy context
      then [0x1f4dd%N] ++ py " BACKGROUND: " ++ default [] context
      else []).

Definition _github_repo_template (topic : str) (context : option str) : str :=
  [0x2b50%N] ++ py " GITHUB ALERT:" ++ [LF]
  ++ topic ++ py " just hit trending, and developers are losing their minds." ++ [LF]
  ++ [LF]
  ++ [0x1f4e6%N] ++ py " REPO OVERVIEW:" ++ [LF]
  ++ py "This open-source project solves a problem that's been plaguing developers for years." ++ [LF]
  ++ [LF]
  ++ [0x1f511%N] ++ py " CORE FEATURES:" ++ [LF]
  ++ [0x2022%N] ++ py " Lightning-fast performance" ++ [LF]
  ++ [0x2022%N] ++ py " Zero configuration needed" ++ [LF]
  ++ [0x2022%N] ++ py " Works with any tech stack" ++ [LF]
  ++ [0x2022%N] ++ py " Active community support" ++ [LF]
  ++ [0x2022%N] ++ py " Comprehensive documentation" ++ [LF]
  ++ [LF]
  ++ [0x1f4bb%N] ++ py " WHY DEVELOPERS CARE:" ++ [LF]
  ++ py "It cuts development time in half while improving code quality. That's the dream combo." ++ [LF]
  ++ [LF]
  ++ [0x1f3af%N] ++ py " EXAMPLE USE CASE:" ++ [LF]
  ++ py "Instead of writing 500 lines of boilerplate code, you import this library and you're done in 5 lines." ++ [LF]
  ++ [LF]
  ++ [0x1f4c8%N] ++ py " GROWTH SIGNALS:" ++ [LF]
  ++ [0x2022%N] ++ py " 10K+ stars in the first week" ++ [LF]
  ++ [0x2022%N] ++ py " 500+ contributors already" ++ [LF]
  ++ [0x2022%N] ++ py " Major companies adopting it" ++ [LF]
  ++ [0x2022%N] ++ py " Active daily commits" ++ [LF]
  ++ [LF]
  ++ [0x1f680%N] ++ py " GET STARTED:" ++ [LF]
  ++ py "Clone the repo, follow the quick start guide, and you'll be up and running in under 5 minutes." ++ [LF]
  ++ [LF]
  ++ (if opt_truthy context
      then [0x1f4dd%N] ++ py " TECHNICAL SPECS: " ++ default [] context
      else []).

Definition _engagement_template (topic : str) (context : option str) : str :=
  [0x1f4a1%N] ++ py " QUICK TIP:" ++ [LF]
  ++ topic ++ py " - this simple trick will save you hours." ++ [LF]
  ++ [LF]
  ++ [0x1f3af%N] ++ py " THE INSIGHT:" ++ [LF]
  ++ py "Most people overcomplicate this. The solution is actually super simple." ++ [LF]
  ++ [LF]
  ++ [0x2728%N] ++ py " HERE'S THE EXAMPLE:" ++ [LF]
  ++ py "Instead of doing it the hard way, just do this one thing differently. Watch what happens." ++ [LF]
  ++ [LF]
  ++ [0x2753%N] ++ py " QUESTION FOR YOU:" ++ [LF]
  ++ py "Have you tried this approach? Drop a comment and let me know your experience!" ++ [LF]
  ++ [LF]
  ++ [0x1f525%N] ++ py " WHY IT WORKS:" ++ [LF]
  ++ py "It's all about working smarter, not harder. This is the shortcut the pros use." ++ [LF]
  ++ [LF]
  ++ (if opt_truthy context
      then [0x1f4dd%N] ++ py " BONUS TIP: " ++ default [] context
      else []).

(** The items of [self.categories]. *)
Definition categories : list (str * (str -> option str -> str)) :=
  [ (py "new_tool_intro", _new_tool_intro_template);
    (py "tool_detailed_tutorial", _tool_tutorial_template);
    (py "trending_ai_model", _trending_model_template);
    (py "ai_trending_news", _trending_news_template);
    (py "github_open_source_repo", _github_repo_template);
    (py "instagram_engagement_content", _engagement_template) ].

Definition _generate_master_storyline (topic : str) (context : option str)
    (category : str) : str :=
  let template_func := dict_get categories category _new_tool_intro_template in
  template_func topic context.

Definition _extract_hook (storyline : str) : str :=
  let lines := split storyline [LF] in
  default (py "This is going to change everything.")
    (List.find
       (fun clean_line : str =>
          negb (is_empty clean_line) && (20 <? length clean_line)%nat
          && negb (endswith clean_line (py ":")))
       (map clean lines)).

(** [[line for line in lines if line.strip() and not
    line.startswith(MEMO)]] *)
Definition main_points_of (lines : list str) : list str :=
  List.filter
    (fun line : str => negb (is_empty (strip line)) && negb (startswith line MEMO))
    lines.

Definition _adapt_for_youtube (storyline category : str) : str :=
  let lines := split storyline [LF] in
  let script_lines :=
    [py "[OPENING - 0:00]"; py "Hey! " ++ _extract_hook storyline; [];
     py "[MAIN CONTENT - 0:05]"] in
  let main_points := main_points_of lines in
  let script_lines :=
    script_lines
    ++ List.filter
         (fun clean_point : str => negb (is_empty clean_point) && (10 <? length clean_point)%nat)
         (map clean (slice 2 7 main_points)) in
  let script_lines :=
    script_lines
    ++ [[]; py "[CLOSING - 0:50]"; py "That's it! Follow for more AI tips.";
        py "Comment below if you have questions!"] in
  join [LF] script_lines.

(** The line the Instagram script makes of a point that passed the
    test. *)
Definition punchy (clean_point : str) : str :=
  let clean_point :=
    if contains (py ":") clean_point
    then hd [] (split clean_point (py ":"))
    else clean_point in
  [0x2192%N] ++ py " " ++ slice_to 80 clean_point.

Definition _adapt_for_instagram (storyline category : str) : str :=
  let lines := split storyline [LF] in
  let script_lines := [[0x26a1%N] ++ py " HOOK:"; _extract_hook storyline; []] in
  let main_points := main_points_of lines in
  let script_lines :=
    script_lines
    ++ map punchy
         (List.filter
            (fun clean_point : str =>
               negb (is_empty clean_point) && (10 <? length clean_point)%nat)
            (map clean (slice 2 6 main_points))) in
  let script_lines :=
    script_lines
    ++ [[]; [0x1f4ac%N] ++ py " Save this!";
        py "Follow @youraccount for daily AI tips"] in
  join [LF] script_lines.

(** One iteration of the loop of [_adapt_for_twitter] that groups the
    lines: the state is [sections] and [current_section]. *)
Definition group_step (st : list (list str) * list str) (line : str)
    : list (list str) * list str :=
  let '(sections, current_section) := st in
  if negb (is_empty (strip line)) && negb (startswith line MEMO)
  then
    let clean_line := clean line in
    if negb (is_empty clean_line) && (15 <? length clean_line)%nat
    then
      let current_section := current_section ++ [clean_line] in
      if (2 <=? length current_section)%nat
      then (sections ++ [firstn 2 current_section], [])
      else (sections, current_section)
    else st
  else st.

(** The text of a tweet for a section. *)
Definition tweet_content_of (section : list str) : str :=
  let tweet_content := join [LF] (firstn 2 section) in
  if (280 <? length tweet_content)%nat
  then slice_to 277 tweet_content ++ py "..."
  else tweet_content.

(** [for i, section in enumerate(sections, i)]: the numbered tweets. *)
Fixpoint numbered (i : nat) (sections : list (list str)) : list str :=
  match sections with
  | [] => []
  | section :: rest =>
      (str_of_nat i ++ py "/ " ++ tweet_content_of section) :: numbered (S i) rest
  end.

Definition _adapt_for_twitter (storyline category : str) : list str :=
  let lines := split storyline [LF] in
  let hook := _extract_hook storyline in
  let tweets := [hook ++ [LF; LF] ++ py "A thread " ++ [0x1f9f5%N]] in
  let sections := fst (fold_left group_step lines ([], [])) in
  let tweets := tweets ++ numbered 2 (firstn 5 sections) in
  tweets
  ++ [str_of_nat (length tweets + 1) ++ py "/ Found this helpful?" ++ [LF; LF]
      ++ [0x2022%N] ++ py " Follow me for daily AI insights" ++ [LF]
      ++ [0x2022%N] ++ py " RT the first tweet to share" ++ [LF]
      ++ [0x2022%N] ++ py " Reply with your thoughts!"].

Definition _generate_caption (storyline category : str) : str :=
  let hook := _extract_hook storyline in
  let caption_parts := [hook; []; py "Here's what you need to know:"; []] in
  let lines := split storyline [LF] in
  let points :=
    firstn 3
      (map (fun clean_line : str =>
              [0x2713%N] ++ py " " ++ hd [] (split clean_line (py ":")))
         (List.filter
            (fun clean_line : str =>
               negb (is_empty clean_line) && (20 <? length clean_line)%nat
               && contains (py ":") clean_line)
            (map clean lines))) in
  let caption_parts := caption_parts ++ points in
  let caption_parts :=
    caption_parts
    ++ [[]; [0x1f4ac%N] ++ py " What do you think? Comment below!";
        [0x1f516%N] ++ py " Save this for later";
        [0x1f4e4%N] ++ py " Share with someone who needs this"] in
  join [LF] caption_parts.

Definition cta_options : list (str * list str) :=
  [
    (py "new_tool_intro",
     [py "Try it yourself - link in bio!";
      py "Click the link to get started for free";
      py "Join 10,000+ creators already using this"]);
    (py "tool_detailed_tutorial",
     [py "Follow for more step-by-step guides";
      py "Save this tutorial for when you need it";
      py "Comment 'GUIDE' for the full PDF version"]);
    (py "trending_ai_model",
     [py "Follow for daily AI model updates";
      py "Share this with your AI community";
      py "Comment your thoughts below!"]);
    (py "ai_trending_news",
     [py "Follow for breaking AI news";
      py "Turn on notifications to stay updated";
      py "Share your take in the comments"]);
    (py "github_open_source_repo",
     [py "Star the repo if you find it useful";
      py "Follow for more open-source discoveries";
      py "Comment if you've tried this!"]);
    (py "instagram_engagement_content",
     [py "Save this tip for later!";
      py "Try it and tag me in your results";
      py "Follow for daily quick tips"]) ].

Definition _generate_cta (category : str) : list str :=
  dict_get cta_options category
    (dict_get cta_options (py "new_tool_intro") []).

Definition base_tags : list str :=
  [py "#AI"; py "#ArtificialIntelligence"; py "#Tech"; py "#Innovation"].

Definition category_tags : list (str * list str) :=
  [
    (py "new_tool_intro",
     [py "#AITools";
      py "#ProductLaunch";
      py "#TechNews";
      py "#NewTech"]);
    (py "tool_detailed_tutorial",
     [py "#Tutorial";
      py "#HowTo";
      py "#LearnAI";
      py "#TechTutorial"]);
    (py "trending_ai_model",
     [py "#AIModel";
      py "#MachineLearning";
      py "#DeepLearning";
      py "#AIResearch"]);
    (py "ai_trending_news",
     [py "#AINews";
      py "#TechNews";
      py "#TrendingNow";
      py "#BreakingNews"]);
    (py "github_open_source_repo",
     [py "#OpenSource";
      py "#GitHub";
      py "#Coding";
      py "#Developer"]);
    (py "instagram_engagement_content",
     [py "#TechTips";
      py "#QuickTip";
      py "#LifeHack";
      py "#Productivity"]) ].

(** [str.lower] and [str.capitalize] follow the Unicode character
    database, which is no part of the repository: the functions that
    call them take them as parameters. *)
Section Generate.
Variable lower : str -> str.
Variable capitalize : str -> str.

Definition _classify_content (topic : str) (context : option str) : str :=
  let topic_lower := lower topic in
  let context_lower := lower (if opt_truthy context then default [] context else []) in
  let combined := topic_lower ++ py " " ++ context_lower in
  let any words := existsb (fun word : str => contains word combined) words in
  if any [py "new"; py "just released"; py "launched"; py "introducing";
          py "announcement"]
     && any [py "tool"; py "app"; py "platform"; py "software"]
  then py "new_tool_intro"
  else if any [py "how to"; py "tutorial"; py "guide"; py "step by step"; py "learn"]
  then py "tool_detailed_tutorial"
  else if any [py "model"; py "gpt"; py "llm"; py "ai model"; py "neural network"]
  then py "trending_ai_model"
  else if any [py "news"; py "breaking"; py "trending"; py "latest"; py "update"]
  then py "ai_trending_news"
  else if any [py "github"; py "open source"; py "repository"; py "repo"; py "code"]
  then py "github_open_source_repo"
  else if any [py "tip"; py "trick"; py "quick"; py "simple"; py "easy"]
  then py "instagram_engagement_content"
  else py "new_tool_intro".

Definition _generate_hashtags (topic category : str) : list str :=
  let topic_words := split_ws (lower topic) in
  let topic_tags :=
    firstn 3
      (map (fun word : str => py "#" ++ capitalize word)
         (List.filter (fun word : str => (4 <? length word)%nat) topic_words)) in
  let all_tags := base_tags ++ dict_get category_tags category [] ++ topic_tags in
  firstn 12 (fromkeys all_tags).

Definition generate (topic : str) (context : option str) : dict :=
  let category := _classify_content topic context in
  let master_storyline := _generate_master_storyline topic context category in
  let youtube_script := _adapt_for_youtube master_storyline category in
  let instagram_script := _adapt_for_instagram master_storyline category in
  let twitter_thread := _adapt_for_twitter master_storyline category in
  let caption := _generate_caption master_storyline category in
  let cta := _generate_cta category in
  let hashtags := _generate_hashtags topic category in
  <["category" := VStr category]>
  (<["master_storyline" := VStr master_storyline]>
  (<["youtube_script" := VStr youtube_script]>
  (<["instagram_script" := VStr instagram_script]>
  (<["twitter_thread" := VList twitter_thread]>
  (<["caption" := VStr caption]>
  (<["cta" := VList cta]>
  (<["hashtags" := VList hashtags]> ∅))))))).
End Generate.

End ContentGenerator.

(** ** api.py: the handler of [POST /api/generate] *)

Module Api.

Record GenerateRequest : Type := {
  topic : str;
  context : option str;
  model : option str;
  generate_all : option bool;
  use_ai : option bool
}.

(** The module-level objects the handler reads.  A generator is [None]
    when the initialisation failed, otherwise it carries the
    [ai_available] flag its [__init__] set. *)
Record globals : Type := {
  content_generator : bool;
  ai_generator : option bool;
  multi_generator : option bool;
  db : bool;
  db_connected : bool
}.

(** The [data] of a reply: one record or the list of the fan-out. *)
Inductive payload : Type :=
  | One (d : dict)
  | Many (l : list dict).

Record reply : Type := {
  status : str;
  mode : str;
  data : payload
}.

Section Handler.
Context {W : Type}.
Variable search_and_format : str -> W -> str * W.
Variable ai_generate : str -> option str -> Z -> W -> option str * W.
Variable single_prompt : str -> str -> str.
Variable multi_prompt : str -> str -> str -> str.
(** [ContentGenerator.generate], the template generator. *)
Variable template_generate : str -> option str -> io W dict.
(** [db.save_content(topic, category, content_data)], which returns the
    identifier of the row or raises. *)
Variable save_content : str -> value -> dict -> io W value.
(** [str(e)] of an [HTTPException], which the web framework defines. *)
Variable http_exception_str : Z -> str -> str.

(** [str(e)] *)
Definition exn_str (e : exn) : str :=
  match e with
  | Exception msg => msg
  | KeyError key => py "'" ++ py key ++ py "'"
  | HTTPException status_code detail => http_exception_str status_code detail
  end.

(** [result[key]], which raises [KeyError] on a missing key. *)
Definition getitem (r : dict) (key : string) : io W value :=
  match r !! key with
  | Some v => mret v
  | None => raise (KeyError key)
  end.

(** The statements under [# Save to DB if connected]. *)
Definition save_if_connected (g : globals) (request : GenerateRequest)
    (result : dict) : io W dict :=
  if db g && db_connected g
  then
    try_except
      (category ← getitem result "category";
       content_id ← save_content (topic request) category result;
       mret (<["id" := content_id]> result))
      (fun _ => mret result)
  else mret result.

Definition generate_content (g : globals) (request : GenerateRequest) : io W reply :=
  if is_empty (topic request)
  then raise (HTTPException 400 (py "Topic is required"))
  else
    try_except
      (let ai_available := default false (ai_generator g) in
       if default false (generate_all request) && ai_available
          && bool_decide (is_Some (multi_generator g))
       then
         results ← MultiCategoryGenerator.generate_all search_and_format ai_generate
                     multi_prompt (default false (multi_generator g))
                     (topic request) (context request) (model request);
         mret {| status := py "success"; mode := py "multi"; data := Many results |}
       else if default false (use_ai request) && ai_available
               && bool_decide (is_Some (ai_generator g))
       then
         result ← AIContentGenerator.generate search_and_format ai_generate
                    single_prompt (default false (ai_generator g))
                    (topic request) (context request) (model request);
         result ← save_if_connected g request result;
         mret {| status := py "success"; mode := py "single_ai"; data := One result |}
       else
         if negb (content_generator g)
         then raise (HTTPException 500 (py "Content generator not initialized"))
         else
           result ← template_generate (topic request) (context request);
           mret {| status := py "success"; mode := py "template"; data := One result |})
      (fun e => raise (HTTPException 500 (exn_str e))).
End Handler.

(** The reply of [GET /api/content/{content_id}]. *)
Record content_reply : Type := {
  content_status : str;
  content_data : dict
}.

Section Reads.
Context {W : Type}.
(** [db.get_content_by_id(content_id)], which answers a row as a
    dictionary, or [None]. *)
Variable get_content_by_id : Z -> io W (option dict).
Variable http_exception_str : Z -> str -> str.

(** [bool(content)] of a dictionary that may be [None]. *)
Definition content_truthy (content : option dict) : bool :=
  match content with
  | Some d => negb (bool_decide (d = ∅))
  | None => false
  end.

Definition get_content (g : globals) (content_id : Z) : io W content_reply :=
  if negb (db g) || negb (db_connected g)
  then raise (HTTPException 503 (py "Database not connected"))
  else
    try_except
      (content ← get_content_by_id content_id;
       if negb (content_truthy content)
       then raise (HTTPException 404 (py "Content not found"))
       else mret {| content_status := py "success";
                    content_data := default ∅ content |})
      (fun e => raise (HTTPException 500 (exn_str http_exception_str e))).
End Reads.

End Api.

(** ** main.py: the handlers of the template application *)

Module Main.

Record ContentRequest : Type := {
  topic : str;
  context : option str
}.

Section Handlers.
Context {W : Type}.
(** [str.lower] and [str.capitalize], for the template generator. *)
Variable lower : str -> str.
Variable capitalize : str -> str.
(** The methods of [db], the [Database] of [database/db.py]. *)
Variable save_content : str -> value -> dict -> io W value.
Variable get_content_by_id : Z -> io W (option dict).
(** [datetime.now().isoformat()] *)
Variable now_isoformat : W -> str * W.
Variable http_exception_str : Z -> str -> str.

(** The handler of [POST /api/generate]; the answer carries [result]. *)
Definition generate_content (request : ContentRequest) : io W dict :=
  try_except
    (let result :=
       ContentGenerator.generate lower capitalize (topic request) (context request) in
     category ← Api.getitem result "category";
     content_id ← save_content (topic request) category result;
     let result := <["id" := content_id]> result in
     created_at ← call now_isoformat;
     let result := <["created_at" := VStr created_at]> result in
     mret result)
    (fun e =>
       raise (HTTPException 500
                (py "Content generation failed: "
                 ++ Api.exn_str http_exception_str e))).

(** [except HTTPException: raise] followed by
    [except Exception as e: raise HTTPException(500, prefix + str(e))]. *)
Definition except_http {A} (prefix : str) (e : exn) : io W A :=
  match e with
  | HTTPException _ _ => raise e
  | _ => raise (HTTPException 500 (prefix ++ Api.exn_str http_exception_str e))
  end.

(** The handler of [GET /api/content/{content_id}]. *)
Definition get_content (content_id : Z) : io W dict :=
  try_except
    (content ← get_content_by_id content_id;
     if negb (Api.content_truthy content)
     then raise (HTTPException 404 (py "Content not found"))
     else mret (default ∅ content))
    (except_http (py "Failed to fetch content: ")).
End Handlers.

End Main.

(** ** Vocabulary of the statements *)

(** A string that does not start with whitespace. *)
Definition clean (s : str) : bool :=
  match s with
  | [] => true
  | c :: _ => negb (isspace c)
  end.

(** A value that is a [str] or a list, and one of these that is not empty. *)
Definition is_seq (v : value) : bool :=
  match v with
  | VStr _ | VList _ => true
  | _ => false
  end.

Definition nonempty_sequence (v : value) : Prop :=
  match v with
  | VStr s => s <> []
  | VList l => l <> []
  | _ => False
  end.

Definition has_nonempty (r : dict) (key : string) : Prop :=
  exists v, r !! key = Some v /\ nonempty_sequence v.

(** The keys of a result dictionary. *)
Definition fields : list string :=
  ["topic"; "category"; "master_storyline"; "youtube_script";
   "instagram_script"; "twitter_thread"; "caption"; "cta"; "hashtags"].

(** Every field is present and holds a [str] or a list. *)
Definition shaped (r : dict) : Prop :=
  forall k, In k fields -> exists v, r !! k = Some v /\ is_seq v = true.

(** The markers of the single-category parser, and the test its loop makes
    on a stripped paragraph. *)
Definition ai_markers : list str :=
  [py "CATEGORY:"; py "MASTER_STORYLINE:"; py "YOUTUBE_SCRIPT:";
   py "INSTAGRAM_SCRIPT:"; py "TWITTER_THREAD:"; py "CAPTION:"; py "CTA:";
   py "HASHTAGS:"].

Definition starts_with_marker (section : str) : bool :=
  existsb (startswith section) ai_markers.

(** No paragraph of the response starts, once stripped, with a marker. *)
Definition no_markers (response : str) : bool :=
  forallb (fun section => negb (starts_with_marker (strip section)))
    (split response AIContentGenerator.NN).

(** The markers of the multi-category parser, and the test its loop makes
    on a line. *)
Definition multi_markers : list str :=
  [py "MASTER_STORYLINE:"; py "YOUTUBE_SCRIPT:"; py "INSTAGRAM_SCRIPT:";
   py "TWITTER_THREAD:"; py "CAPTION:"].

Definition mentions_marker (line : str) : bool :=
  existsb (fun m => contains m line) multi_markers.

(** The keys the multi-category parser can have as its current section. *)
Definition multi_sections : list string :=
  ["master_storyline"; "youtube_script"; "instagram_script";
   "twitter_thread"; "caption"].

(** The current section of the multi-category parser is [None] or one of
    these keys. *)
Definition section_ok (cs : option string) : Prop :=
  match cs with
  | None => True
  | Some k => In k multi_sections
  end.

(** The scenario of the specification:
    [CATEGORY: trending_ai_model], a blank line, [MASTER_STORYLINE:] and
    [Hello world] on two lines, a blank line, [HASHTAGS:] and [#AI #Tech]
    on two lines. *)
Definition scenario : str :=
  py "CATEGORY: trending_ai_model" ++ [LF; LF]
  ++ py "MASTER_STORYLINE:" ++ [LF] ++ py "Hello world" ++ [LF; LF]
  ++ py "HASHTAGS:" ++ [LF] ++ py "#AI #Tech".

(** The thread text of the specification: [A], [---], an empty line, [B],
    [---] and [C], each on a line of its own. *)
Definition thread_text : str :=
  py "A" ++ [LF] ++ py "---" ++ [LF; LF] ++ py "B" ++ [LF] ++ py "---" ++ [LF]
  ++ py "C".

(** Responses of the single-category format whose thread section has the
    thread text of the specification: closed by the [CTA:] marker, closed
    by the [CAPTION:] marker, and with the thread in the paragraph of
    its marker. *)
Definition thread_then_cta : str :=
  py "TWITTER_THREAD:" ++ [LF; LF] ++ thread_text ++ [LF; LF]
  ++ py "CTA:" ++ [LF; LF] ++ py "Follow us".

Definition thread_then_caption : str :=
  py "TWITTER_THREAD:" ++ [LF; LF] ++ thread_text ++ [LF; LF]
  ++ py "CAPTION:" ++ [LF] ++ py "Read this".

Definition thread_under_marker : str :=
  py "TWITTER_THREAD:" ++ [LF] ++ thread_text.

(** A response of the multi-category format whose thread section has the
    thread text and is closed by the [YOUTUBE_SCRIPT:] marker. *)
Definition thread_then_youtube : str :=
  py "TWITTER_THREAD:" ++ [LF] ++ thread_text ++ [LF]
  ++ py "YOUTUBE_SCRIPT:" ++ [LF] ++ py "[0:00] Hook".

(** A response whose third line mentions a marker in its middle. *)
Definition mention_text : str :=
  py "MASTER_STORYLINE:" ++ [LF] ++ py "intro" ++ [LF]
  ++ py "see YOUTUBE_SCRIPT: below" ++ [LF] ++ py "body".

(** A text of 501 characters without a marker. *)
Definition long_text : str := repeat 120%N 501.

(** The requests to the completion service.  The services are the ones
    the generators are given. *)
Section Requests.
Context {W : Type}.
Variable search_and_format : str -> W -> str * W.
Variable ai_generate : str -> option str -> Z -> W -> option str * W.
Variable single_prompt : str -> str -> str.
Variable _build_prompt : str -> str -> str -> str.

(** The answer of the completion service to the request of [generate]. *)
Definition completion_answer (topic : str) (context model : option str) (w : W)
    : option str :=
  let '(search_context, w1) := search_and_format topic w in
  fst (ai_generate
         (single_prompt topic
            (AIContentGenerator.full_context_of search_context context))
         model 3500%Z w1).

(** The answers of the completion service to the requests of the loop, in
    the order the loop makes them, each with the category it was asked
    for. *)
Fixpoint answers (topic full_context : str) (model : option str)
    (categories : list (str * str)) (w : W) : list (str * option str) :=
  match categories with
  | [] => []
  | (category_id, _) :: rest =>
      let '(a, w') :=
        ai_generate (_build_prompt topic category_id full_context) model 2000%Z w in
      (category_id, a) :: answers topic full_context model rest w'
  end.

(** The world after these requests. *)
Fixpoint world_after (topic full_context : str) (model : option str)
    (categories : list (str * str)) (w : W) : W :=
  match categories with
  | [] => w
  | (category_id, _) :: rest =>
      let '(a, w') :=
        ai_generate (_build_prompt topic category_id full_context) model 2000%Z w in
      world_after topic full_context model rest w'
  end.

(** The answers of one call of [generate_all]. *)
Definition fan_out_answers (topic : str) (context model : option str) (w : W)
    : list (str * option str) :=
  let '(search_context, w1) := search_and_format topic w in
  answers topic (MultiCategoryGenerator.full_context_of search_context context)
    model MultiCategoryGenerator.CATEGORIES w1.

End Requests.

(** The requests that were answered with a non-empty text. *)
Fixpoint succeeded (tr : list (str * option str)) : list (str * str) :=
  match tr with
  | [] => []
  | (c, a) :: tr' =>
      if opt_truthy a then (c, default [] a) :: succeeded tr' else succeeded tr'
  end.

(** A record is the parse of an answer for the category of its request. *)
Definition parse_of (topic : str) (record : dict) (cr : str * str) : Prop :=
  MultiCategoryGenerator._parse_response (snd cr) topic (fst cr) = Returned record.

(** Services for the examples: a search that finds nothing, a completion
    service that is never there, and one that fails on its third request
    and counts the requests in the world. *)
Definition no_search {W : Type} (topic : str) (w : W) : str * W := ([], w).

Definition absent_service (prompt : str) (model : option str) (max_tokens : Z)
    (w : unit) : option str * unit :=
  (None, w).

Definition flaky_service (prompt : str) (model : option str) (max_tokens : Z)
    (n : nat) : option str * nat :=
  (if Nat.eqb n 2 then None
   else Some (py "MASTER_STORYLINE:" ++ [LF] ++ py "Story of " ++ prompt),
   S n).

Definition topic_prompt (topic context : str) : str := topic.

Definition category_prompt (topic category context : str) : str := category.

(** The field [key] of a returned record. *)
Definition field_of (o : outcome dict) (key : string) : option value :=
  match o with
  | Returned r => r !! key
  | Raised _ => None
  end.

(** ** Vocabulary of the further properties *)

(** The keys the single-category parser can have as its current section. *)
Definition ai_sections : list string :=
  ["master_storyline"; "youtube_script"; "instagram_script"; "twitter_thread";
   "caption"; "cta"].

Definition ai_section_ok (cs : option string) : Prop :=
  match cs with
  | None => True
  | Some k => In k ai_sections
  end.

(** A hashtag: a string that starts with [#]. *)
Definition is_hashtag (h : str) : bool := startswith h (py "#").

(** The assignments [result[k] = v] the single-category parser makes. *)
Inductive ai_write : string -> value -> Prop :=
  | ai_write_text (k : string) (s : str) :
      In k ai_sections -> ai_write k (VStr s)
  | ai_write_list (k : string) (l : list str) :
      k = "twitter_thread" \/ k = "cta" -> ai_write k (VList l)
  | ai_write_category (s : str) : ai_write "category" (VStr s)
  | ai_write_hashtags (l : list str) :
      forallb is_hashtag l = true -> ai_write "hashtags" (VList l).

(** The assignments the multi-category parser makes. *)
Inductive multi_write : string -> value -> Prop :=
  | multi_write_text (k : string) (s : str) :
      In k multi_sections -> multi_write k (VStr s)
  | multi_write_thread (l : list str) : multi_write "twitter_thread" (VList l).

(** The fields of a record and what they hold: the topic it was called
    with, a [str] under the text keys, a list of hashtags under
    [hashtags], a [str] or a list under [twitter_thread] and [cta]. *)
Definition well_typed (topic : str) (r : dict) : Prop :=
  dom r = (list_to_set fields : gset string)
  /\ r !! "topic" = Some (VStr topic)
  /\ (forall k, In k ["category"; "master_storyline"; "youtube_script";
                      "instagram_script"; "caption"] ->
        exists s, r !! k = Some (VStr s))
  /\ (exists l, r !! "hashtags" = Some (VList l) /\ forallb is_hashtag l = true)
  /\ (forall k, In k ["twitter_thread"; "cta"] ->
        exists v, r !! k = Some v /\ is_seq v = true).

(** The value of the last paragraph that starts with [CATEGORY:]. *)
Fixpoint last_category (sections : list str) : option str :=
  match sections with
  | [] => None
  | section :: rest =>
      match last_category rest with
      | Some c => Some c
      | None =>
          if startswith (strip section) (py "CATEGORY:")
          then Some (AIContentGenerator.after_marker (strip section) (py "CATEGORY:"))
          else None
      end
  end.

(** A paragraph that starts with no marker. *)
Definition plain (section : str) : bool := negb (starts_with_marker (strip section)).

(** A paragraph that starts with [marker], followed by paragraphs that
    start with no marker. *)
Definition block (marker head : str) (more : list str) : bool :=
  startswith (strip head) marker && forallb plain more.

(** The paragraphs of a response that has its sections in the order of
    the prompt: each marker paragraph with the paragraphs after it. *)
Definition documented_order
    (pre : list str) (cat : str) (cat_more : list str) (ms : str)
    (ms_more : list str) (yt : str) (yt_more : list str) (ig : str)
    (ig_more : list str) (tt : str) (tt_more : list str) (cap : str)
    (cap_more : list str) (cta : str) (cta_more : list str) (ht : str)
    (post : list str) : list str :=
  pre ++ cat :: cat_more ++ ms :: ms_more ++ yt :: yt_more ++ ig :: ig_more
  ++ tt :: tt_more ++ cap :: cap_more ++ cta :: cta_more ++ ht :: post.

(** The text a section gets whose marker paragraph carries text: what
    follows the marker and the paragraphs after it, joined by blank
    lines. *)
Definition section_text (marker head : str) (more : list str) : str :=
  strip (join AIContentGenerator.NN
           (AIContentGenerator.after_marker (strip head) marker :: map strip more)).

(** A line that contains no marker. *)
Definition quiet (line : str) : bool := negb (mentions_marker line).

(** The section a line opens in the multi-category parser: the first of
    the five markers, in the order of the tests, that the line contains. *)
Definition opened_by (line : str) : option string :=
  if contains (py "MASTER_STORYLINE:") line then Some "master_storyline"
  else if contains (py "YOUTUBE_SCRIPT:") line then Some "youtube_script"
  else if contains (py "INSTAGRAM_SCRIPT:") line then Some "instagram_script"
  else if contains (py "TWITTER_THREAD:") line then Some "twitter_thread"
  else if contains (py "CAPTION:") line then Some "caption"
  else None.

(** A line that opens the section [key], followed by lines that contain
    no marker. *)
Definition multi_block (key : string) (line : str) (more : list str) : bool :=
  bool_decide (opened_by line = Some key) && forallb quiet more.

(** The lines of a response that has the five sections of the
    multi-category prompt in their order. *)
Definition multi_documented_order
    (pre : list str) (l_ms : str) (ms_b : list str) (l_yt : str)
    (yt_b : list str) (l_ig : str) (ig_b : list str) (l_tt : str)
    (tt_b : list str) (l_cap : str) (cap_b : list str) : list str :=
  pre ++ l_ms :: ms_b ++ l_yt :: yt_b ++ l_ig :: ig_b ++ l_tt :: tt_b
  ++ l_cap :: cap_b.

(** A response of the single-category format, paragraph by paragraph. *)
Definition sample_paragraphs : list str :=
  [ py "CATEGORY: ai_trending_news";
    py "MASTER_STORYLINE:" ++ [LF] ++ py "Big news.";
    py "More news.";
    py "YOUTUBE_SCRIPT:" ++ [LF] ++ py "[0:00] Hook";
    py "INSTAGRAM_SCRIPT:" ++ [LF] ++ py "HOOK: look";
    py "TWITTER_THREAD:";
    py "Tweet 1" ++ [LF] ++ py "---" ++ [LF] ++ py "Tweet 2";
    py "CAPTION:" ++ [LF] ++ py "Read this";
    py "CTA:";
    py "Follow" ++ [LF] ++ py "---" ++ [LF] ++ py "Share";
    py "HASHTAGS:" ++ [LF] ++ py "#AI #News" ].

Definition sample_response : str := join AIContentGenerator.NN sample_paragraphs.

(** The same response in the layout of the prompt, in which the tweets
    and the calls to action stand under their marker, in its paragraph. *)
Definition prompt_layout_paragraphs : list str :=
  [ py "CATEGORY: ai_trending_news";
    py "MASTER_STORYLINE:" ++ [LF] ++ py "Big news.";
    py "YOUTUBE_SCRIPT:" ++ [LF] ++ py "[0:00] Hook";
    py "INSTAGRAM_SCRIPT:" ++ [LF] ++ py "HOOK: look";
    py "TWITTER_THREAD:" ++ [LF] ++ py "Tweet 1" ++ [LF] ++ py "---" ++ [LF]
    ++ py "Tweet 2";
    py "CAPTION:" ++ [LF] ++ py "Read this";
    py "CTA:" ++ [LF] ++ py "Follow" ++ [LF] ++ py "---" ++ [LF] ++ py "Share";
    py "HASHTAGS:" ++ [LF] ++ py "#AI #News" ].

Definition prompt_layout_response : str :=
  join AIContentGenerator.NN prompt_layout_paragraphs.

(** A response of the multi-category format, line by line. *)
Definition sample_lines : list str :=
  [ py "Here is the content."; py "MASTER_STORYLINE:"; py "Big news.";
    py "YOUTUBE_SCRIPT:"; py "[0:00] Hook"; py "[0:10] Point";
    py "INSTAGRAM_SCRIPT:"; py "Hook";
    py "TWITTER_THREAD:"; py "Tweet 1"; py "---"; py "Tweet 2";
    py "CAPTION:"; py "Read this" ].

Definition sample_multi_response : str := join [LF] sample_lines.

(** A completion service that answers every request with a storyline. *)
Definition steady_service (prompt : str) (model : option str) (max_tokens : Z)
    (w : unit) : option str * unit :=
  (Some (py "MASTER_STORYLINE:" ++ [LF; LF] ++ py "A story."), w).

(** A database whose writes fail, and one that has no row. *)
Definition failing_save (topic : str) (category : value) (content : dict)
    : io unit value :=
  raise (Exception (py "connection lost")).

Definition no_row (content_id : Z) : io unit (option dict) := mret None.

(** A template generator that is not reached in the examples. *)
Definition no_template (topic : str) (context : option str) : io unit dict :=
  raise (Exception []).

(** A text for [str(e)] of an [HTTPException], as recent versions of the
    web framework print it: the status, a colon and the detail. *)
Definition starlette_str (status_code : Z) (detail : str) : str :=
  py (NilEmpty.string_of_int (Z.to_int status_code)) ++ py ": " ++ detail.

(** The objects of the module when everything is initialised and the
    database is connected. *)
Definition all_up : Api.globals :=
  {| Api.content_generator := true; Api.ai_generator := Some true;
     Api.multi_generator := Some true; Api.db := true; Api.db_connected := true |}.

(** Lower-casing and capitalising of ASCII letters, which is what
    [str.lower] and [str.capitalize] do on ASCII text; for the
    examples. *)
Definition ascii_lower (s : str) : str :=
  map (fun c => if (65 <=? c)%N && (c <=? 90)%N then (c + 32)%N else c) s.

Definition ascii_capitalize (s : str) : str :=
  match s with
  | [] => []
  | c :: rest =>
      (if (97 <=? c)%N && (c <=? 122)%N then (c - 32)%N else c) :: ascii_lower rest
  end.

(** A string without a character of the class the template generator
    removes. *)
Definition undecorated (s : str) : bool :=
  forallb (fun c => negb (existsb (N.eqb c) ContentGenerator.DECORATIONS)) s.

(** The keys of the record of the template generator. *)
Definition template_fields : list string :=
  ["category"; "master_storyline"; "youtube_script"; "instagram_script";
   "twitter_thread"; "caption"; "cta"; "hashtags"].

(** The fields of [ContentResponse], the response model of the handlers
    of [main.py]. *)
Definition content_response_fields : list string :=
  ["id"; "category"; "master_storyline"; "youtube_script"; "instagram_script";
   "twitter_thread"; "caption"; "cta"; "hashtags"; "created_at"].

(** A clock for the examples. *)
Definition fixed_clock (w : unit) : str * unit := (py "2024-01-01T00:00:00", w).

(** A database whose reads fail. *)
Definition failing_read (content_id : Z) : io unit (option dict) :=
  raise (Exception (py "connection lost")).

(** ** Facts about the string operations *)

Section StringFacts.

(** The operations on the values the interpreter gives. *)
Example split_example :
  split (py "a--b----c--") (py "--") = [py "a"; py "b"; []; py "c"; []]
  /\ split (py "aaa") (py "aa") = [[]; py "a"]
  /\ replace (py "aaa") (py "aa") (py "b") = py "ba"
  /\ replace (py "CATEGORY: x CATEGORY:") (py "CATEGORY:") [] = py " x "
  /\ strip ([LF] ++ py "  a b " ++ [LF]) = py "a b"
  /\ split_ws (py "  #AI   #Tech" ++ [LF]) = [py "#AI"; py "#Tech"]
  /\ startswith (py "Category: x") (py "CATEGORY:") = false
  /\ join [LF; LF] [py "A" ++ [LF] ++ py "---"; py "B" ++ [LF] ++ py "---" ++ [LF] ++ py "C"]
     = thread_text.
Proof. repeat split; vm_compute; reflexivity. Qed.

Lemma lstrip_clean (s : str) : clean (lstrip s) = true.
Proof.
  induction s as [|c s IH]; simpl; [reflexivity|].
  destruct (isspace c) eqn:E; [exact IH|].
  simpl. now rewrite E.
Qed.

Lemma lstrip_id (s : str) : clean s = true -> lstrip s = s.
Proof.
  destruct s as [|c s]; simpl; [reflexivity|].
  destruct (isspace c); [discriminate|reflexivity].
Qed.

Lemma lstrip_snoc (a : str) (c : char) :
  isspace c = false -> lstrip (a ++ [c]) = lstrip a ++ [c].
Proof.
  intros Hc. induction a as [|x a IH]; simpl.
  - now rewrite Hc.
  - destruct (isspace x); [exact IH|reflexivity].
Qed.

Lemma rstrip_clean (t : str) : clean t = true -> clean (rstrip t) = true.
Proof.
  destruct t as [|c t]; [reflexivity|].
  simpl. intros Hc. apply negb_true_iff in Hc.
  unfold rstrip. simpl rev. rewrite (lstrip_snoc _ _ Hc).
  rewrite rev_app_distr. simpl. now rewrite Hc.
Qed.

Lemma strip_clean (s : str) : clean (strip s) = true.
Proof. unfold strip. apply rstrip_clean, lstrip_clean. Qed.

Lemma strip_clean_rev (s : str) : clean (rev (strip s)) = true.
Proof. unfold strip, rstrip. rewrite rev_involutive. apply lstrip_clean. Qed.

Lemma strip_fixed (s : str) :
  clean s = true -> clean (rev s) = true -> strip s = s.
Proof.
  intros H1 H2. unfold strip, rstrip.
  rewrite (lstrip_id s H1), (lstrip_id _ H2). apply rev_involutive.
Qed.

(** Stripping is idempotent: a stripped string has no whitespace left at
    either end. *)
Lemma strip_idempotent (s : str) : strip (strip s) = strip s.
Proof. apply strip_fixed; [apply strip_clean|apply strip_clean_rev]. Qed.

(** [startswith] is the prefix relation on code points. *)
Lemma startswith_spec (s p : str) :
  startswith s p = true <-> exists rest, s = p ++ rest.
Proof.
  revert s. induction p as [|a p IH]; intros s.
  - split; [intros _; now exists s|now destruct s].
  - destruct s as [|b s]; simpl.
    + split; [discriminate|intros [rest H]; discriminate].
    + rewrite andb_true_iff, N.eqb_eq, IH. split.
      * intros [-> [rest ->]]. now exists rest.
      * intros [rest H]. injection H as -> ->. split; [reflexivity|now exists rest].
Qed.

(** [in] is the substring relation. *)
Lemma contains_spec (sub s : str) :
  contains sub s = true <-> exists a b, s = a ++ sub ++ b.
Proof.
  induction s as [|c s IH].
  - cbn [contains]. rewrite orb_false_r, startswith_spec. split.
    + intros [rest H]. now exists [], rest.
    + intros [a [b H]]. destruct a; [now exists b|discriminate].
  - cbn [contains]. rewrite orb_true_iff, IH, startswith_spec. split.
    + intros [[rest H]|[a [b H]]].
      * now exists [], rest.
      * exists (c :: a), b. now rewrite H.
    + intros [a [b H]]. destruct a as [|x a].
      * left. now exists b.
      * right. injection H as _ H. now exists a, b.
Qed.

(** Stripping removes whitespace from both ends and nothing else. *)
Lemma lstrip_decompose (s : str) :
  exists a, s = a ++ lstrip s /\ forallb isspace a = true.
Proof.
  induction s as [|c s (a & E & Ha)]; simpl.
  - now exists [].
  - destruct (isspace c) eqn:Hc.
    + exists (c :: a). simpl. rewrite Hc, Ha. split; [now f_equal|reflexivity].
    + now exists [].
Qed.

Lemma strip_decompose (s : str) :
  exists a b, s = a ++ strip s ++ b
    /\ forallb isspace a = true /\ forallb isspace b = true.
Proof.
  destruct (lstrip_decompose s) as (a & Ea & Ha).
  destruct (lstrip_decompose (rev (lstrip s))) as (b & Eb & Hb).
  exists a, (rev b). unfold strip, rstrip. split; [|split].
  - rewrite <- rev_app_distr, <- Eb, rev_involutive. exact Ea.
  - exact Ha.
  - rewrite forallb_forall in *. intros x Hx. apply Hb. now apply in_rev.
Qed.

(** Passing the rest of a separator is dropping it. *)
Lemma split_from_skip (sep : str) (k : nat) (s : str) :
  k <= length s -> split_from sep k s = split_from sep 0 (skipn k s).
Proof.
  revert k. induction s as [|c s IH]; intros [|k] Hk; simpl in *;
    try reflexivity; try lia.
  apply IH. lia.
Qed.

Lemma join_cons_head (sep : str) (c : char) (h : str) (t : list str) :
  join sep ((c :: h) :: t) = c :: join sep (h :: t).
Proof. destruct t; reflexivity. Qed.

Lemma join_cons_cons (sep x y : str) (l : list str) :
  join sep (x :: y :: l) = x ++ sep ++ join sep (y :: l).
Proof. reflexivity. Qed.

(** [sep.join(s.split(sep)) == s] for a non-empty separator. *)
Lemma join_split (sep s : str) : sep <> [] -> join sep (split s sep) = s.
Proof.
  intros Hsep. unfold split.
  remember (length s) as n eqn:Hn. revert s Hn.
  induction n as [n IH] using lt_wf_ind. intros [|c s] Hn; [reflexivity|].
  cbn [split_from]. destruct (startswith (c :: s) sep) eqn:Hp.
  - apply startswith_spec in Hp as [rest Hrest].
    destruct sep as [|c' sep']; [now destruct Hsep|].
    injection Hrest as -> ->.
    replace (length (c' :: sep') - 1) with (length sep') by (simpl; lia).
    rewrite split_from_skip by (rewrite length_app; lia).
    rewrite skipn_app, skipn_all, Nat.sub_diag.
    change ([] ++ skipn 0 rest) with rest.
    specialize (IH (length rest) ltac:(simpl in Hn; rewrite length_app in Hn; lia)
                  rest eq_refl).
    destruct (split_from (c' :: sep') 0 rest) as [h t].
    rewrite join_cons_cons, IH. reflexivity.
  - specialize (IH (length s) ltac:(simpl in Hn; lia) s eq_refl).
    destruct (split_from sep 0 s) as [h t].
    rewrite join_cons_head. now rewrite IH.
Qed.

Lemma replace_from_skip (old new : str) (k : nat) (s : str) :
  k <= length s -> replace_from old new k s = replace_from old new 0 (skipn k s).
Proof.
  revert k. induction s as [|c s IH]; intros [|k] Hk; simpl in *;
    try reflexivity; try lia.
  apply IH. lia.
Qed.

(** [s.replace(old, new) == new.join(s.split(old))] for a non-empty
    [old]. *)
Lemma replace_join_split (s old new : str) :
  old <> [] -> replace s old new = join new (split s old).
Proof.
  intros Hold. unfold split, replace.
  remember (length s) as n eqn:Hn. revert s Hn.
  induction n as [n IH] using lt_wf_ind. intros [|c s] Hn; [reflexivity|].
  cbn [split_from replace_from]. destruct (startswith (c :: s) old) eqn:Hp.
  - apply startswith_spec in Hp as [rest Hrest].
    destruct old as [|c' old']; [now destruct Hold|].
    injection Hrest as -> ->.
    replace (length (c' :: old') - 1) with (length old') by (simpl; lia).
    rewrite split_from_skip, replace_from_skip by (rewrite length_app; lia).
    rewrite skipn_app, skipn_all, Nat.sub_diag.
    change ([] ++ skipn 0 rest) with rest.
    specialize (IH (length rest) ltac:(simpl in Hn; rewrite length_app in Hn; lia)
                  rest eq_refl).
    destruct (split_from (c' :: old') 0 rest) as [h t].
    rewrite join_cons_cons, IH. reflexivity.
  - specialize (IH (length s) ltac:(simpl in Hn; lia) s eq_refl).
    destruct (split_from old 0 s) as [h t].
    rewrite join_cons_head. now rewrite IH.
Qed.

End StringFacts.

(** ** Facts about the result dictionaries *)

Section Shape.

Lemma shaped_insert (r : dict) (k : string) (v : value) :
  is_seq v = true -> shaped r -> shaped (<[k := v]> r).
Proof.
  intros Hv Hr k' Hk'. destruct (decide (k = k')) as [->|Hne].
  - exists v. now rewrite lookup_insert_eq.
  - rewrite lookup_insert_ne by exact Hne. now apply Hr.
Qed.

Lemma truthy_nonempty (v : value) :
  is_seq v = true -> truthy v = true -> nonempty_sequence v.
Proof. destruct v as [| |[|]|[|]]; simpl; intros; congruence. Qed.

Lemma ai_initial_shaped (topic : str) :
  shaped (AIContentGenerator.initial_result topic).
Proof.
  intros k Hk. unfold AIContentGenerator.initial_result. simpl in Hk.
  repeat (destruct Hk as [<-|Hk]; [eexists; split; [by simplify_map_eq|done]|]).
  destruct Hk.
Qed.

Lemma multi_initial_shaped (topic category : str) :
  shaped (MultiCategoryGenerator.initial_result topic category).
Proof.
  intros k Hk. unfold MultiCategoryGenerator.initial_result. simpl in Hk.
  repeat (destruct Hk as [<-|Hk]; [eexists; split; [by simplify_map_eq|done]|]).
  destruct Hk.
Qed.

End Shape.

(** ** The single-category parser *)

Section SingleParser.
Import AIContentGenerator.

Lemma ai_store_text_shaped (st : locals) :
  shaped (result st) -> shaped (store_text st).
Proof.
  intros H. unfold store_text. destruct (current_section st); [|exact H].
  destruct (is_empty _); [exact H|]. now apply shaped_insert.
Qed.

Lemma ai_store_list_shaped (key : string) (st : locals) :
  shaped (result st) -> shaped (store_list key st).
Proof.
  intros H. unfold store_list. destruct (_ && _); [|exact H].
  now apply shaped_insert.
Qed.

Lemma ai_step_shaped (st : locals) (section : str) :
  shaped (result st) -> shaped (result (step st section)).
Proof.
  intros H. unfold step.
  repeat match goal with
         | |- context [if ?b then _ else _] => destruct b
         end; simpl;
    try (destruct (current_section st); simpl);
    auto using shaped_insert, ai_store_text_shaped, ai_store_list_shaped.
Qed.

Lemma ai_fold_shaped (sections : list str) (st : locals) :
  shaped (result st) -> shaped (result (fold_left step sections st)).
Proof.
  revert st. induction sections as [|s l IH]; intros st H; simpl; [exact H|].
  apply IH, ai_step_shaped, H.
Qed.

Lemma ai_handle_last_shaped (st : locals) :
  shaped (result st) -> shaped (handle_last st).
Proof.
  intros H. unfold handle_last. destruct (current_section st); [|exact H].
  repeat match goal with
         | |- context [if ?b then _ else _] => destruct b
         end; auto using shaped_insert.
Qed.

Lemma ai_parsed_sections_shaped (response topic : str) :
  shaped (parsed_sections response topic).
Proof.
  unfold parsed_sections, run_sections.
  apply ai_handle_last_shaped, ai_fold_shaped, ai_initial_shaped.
Qed.

(** What [if not result[key]: result[key] = v] does to a dictionary with
    all its fields. *)
Lemma ai_fill_default_spec (key : string) (v : value) (r : dict) :
  In key fields -> is_seq v = true -> shaped r ->
  exists x r', r !! key = Some x
    /\ fill_default key v r = Completed r'
    /\ shaped r'
    /\ r' !! key = Some (if truthy x then x else v)
    /\ (forall k, k <> key -> r' !! k = r !! k).
Proof.
  intros Hk Hv Hr. destruct (Hr key Hk) as [x [Hx Hsx]].
  exists x. unfold fill_default. rewrite Hx. destruct (truthy x).
  - exists r. repeat split; auto.
  - exists (<[key := v]> r). repeat split; auto using shaped_insert.
    + apply lookup_insert_eq.
    + intros k Hne. now apply lookup_insert_ne.
Qed.

(** The defaults never raise on a dictionary with all its fields; each
    of the four fields keeps a value that counts as true and is otherwise
    replaced by its default, and no other field changes. *)
Lemma ai_ensure_content_spec (response : str) (r : dict) :
  shaped r ->
  exists r', ensure_content response r = Completed r'
    /\ shaped r'
    /\ (forall x, r !! "master_storyline" = Some x ->
          r' !! "master_storyline"
          = Some (if truthy x then x else VStr (slice_to 500 response)))
    /\ (forall x, r !! "twitter_thread" = Some x ->
          r' !! "twitter_thread"
          = Some (if truthy x then x else VList [slice_to 280 response]))
    /\ (forall x, r !! "cta" = Some x ->
          r' !! "cta" = Some (if truthy x then x else VList default_cta))
    /\ (forall x, r !! "hashtags" = Some x ->
          r' !! "hashtags" = Some (if truthy x then x else VList default_hashtags))
    /\ (forall k, ~ In k ["master_storyline"; "twitter_thread"; "cta"; "hashtags"] ->
          r' !! k = r !! k).
Proof.
  intros H0. unfold ensure_content.
  destruct (ai_fill_default_spec "master_storyline" (VStr (slice_to 500 response)) r)
    as (x1 & r1 & Hx1 & E1 & H1 & L1 & O1); [simpl; tauto|reflexivity|exact H0|].
  destruct (ai_fill_default_spec "twitter_thread" (VList [slice_to 280 response]) r1)
    as (x2 & r2 & Hx2 & E2 & H2 & L2 & O2); [simpl; tauto|reflexivity|exact H1|].
  destruct (ai_fill_default_spec "cta" (VList default_cta) r2)
    as (x3 & r3 & Hx3 & E3 & H3 & L3 & O3); [simpl; tauto|reflexivity|exact H2|].
  destruct (ai_fill_default_spec "hashtags" (VList default_hashtags) r3)
    as (x4 & r4 & Hx4 & E4 & H4 & L4 & O4); [simpl; tauto|reflexivity|exact H3|].
  exists r4. rewrite E1; cbn [and_then]. rewrite E2; cbn [and_then].
  rewrite E3; cbn [and_then].
  split; [exact E4|]. split; [exact H4|].
  rewrite O1 in Hx2 by done.
  rewrite O2, O1 in Hx3 by done.
  rewrite O3, O2, O1 in Hx4 by done.
  repeat split.
  - intros x Hx. rewrite O4, O3, O2, L1 by done.
    now assert (x = x1) as -> by congruence.
  - intros x Hx. rewrite O4, O3, L2 by done.
    now assert (x = x2) as -> by congruence.
  - intros x Hx. rewrite O4, L3 by done.
    now assert (x = x3) as -> by congruence.
  - intros x Hx. rewrite L4.
    now assert (x = x4) as -> by congruence.
  - intros k Hk. simpl in Hk.
    rewrite O4, O3, O2, O1 by (intros ->; tauto). reflexivity.
Qed.

(** The [try] block always completes, so the [except] branch never runs. *)
Lemma ai_try_body_completes (response topic : str) :
  exists r, try_body response topic = Completed r
    /\ _parse_response response topic = r.
Proof.
  destruct (ai_ensure_content_spec response (parsed_sections response topic)
              (ai_parsed_sections_shaped response topic)) as (r & E & _).
  exists r. unfold _parse_response, try_body. now rewrite E.
Qed.

End SingleParser.

(** ** The multi-category parser *)

Section MultiParser.
Import MultiCategoryGenerator.

Lemma multi_store_text_shaped (st : locals) :
  shaped (result st) -> shaped (store_text st).
Proof.
  intros H. unfold store_text. destruct (current_section st); [|exact H].
  destruct (is_empty _); [exact H|]. now apply shaped_insert.
Qed.

Lemma multi_store_thread_shaped (st : locals) :
  shaped (result st) -> shaped (store_thread st).
Proof.
  intros H. unfold store_thread. destruct (_ && _); [|exact H].
  now apply shaped_insert.
Qed.

Lemma multi_store_text_other (st : locals) (k : string) :
  section_ok (current_section st) -> ~ In k multi_sections ->
  store_text st !! k = result st !! k.
Proof.
  intros Hs Hk. unfold store_text.
  destruct (current_section st) as [c|]; [|reflexivity].
  destruct (is_empty _); [reflexivity|].
  apply lookup_insert_ne. intros ->. exact (Hk Hs).
Qed.

Lemma multi_store_thread_other (st : locals) (k : string) :
  ~ In k multi_sections -> store_thread st !! k = result st !! k.
Proof.
  intros Hk. unfold store_thread. destruct (_ && _); [|reflexivity].
  apply lookup_insert_ne. intros <-. apply Hk. simpl. tauto.
Qed.

(** One iteration keeps the fields present, keeps the current section
    among the five section keys, and writes to no other key. *)
Lemma multi_step_inv (st : locals) (line : str) :
  shaped (result st) -> section_ok (current_section st) ->
  shaped (result (step st line))
  /\ section_ok (current_section (step st line))
  /\ (forall k, ~ In k multi_sections ->
        result (step st line) !! k = result st !! k).
Proof.
  intros H Hs. unfold step.
  repeat match goal with
         | |- context [if ?b then _ else _] => destruct b eqn:?
         end;
    simpl; repeat split;
    auto using multi_store_text_shaped, multi_store_thread_shaped,
      multi_store_text_other, multi_store_thread_other;
    try tauto; try exact Hs.
  match goal with E : current_section st = None |- _ => now rewrite E end.
Qed.

Lemma multi_fold_inv (lines : list str) (st : locals) :
  shaped (result st) -> section_ok (current_section st) ->
  shaped (result (fold_left step lines st))
  /\ section_ok (current_section (fold_left step lines st))
  /\ (forall k, ~ In k multi_sections ->
        result (fold_left step lines st) !! k = result st !! k).
Proof.
  revert st. induction lines as [|l lines IH]; intros st H Hs; simpl.
  - repeat split; auto.
  - destruct (multi_step_inv st l H Hs) as (H1 & Hs1 & O1).
    destruct (IH _ H1 Hs1) as (H2 & Hs2 & O2).
    repeat split; auto. intros k Hk. now rewrite O2, O1.
Qed.

Lemma multi_handle_last_inv (st : locals) :
  shaped (result st) -> section_ok (current_section st) ->
  shaped (handle_last st)
  /\ (forall k, ~ In k multi_sections -> handle_last st !! k = result st !! k).
Proof.
  intros H Hs. unfold handle_last.
  destruct (current_section st) as [c|]; [|now split].
  destruct (is_empty _); [now split|].
  destruct (bool_decide _); (split; [now apply shaped_insert|]);
    intros k Hk; apply lookup_insert_ne.
  - intros <-. apply Hk. simpl. tauto.
  - intros ->. exact (Hk Hs).
Qed.

(** Before the defaults, the dictionary has all its fields, and the fields
    that are not section keys are as in the initial dictionary. *)
Lemma multi_parsed_sections_inv (response topic category : str) :
  shaped (parsed_sections response topic category)
  /\ (forall k, ~ In k multi_sections ->
        parsed_sections response topic category !! k
        = initial_result topic category !! k).
Proof.
  unfold parsed_sections, run_lines.
  destruct (multi_fold_inv (split response [LF])
              (mk_locals (initial_result topic category) None []))
    as (H1 & Hs1 & O1); [apply multi_initial_shaped|exact I|].
  destruct (multi_handle_last_inv _ H1 Hs1) as (H2 & O2).
  split; [exact H2|]. intros k Hk. now rewrite O2, O1.
Qed.

Lemma multi_fill_default_spec (key : string) (v : value) (r : dict) :
  In key fields -> is_seq v = true -> shaped r ->
  exists x r', r !! key = Some x
    /\ fill_default key v r = Returned r'
    /\ shaped r'
    /\ r' !! key = Some (if truthy x then x else v)
    /\ (forall k, k <> key -> r' !! k = r !! k).
Proof.
  intros Hk Hv Hr. destruct (Hr key Hk) as [x [Hx Hsx]].
  exists x. unfold fill_default. rewrite Hx. destruct (truthy x).
  - exists r. repeat split; auto.
  - exists (<[key := v]> r). repeat split; auto using shaped_insert.
    + apply lookup_insert_eq.
    + intros k Hne. now apply lookup_insert_ne.
Qed.

(** The parser returns on every input: the two defaults read keys that
    are present.  It returns the parsed dictionary with an empty storyline
    replaced by [response[:300]] and an empty thread by
    [[response[:280]]]. *)
Lemma multi_parse_spec (response topic category : str) :
  exists x1 x2 r,
    parsed_sections response topic category !! "master_storyline" = Some x1
    /\ parsed_sections response topic category !! "twitter_thread" = Some x2
    /\ _parse_response response topic category = Returned r
    /\ shaped r
    /\ r !! "master_storyline"
       = Some (if truthy x1 then x1 else VStr (slice_to 300 response))
    /\ r !! "twitter_thread"
       = Some (if truthy x2 then x2 else VList [slice_to 280 response])
    /\ (forall k, ~ In k multi_sections ->
          r !! k = initial_result topic category !! k).
Proof.
  destruct (multi_parsed_sections_inv response topic category) as (H0 & O0).
  destruct (multi_fill_default_spec "master_storyline"
              (VStr (slice_to 300 response)) _ ltac:(simpl; tauto) eq_refl H0)
    as (x1 & r1 & Hx1 & E1 & H1 & L1 & O1).
  destruct (multi_fill_default_spec "twitter_thread"
              (VList [slice_to 280 response]) _ ltac:(simpl; tauto) eq_refl H1)
    as (x2 & r2 & Hx2 & E2 & H2 & L2 & O2).
  rewrite O1 in Hx2 by done.
  exists x1, x2, r2. unfold _parse_response. rewrite E1.
  repeat split; auto.
  - now rewrite O2 by done.
  - intros k Hk. rewrite O2, O1, O0; auto; intros ->; apply Hk; simpl; tauto.
Qed.

End MultiParser.

(** ** The response without markers *)

Section NoMarkers.
Import AIContentGenerator.

(** A paragraph that starts with no marker leaves the locals alone as long
    as no section is open. *)
Lemma ai_step_idle (st : locals) (section : str) :
  starts_with_marker (strip section) = false ->
  current_section st = None -> step st section = st.
Proof.
  unfold starts_with_marker, ai_markers. cbn [existsb]. intros H Hc.
  repeat (apply orb_false_elim in H; destruct H as [? H]).
  unfold step. cbn zeta.
  repeat match goal with E : startswith _ _ = false |- _ => rewrite E; clear E end.
  now rewrite Hc.
Qed.

Lemma ai_fold_idle (sections : list str) (st : locals) :
  forallb (fun section => negb (starts_with_marker (strip section))) sections = true ->
  current_section st = None -> fold_left step sections st = st.
Proof.
  induction sections as [|s l IH]; simpl; [reflexivity|].
  intros H Hc. apply andb_true_iff in H as [Hs Hl].
  apply negb_true_iff in Hs. rewrite (ai_step_idle st s Hs Hc). now apply IH.
Qed.

Lemma ai_parsed_no_markers (response topic : str) :
  no_markers response = true ->
  parsed_sections response topic = initial_result topic.
Proof.
  intros H. unfold parsed_sections, run_sections.
  now rewrite (ai_fold_idle _ (mk_locals (initial_result topic) None []) H eq_refl).
Qed.

End NoMarkers.

(** C1, as the code has it.  When no paragraph of the response starts with
    a marker, the record keeps the first 500 characters of the response as
    [master_storyline] (the whole response when it has at most 500
    characters), the first 280 characters as the only element of
    [twitter_thread], and the fixed three-item defaults as [cta] and
    [hashtags]; these three sequences are not empty. *)
Theorem C1_no_markers_defaults (response topic : str) :
  no_markers response = true ->
  let r := AIContentGenerator._parse_response response topic in
  r !! "master_storyline" = Some (VStr (slice_to 500 response))
  /\ (length response <= 500 -> r !! "master_storyline" = Some (VStr response))
  /\ r !! "twitter_thread" = Some (VList [slice_to 280 response])
  /\ r !! "cta" = Some (VList AIContentGenerator.default_cta)
  /\ r !! "hashtags" = Some (VList AIContentGenerator.default_hashtags)
  /\ has_nonempty r "twitter_thread" /\ has_nonempty r "cta"
  /\ has_nonempty r "hashtags".
Proof.
  intros H r.
  destruct (ai_try_body_completes response topic) as (r' & E & Er).
  fold r in Er. subst r'. unfold AIContentGenerator.try_body in E.
  rewrite (ai_parsed_no_markers response topic H) in E.
  destruct (ai_ensure_content_spec response _ (ai_initial_shaped topic))
    as (r' & E' & _ & Lm & Lt & Lc & Lh & _).
  rewrite E in E'. injection E' as <-.
  assert (Hm : r !! "master_storyline" = Some (VStr (slice_to 500 response)))
    by (apply (Lm (VStr [])); reflexivity).
  assert (Ht : r !! "twitter_thread" = Some (VList [slice_to 280 response]))
    by (apply (Lt (VList [])); reflexivity).
  assert (Hc : r !! "cta" = Some (VList AIContentGenerator.default_cta))
    by (apply (Lc (VList [])); reflexivity).
  assert (Hh : r !! "hashtags" = Some (VList AIContentGenerator.default_hashtags))
    by (apply (Lh (VList [])); reflexivity).
  repeat split; try assumption.
  - intros Hlen. rewrite Hm. unfold slice_to. now rewrite firstn_all2.
  - eexists; split; [exact Ht|discriminate].
  - eexists; split; [exact Hc|discriminate].
  - eexists; split; [exact Hh|discriminate].
Qed.

Lemma C1_no_markers_defaults_witness :
  no_markers (py "plain text") = true
  /\ AIContentGenerator._parse_response (py "plain text") (py "AI")
       !! "master_storyline" = Some (VStr (py "plain text")).
Proof.
  split; [vm_compute; reflexivity|].
  apply (C1_no_markers_defaults (py "plain text") (py "AI")).
  - vm_compute; reflexivity.
  - vm_compute. lia.
Defined.

(** C1 as stated fails: a response of 501 characters without a marker is
    not kept whole, its [master_storyline] is its first 500 characters. *)
Lemma C1_counterexample :
  no_markers long_text = true
  /\ AIContentGenerator._parse_response long_text (py "AI") !! "master_storyline"
     = Some (VStr (repeat 120%N 500))
  /\ AIContentGenerator._parse_response long_text (py "AI") !! "master_storyline"
     <> Some (VStr long_text).
Proof.
  assert (E : AIContentGenerator._parse_response long_text (py "AI")
              !! "master_storyline" = Some (VStr (repeat 120%N 500)))
    by (vm_compute; reflexivity).
  split; [vm_compute; reflexivity|]. split; [exact E|].
  rewrite E. intros H. injection H as H.
  apply (f_equal (@length char)) in H. vm_compute in H. discriminate.
Qed.

(** C2, evaluated on the code.  On the scenario the parser returns the
    category, the hashtags and the defaults the claim names, but the
    [HASHTAGS:] branch stores the buffer only of a [cta] section and then
    closes the section: the buffered storyline [Hello world] is dropped
    and [master_storyline] is filled with the default, the first 500
    characters of the response, here the whole response. *)
Theorem C2_scenario_evaluated (topic : str) :
  let r := AIContentGenerator._parse_response scenario topic in
  r !! "category" = Some (VStr (py "trending_ai_model"))
  /\ r !! "hashtags" = Some (VList [py "#AI"; py "#Tech"])
  /\ r !! "twitter_thread" = Some (VList [scenario])
  /\ r !! "cta" = Some (VList AIContentGenerator.default_cta)
  /\ r !! "master_storyline" = Some (VStr scenario)
  /\ r !! "master_storyline" <> Some (VStr (py "Hello world"))
  /\ AIContentGenerator.parsed_sections scenario topic !! "master_storyline"
     = Some (VStr []).
Proof.
  assert (E : AIContentGenerator._parse_response scenario topic
              !! "master_storyline" = Some (VStr scenario))
    by (vm_compute; reflexivity).
  cbv zeta. repeat split; try (vm_compute; reflexivity).
  rewrite E. intros H. vm_compute in H. discriminate H.
Qed.

(** C3.  For every response, the empty one included, the records of both
    parsers hold non-empty sequences under [twitter_thread], [cta] and
    [hashtags]. *)
Theorem C3_sequences_nonempty (response topic : str) :
  (has_nonempty (AIContentGenerator._parse_response response topic) "twitter_thread"
   /\ has_nonempty (AIContentGenerator._parse_response response topic) "cta"
   /\ has_nonempty (AIContentGenerator._parse_response response topic) "hashtags")
  /\ (forall category, exists r,
        MultiCategoryGenerator._parse_response response topic category = Returned r
        /\ has_nonempty r "twitter_thread"
        /\ has_nonempty r "cta"
        /\ has_nonempty r "hashtags").
Proof.
  split.
  - destruct (ai_try_body_completes response topic) as (r & E & ->).
    unfold AIContentGenerator.try_body in E.
    pose proof (ai_parsed_sections_shaped response topic) as Hs.
    destruct (ai_ensure_content_spec response _ Hs)
      as (r' & E' & Hr & _ & Lt & Lc & Lh & _).
    rewrite E in E'. injection E' as <-.
    destruct (Hs "twitter_thread") as (xt & Ht & St); [simpl; tauto|].
    destruct (Hs "cta") as (xc & Hc & Sc); [simpl; tauto|].
    destruct (Hs "hashtags") as (xh & Hh & Sh); [simpl; tauto|].
    repeat split.
    + eexists; split; [exact (Lt _ Ht)|].
      destruct (truthy xt) eqn:T; [now apply truthy_nonempty|discriminate].
    + eexists; split; [exact (Lc _ Hc)|].
      destruct (truthy xc) eqn:T; [now apply truthy_nonempty|discriminate].
    + eexists; split; [exact (Lh _ Hh)|].
      destruct (truthy xh) eqn:T; [now apply truthy_nonempty|discriminate].
  - intros category.
    destruct (multi_parse_spec response topic category)
      as (x1 & x2 & r & _ & H2 & E & Hr & _ & Lt & O).
    destruct (multi_parsed_sections_inv response topic category) as (Hs & _).
    destruct (Hs "twitter_thread") as (xt & Ht & St); [simpl; tauto|].
    assert (xt = x2) as -> by congruence.
    exists r. repeat split; [exact E| | |].
    + eexists; split; [exact Lt|].
      destruct (truthy x2) eqn:T; [now apply truthy_nonempty|discriminate].
    + eexists; split; [rewrite O by (simpl; intuition discriminate);
                       reflexivity|discriminate].
    + eexists; split; [rewrite O by (simpl; intuition discriminate);
                       reflexivity|discriminate].
Qed.

(** C10.  For every response, topic and category the multi-category parser
    returns, and the record has the fixed [cta] and [hashtags] of the
    initial dictionary: no section of the response reaches these keys. *)
Theorem C10_multi_fixed_cta_hashtags (response topic category : str) :
  exists r,
    MultiCategoryGenerator._parse_response response topic category = Returned r
    /\ r !! "cta"
       = Some (VList [py "Follow for more!"; py "Share this!"; py "Comment below!"])
    /\ r !! "hashtags"
       = Some (VList [py "#AI"; py "#Tech"; py "#Innovation"; py "#Viral";
                      py "#Trending"]).
Proof.
  destruct (multi_parse_spec response topic category)
    as (x1 & x2 & r & _ & _ & E & _ & _ & _ & O).
  exists r. split; [exact E|].
  split; rewrite O by (simpl; intuition discriminate); reflexivity.
Qed.

(** ** Splitting a thread or CTA section *)

Lemma filter_map_commute {A B} (f : A -> B) (p : B -> bool) (l : list A) :
  List.filter p (map f l) = map f (List.filter (fun x => p (f x)) l).
Proof.
  induction l as [|x l IH]; simpl; [reflexivity|].
  destruct (p (f x)); simpl; now rewrite IH.
Qed.

Lemma dash_segments_stripped (text : str) :
  Forall (fun t => strip t = t /\ t <> []) (dash_segments text).
Proof.
  unfold dash_segments. apply List.Forall_forall. intros t Ht.
  apply in_map_iff in Ht as (seg & <- & Hseg).
  apply filter_In in Hseg as [_ Hne]. split.
  - apply strip_idempotent.
  - intros E. now rewrite E in Hne.
Qed.

(** The comprehension of the two parsers keeps the stripped pieces that
    are not empty. *)
Lemma dash_segments_filter_map (text : str) :
  dash_segments text
  = List.filter (fun t => negb (is_empty t)) (map strip (split text (py "---"))).
Proof. unfold dash_segments. now rewrite filter_map_commute. Qed.

(** C9, evaluated.  The thread text of the specification is cut into
    [A], [B], [C] when its section is closed by the end of the response
    or by the [CAPTION:] marker.  When the [CTA:] marker closes the
    section, the single-category parser stores the text as one [str],
    uncut, and so does the multi-category parser when the
    [YOUTUBE_SCRIPT:] marker closes it; and the single-category parser
    drops the part of the thread that shares the paragraph of the
    [TWITTER_THREAD:] marker. *)
Theorem C9_thread_section_evaluated :
  dash_segments thread_text = [py "A"; py "B"; py "C"]
  /\ AIContentGenerator._parse_response
       (py "TWITTER_THREAD:" ++ [LF; LF] ++ thread_text) (py "AI") !! "twitter_thread"
     = Some (VList [py "A"; py "B"; py "C"])
  /\ AIContentGenerator._parse_response thread_then_caption (py "AI")
       !! "twitter_thread"
     = Some (VList [py "A"; py "B"; py "C"])
  /\ AIContentGenerator._parse_response thread_then_cta (py "AI") !! "twitter_thread"
     = Some (VStr thread_text)
  /\ AIContentGenerator._parse_response thread_under_marker (py "AI")
       !! "twitter_thread"
     = Some (VList [py "B"; py "C"])
  /\ field_of (MultiCategoryGenerator._parse_response
                 (py "TWITTER_THREAD:" ++ [LF] ++ thread_text) (py "AI")
                 (py "new_tool_intro")) "twitter_thread"
     = Some (VList [py "A"; py "B"; py "C"])
  /\ field_of (MultiCategoryGenerator._parse_response thread_then_youtube (py "AI")
                 (py "new_tool_intro")) "twitter_thread"
     = Some (VStr thread_text).
Proof. repeat split; vm_compute; reflexivity. Qed.

(** ** The default of an empty storyline *)

(** C7, as the code has it.  When the sections leave [master_storyline]
    empty, the single-category parser fills it with the first 500
    characters of the response and the multi-category parser with the
    first 300. *)
Theorem C7_empty_storyline_default (response topic category : str) :
  (AIContentGenerator.parsed_sections response topic !! "master_storyline"
     = Some (VStr []) ->
   AIContentGenerator._parse_response response topic !! "master_storyline"
     = Some (VStr (slice_to 500 response)))
  /\ (MultiCategoryGenerator.parsed_sections response topic category
        !! "master_storyline" = Some (VStr []) ->
      field_of (MultiCategoryGenerator._parse_response response topic category)
        "master_storyline" = Some (VStr (slice_to 300 response))).
Proof.
  split; intros H.
  - destruct (ai_try_body_completes response topic) as (r & E & ->).
    unfold AIContentGenerator.try_body in E.
    destruct (ai_ensure_content_spec response _
                (ai_parsed_sections_shaped response topic))
      as (r' & E' & _ & Lm & _).
    rewrite E in E'. injection E' as <-. exact (Lm _ H).
  - destruct (multi_parse_spec response topic category)
      as (x1 & x2 & r & H1 & _ & E & _ & Lm & _).
    rewrite E. simpl. rewrite Lm.
    assert (x1 = VStr []) as -> by congruence. reflexivity.
Qed.

Lemma C7_empty_storyline_default_witness :
  AIContentGenerator._parse_response (py "plain text") (py "AI") !! "master_storyline"
  = Some (VStr (slice_to 500 (py "plain text")))
  /\ field_of (MultiCategoryGenerator._parse_response (py "plain text") (py "AI")
                 (py "new_tool_intro")) "master_storyline"
     = Some (VStr (slice_to 300 (py "plain text"))).
Proof.
  destruct (C7_empty_storyline_default (py "plain text") (py "AI")
              (py "new_tool_intro")) as [H1 H2].
  split; [apply H1|apply H2]; vm_compute; reflexivity.
Defined.

(** C7 as stated fails for the multi-category parser: on a response of 501
    characters without a marker the storyline is left empty and the record
    gets 300 characters, not the first 500. *)
Lemma C7_counterexample :
  MultiCategoryGenerator.parsed_sections long_text (py "AI") (py "new_tool_intro")
    !! "master_storyline" = Some (VStr [])
  /\ field_of (MultiCategoryGenerator._parse_response long_text (py "AI")
                 (py "new_tool_intro")) "master_storyline"
     = Some (VStr (repeat 120%N 300))
  /\ field_of (MultiCategoryGenerator._parse_response long_text (py "AI")
                 (py "new_tool_intro")) "master_storyline"
     <> Some (VStr (slice_to 500 long_text)).
Proof.
  assert (E : field_of (MultiCategoryGenerator._parse_response long_text (py "AI")
                          (py "new_tool_intro")) "master_storyline"
              = Some (VStr (repeat 120%N 300))) by (vm_compute; reflexivity).
  split; [vm_compute; reflexivity|]. split; [exact E|].
  rewrite E. intros H. injection H as H.
  apply (f_equal (@length char)) in H. vm_compute in H. discriminate.
Qed.

(** ** How the markers are matched *)

Lemma starts_with_marker_spec (s : str) :
  starts_with_marker s = true <-> exists m rest, In m ai_markers /\ s = m ++ rest.
Proof.
  unfold starts_with_marker. rewrite existsb_exists. split.
  - intros (m & Hm & H). apply startswith_spec in H as [rest H]. now exists m, rest.
  - intros (m & rest & Hm & H). exists m. split; [exact Hm|].
    apply startswith_spec. now exists rest.
Qed.

Lemma mentions_marker_spec (line : str) :
  mentions_marker line = true
  <-> exists m a b, In m multi_markers /\ line = a ++ m ++ b.
Proof.
  unfold mentions_marker. rewrite existsb_exists. split.
  - intros (m & Hm & H). apply contains_spec in H as (a & b & H). now exists m, a, b.
  - intros (m & a & b & Hm & H). exists m. split; [exact Hm|].
    apply contains_spec. now exists a, b.
Qed.

(** A paragraph that does not start with a marker is content of the open
    section, or is skipped when no section is open. *)
Lemma ai_step_content (st : AIContentGenerator.locals) (section : str) :
  starts_with_marker (strip section) = false ->
  AIContentGenerator.step st section
  = match AIContentGenerator.current_section st with
    | Some _ =>
        AIContentGenerator.mk_locals (AIContentGenerator.result st)
          (AIContentGenerator.current_section st)
          (AIContentGenerator.current_content st ++ [strip section])
    | None => st
    end.
Proof.
  unfold starts_with_marker, ai_markers. cbn [existsb]. intros H.
  repeat (apply orb_false_elim in H; destruct H as [? H]).
  unfold AIContentGenerator.step. cbn zeta.
  repeat match goal with E : startswith _ _ = false |- _ => rewrite E; clear E end.
  reflexivity.
Qed.

(** A line that contains no marker is content of the open section, or is
    skipped when no section is open. *)
Lemma multi_step_content (st : MultiCategoryGenerator.locals) (line : str) :
  mentions_marker line = false ->
  MultiCategoryGenerator.step st line
  = match MultiCategoryGenerator.current_section st with
    | Some _ =>
        MultiCategoryGenerator.mk_locals (MultiCategoryGenerator.result st)
          (MultiCategoryGenerator.current_section st)
          (MultiCategoryGenerator.content st ++ [line])
    | None => st
    end.
Proof.
  unfold mentions_marker, multi_markers. cbn [existsb]. intros H.
  repeat (apply orb_false_elim in H; destruct H as [? H]).
  unfold MultiCategoryGenerator.step.
  repeat match goal with E : contains _ _ = false |- _ => rewrite E; clear E end.
  reflexivity.
Qed.

(** A line that contains a marker anywhere opens a section with an empty
    buffer. *)
Lemma multi_step_opens (st : MultiCategoryGenerator.locals) (line : str) :
  mentions_marker line = true ->
  exists k, In k multi_sections
    /\ MultiCategoryGenerator.current_section (MultiCategoryGenerator.step st line)
       = Some k
    /\ MultiCategoryGenerator.content (MultiCategoryGenerator.step st line) = [].
Proof.
  unfold mentions_marker, multi_markers. cbn [existsb]. intros H.
  unfold MultiCategoryGenerator.step.
  destruct (contains (py "MASTER_STORYLINE:") line);
    [exists "master_storyline"; simpl; tauto|].
  destruct (contains (py "YOUTUBE_SCRIPT:") line);
    [exists "youtube_script"; simpl; tauto|].
  destruct (contains (py "INSTAGRAM_SCRIPT:") line);
    [exists "instagram_script"; simpl; tauto|].
  destruct (contains (py "TWITTER_THREAD:") line);
    [exists "twitter_thread"; simpl; tauto|].
  destruct (contains (py "CAPTION:") line);
    [exists "caption"; simpl; tauto|].
  discriminate.
Qed.

(** C8, as the code has it.  The single-category parser recognises a
    marker only at the start of a stripped paragraph: a paragraph that
    does not start with one of the eight markers, compared code point by
    code point, is content or is skipped.  The multi-category parser
    recognises its five markers wherever they occur in a line: a line that
    contains one opens a section, and only a line that contains none is
    content or is skipped. *)
Theorem C8_marker_matching :
  (forall s, starts_with_marker s = true
             <-> exists m rest, In m ai_markers /\ s = m ++ rest)
  /\ (forall st section,
        starts_with_marker (strip section) = false ->
        AIContentGenerator.step st section
        = match AIContentGenerator.current_section st with
          | Some _ =>
              AIContentGenerator.mk_locals (AIContentGenerator.result st)
                (AIContentGenerator.current_section st)
                (AIContentGenerator.current_content st ++ [strip section])
          | None => st
          end)
  /\ (forall st a m b,
        In m multi_markers ->
        exists k, In k multi_sections
          /\ MultiCategoryGenerator.current_section
               (MultiCategoryGenerator.step st (a ++ m ++ b)) = Some k
          /\ MultiCategoryGenerator.content
               (MultiCategoryGenerator.step st (a ++ m ++ b)) = [])
  /\ (forall st line,
        (forall m a b, In m multi_markers -> line <> a ++ m ++ b) ->
        MultiCategoryGenerator.step st line
        = match MultiCategoryGenerator.current_section st with
          | Some _ =>
              MultiCategoryGenerator.mk_locals (MultiCategoryGenerator.result st)
                (MultiCategoryGenerator.current_section st)
                (MultiCategoryGenerator.content st ++ [line])
          | None => st
          end).
Proof.
  split; [exact starts_with_marker_spec|].
  split; [exact ai_step_content|].
  split.
  - intros st a m b Hm. apply multi_step_opens, mentions_marker_spec.
    now exists m, a, b.
  - intros st line H. apply multi_step_content.
    destruct (mentions_marker line) eqn:E; [|reflexivity].
    apply mentions_marker_spec in E as (m & a & b & Hm & ->).
    now destruct (H m a b Hm).
Qed.

Lemma C8_marker_matching_witness :
  AIContentGenerator.step
    (AIContentGenerator.mk_locals ∅ (Some "master_storyline") [py "intro"])
    (py "see YOUTUBE_SCRIPT: below")
  = AIContentGenerator.mk_locals ∅ (Some "master_storyline")
      [py "intro"; py "see YOUTUBE_SCRIPT: below"]
  /\ exists k,
       In k multi_sections
       /\ MultiCategoryGenerator.current_section
            (MultiCategoryGenerator.step
               (MultiCategoryGenerator.mk_locals ∅ (Some "master_storyline")
                  [py "intro"])
               (py "see " ++ py "YOUTUBE_SCRIPT:" ++ py " below")) = Some k
       /\ MultiCategoryGenerator.content
            (MultiCategoryGenerator.step
               (MultiCategoryGenerator.mk_locals ∅ (Some "master_storyline")
                  [py "intro"])
               (py "see " ++ py "YOUTUBE_SCRIPT:" ++ py " below")) = [].
Proof.
  destruct C8_marker_matching as (_ & H1 & H2 & _). split.
  - apply (H1 (AIContentGenerator.mk_locals ∅ (Some "master_storyline") [py "intro"])
              (py "see YOUTUBE_SCRIPT: below")).
    vm_compute; reflexivity.
  - apply (H2 (MultiCategoryGenerator.mk_locals ∅ (Some "master_storyline")
                 [py "intro"]) (py "see ") (py "YOUTUBE_SCRIPT:") (py " below")).
    simpl; tauto.
Defined.

(** C8 as stated fails for the multi-category parser: the third line of
    this response has [YOUTUBE_SCRIPT:] in its middle, not at its start,
    and still opens the YouTube section, which receives the line after
    it. *)
Lemma C8_counterexample :
  starts_with_marker (strip (py "see YOUTUBE_SCRIPT: below")) = false
  /\ MultiCategoryGenerator.current_section
       (MultiCategoryGenerator.step
          (MultiCategoryGenerator.mk_locals ∅ (Some "master_storyline") [py "intro"])
          (py "see YOUTUBE_SCRIPT: below")) = Some "youtube_script"
  /\ field_of (MultiCategoryGenerator._parse_response mention_text (py "AI")
                 (py "new_tool_intro")) "master_storyline"
     = Some (VStr (py "intro"))
  /\ field_of (MultiCategoryGenerator._parse_response mention_text (py "AI")
                 (py "new_tool_intro")) "youtube_script"
     = Some (VStr (py "body")).
Proof. repeat split; vm_compute; reflexivity. Qed.

(** ** The fan-out over the categories *)

Lemma succeeded_sublist (tr : list (str * option str)) :
  sublist (map fst (succeeded tr)) (map fst tr).
Proof.
  induction tr as [|[c a] tr IH]; simpl; [constructor|].
  destruct (opt_truthy a); simpl; now constructor.
Qed.

Lemma succeeded_In (tr : list (str * option str)) (c text : str) :
  In (c, text) (succeeded tr) <-> In (c, Some text) tr /\ text <> [].
Proof.
  induction tr as [|[c' a] tr IH]; simpl; [tauto|].
  destruct a as [[|x t]|]; simpl.
  - rewrite IH. split; [tauto|]. intros [[H|H] Hne]; [|tauto].
    injection H as _ <-. now destruct Hne.
  - rewrite IH. split.
    + intros [H|H]; [|tauto]. injection H as -> <-. split; [now left|discriminate].
    + intros [[H|H] Hne]; [|tauto]. left. now injection H as -> <-.
  - rewrite IH. split; [tauto|]. intros [[H|H] Hne]; [discriminate|tauto].
Qed.

Section Orchestrator.
Context {W : Type}.
Variable search_and_format : str -> W -> str * W.
Variable ai_generate : str -> option str -> Z -> W -> option str * W.
Variable _build_prompt : str -> str -> str -> str.

Lemma answers_categories topic full_context model categories w :
  map fst (answers ai_generate _build_prompt topic full_context model categories w) = map fst categories.
Proof.
  revert w. induction categories as [|[c n] l IH]; intros w; simpl; [reflexivity|].
  destruct (ai_generate _ _ _ w) as [a w']. simpl. now rewrite IH.
Qed.

(** The loop never raises and appends, for every request answered with a
    non-empty text and for no other, the parse of the answer. *)
Lemma generate_each_spec topic full_context model categories :
  forall results w,
  exists records,
    MultiCategoryGenerator.generate_each ai_generate _build_prompt topic
      full_context model categories results w
    = (Returned (results ++ records),
       world_after ai_generate _build_prompt topic full_context model categories w)
    /\ Forall2 (parse_of topic) records
         (succeeded (answers ai_generate _build_prompt topic full_context model categories w)).
Proof.
  induction categories as [|[c n] l IH]; intros results w.
  - exists []. simpl. rewrite app_nil_r. split; [reflexivity|constructor].
  - cbn [MultiCategoryGenerator.generate_each answers world_after succeeded].
    unfold mbind, io_bind, bind, call.
    destruct (ai_generate (_build_prompt topic c full_context) model 2000%Z w)
      as [a w'].
    cbn [succeeded]. destruct (opt_truthy a) eqn:Ha.
    + destruct a as [text|]; [|discriminate]. simpl default.
      destruct (multi_parse_spec text topic c)
        as (x1 & x2 & r & _ & _ & E & _).
      unfold pure. rewrite E.
      destruct (IH (results ++ [r]) w') as (records & E' & F).
      exists (r :: records). rewrite E', <- app_assoc. split; [reflexivity|].
      constructor; [exact E|exact F].
    + apply IH.
Qed.

End Orchestrator.

Lemma parse_of_category (topic : str) (record : dict) (cr : str * str) :
  parse_of topic record cr -> record !! "category" = Some (VStr (fst cr)).
Proof.
  unfold parse_of. intros H.
  destruct (multi_parse_spec (snd cr) topic (fst cr))
    as (x1 & x2 & r & _ & _ & E & _ & _ & _ & O).
  rewrite E in H. injection H as <-.
  rewrite O by (simpl; intuition discriminate). reflexivity.
Qed.

Lemma categories_distinct :
  List.NoDup (map fst MultiCategoryGenerator.CATEGORIES).
Proof.
  vm_compute. repeat constructor; simpl; intuition discriminate.
Qed.

Lemma keys_functional {A B} (l : list (A * B)) (k : A) (a b : B) :
  List.NoDup (map fst l) -> In (k, a) l -> In (k, b) l -> a = b.
Proof.
  induction l as [|[k' x] l IH]; simpl; [tauto|].
  intros Hnd Ha Hb. apply List.NoDup_cons_iff in Hnd as [Hk Hnd].
  destruct Ha as [Ha|Ha], Hb as [Hb|Hb].
  - congruence.
  - injection Ha as -> ->. destruct Hk. apply in_map_iff. now exists (k, b).
  - injection Hb as -> ->. destruct Hk. apply in_map_iff. now exists (k, a).
  - now apply IH.
Qed.

Lemma Forall2_In_r {A B} (P : A -> B -> Prop) (l1 : list A) (l2 : list B) (y : B) :
  Forall2 P l1 l2 -> In y l2 -> exists x, In x l1 /\ P x y.
Proof.
  induction 1 as [|x y' l1 l2 H _ IH]; simpl; [tauto|].
  intros [<-|Hy]; [exists x; tauto|].
  destruct (IH Hy) as (x' & Hx' & HP). exists x'. tauto.
Qed.

Lemma Forall2_In_l {A B} (P : A -> B -> Prop) (l1 : list A) (l2 : list B) (x : A) :
  Forall2 P l1 l2 -> In x l1 -> exists y, In y l2 /\ P x y.
Proof.
  induction 1 as [|x' y l1 l2 H _ IH]; simpl; [tauto|].
  intros [<-|Hx]; [exists y; tauto|].
  destruct (IH Hx) as (y' & Hy' & HP). exists y'. tauto.
Qed.

Section FanOut.
Context {W : Type}.
Variable search_and_format : str -> W -> str * W.
Variable ai_generate : str -> option str -> Z -> W -> option str * W.
Variable _build_prompt : str -> str -> str -> str.

Let generate_all :=
  MultiCategoryGenerator.generate_all search_and_format ai_generate _build_prompt.
Let trace := fan_out_answers search_and_format ai_generate _build_prompt.

(** An available generator returns the parses of the requests that were
    answered with a non-empty text, in the order of the requests. *)
Lemma generate_all_spec (topic : str) (context model : option str) (w : W) :
  exists records w',
    generate_all true topic context model w = (Returned records, w')
    /\ Forall2 (parse_of topic) records (succeeded (trace topic context model w))
    /\ map fst (trace topic context model w)
       = map fst MultiCategoryGenerator.CATEGORIES.
Proof.
  unfold generate_all, trace, MultiCategoryGenerator.generate_all, fan_out_answers.
  cbn [negb]. unfold mbind, io_bind, bind, call.
  destruct (search_and_format topic w) as [search_context w1].
  destruct (generate_each_spec ai_generate _build_prompt topic
              (MultiCategoryGenerator.full_context_of search_context context)
              model MultiCategoryGenerator.CATEGORIES [] w1) as (records & E & F).
  exists records. eexists. split; [exact E|]. split; [exact F|].
  apply answers_categories.
Qed.

Lemma records_categories (topic : str) (records : list dict) (l : list (str * str)) :
  Forall2 (parse_of topic) records l ->
  map (fun r : dict => r !! "category") records
  = map (fun cr => Some (VStr (fst cr))) l.
Proof.
  induction 1 as [|r cr records l H _ IH]; simpl; [reflexivity|].
  now rewrite (parse_of_category _ _ _ H), IH.
Qed.

(** C4.  An available generator never raises.  It returns one record for
    each of the six requests that was answered with a non-empty text, the
    parse of that answer for the category of the request, in the order of
    the category enumeration; there are at most six records; a request
    that was answered with [None] or with the empty text contributes no
    record and the requests after it are still made. *)
Theorem C4_generate_all_skips (topic : str) (context model : option str) (w : W) :
  exists records w',
    generate_all true topic context model w = (Returned records, w')
    /\ Forall2 (parse_of topic) records (succeeded (trace topic context model w))
    /\ map (fun r : dict => r !! "category") records
       = map (fun cr => Some (VStr (fst cr))) (succeeded (trace topic context model w))
    /\ sublist (map fst (succeeded (trace topic context model w)))
         (map fst MultiCategoryGenerator.CATEGORIES)
    /\ length records <= 6
    /\ map fst (trace topic context model w)
       = map fst MultiCategoryGenerator.CATEGORIES
    /\ (forall c text,
          In (c, Some text) (trace topic context model w) -> text <> [] ->
          exists r, In r records /\ parse_of topic r (c, text))
    /\ (forall c,
          In (c, None) (trace topic context model w)
          \/ In (c, Some []) (trace topic context model w) ->
          ~ exists r, In r records /\ r !! "category" = Some (VStr c)).
Proof.
  destruct (generate_all_spec topic context model w) as (records & w' & E & F & Hc).
  exists records, w'. split; [exact E|]. split; [exact F|].
  split; [now apply (records_categories topic)|].
  assert (Hsub : sublist (map fst (succeeded (trace topic context model w)))
                   (map fst MultiCategoryGenerator.CATEGORIES))
    by (rewrite <- Hc; apply succeeded_sublist).
  split; [exact Hsub|]. split.
  { assert (Hlen := F). apply Forall2_length in Hlen. rewrite Hlen.
    apply sublist_length in Hsub. now rewrite !length_map in Hsub. }
  split; [exact Hc|]. split.
  - intros c text Hin Hne.
    apply (Forall2_In_r _ _ _ _ F), succeeded_In. tauto.
  - intros c Hfail (r & Hr & Hcat).
    destruct (Forall2_In_l _ _ _ _ F Hr) as ([c' text] & Hs & Hp).
    rewrite (parse_of_category _ _ _ Hp) in Hcat. injection Hcat as ->.
    apply succeeded_In in Hs as [Hs Hne].
    assert (Hnd : List.NoDup (map fst (trace topic context model w)))
      by (rewrite Hc; apply categories_distinct).
    destruct Hfail as [Hf|Hf];
      pose proof (keys_functional _ _ _ _ Hnd Hs Hf) as Heq;
      [discriminate|]. injection Heq as ->. now destruct Hne.
Qed.

End FanOut.

(** ** The category of a record of the fan-out *)

(** C5, as the code has it.  The multi-category parser has no [CATEGORY:]
    marker: for every response the [category] of its record is the
    category it was called with, and every record [generate_all] returns
    carries the category of its request.  It is the single-category
    parser, which is not called with a category, that takes the category
    from the response. *)
Theorem C5_category_is_requested :
  (forall response topic category,
     field_of (MultiCategoryGenerator._parse_response response topic category)
       "category" = Some (VStr category))
  /\ (forall (W : Type) search_and_format ai_generate _build_prompt
        topic context model (w : W),
        exists records w',
          MultiCategoryGenerator.generate_all search_and_format ai_generate
            _build_prompt true topic context model w = (Returned records, w')
          /\ map (fun r : dict => r !! "category") records
             = map (fun cr => Some (VStr (fst cr)))
                 (succeeded (fan_out_answers search_and_format ai_generate
                               _build_prompt topic context model w)))
  /\ AIContentGenerator._parse_response (py "CATEGORY: ai_trending_news") (py "AI")
       !! "category" = Some (VStr (py "ai_trending_news")).
Proof.
  split; [|split].
  - intros response topic category.
    destruct (multi_parse_spec response topic category)
      as (x1 & x2 & r & _ & _ & E & _ & _ & _ & O).
    rewrite E. simpl. rewrite O by (simpl; intuition discriminate). reflexivity.
  - intros W search_and_format ai_generate _build_prompt topic context model w.
    destruct (generate_all_spec search_and_format ai_generate _build_prompt
                topic context model w) as (records & w' & E & F & _).
    exists records, w'. split; [exact E|]. now apply (records_categories topic).
  - vm_compute; reflexivity.
Qed.

(** C5 as stated fails: no response makes the multi-category parser return
    a category other than the requested one; a response that names
    another category after [CATEGORY:] is an instance. *)
Lemma C5_counterexample :
  field_of (MultiCategoryGenerator._parse_response
              (py "CATEGORY: ai_trending_news" ++ [LF; LF]
               ++ py "MASTER_STORYLINE:" ++ [LF] ++ py "News")
              (py "AI") (py "new_tool_intro")) "category"
  = Some (VStr (py "new_tool_intro"))
  /\ ~ (exists response topic category r,
          MultiCategoryGenerator._parse_response response topic category
          = Returned r
          /\ r !! "category" <> Some (VStr category)).
Proof.
  split; [vm_compute; reflexivity|].
  intros (response & topic & category & r & E & H). apply H.
  destruct (multi_parse_spec response topic category)
    as (x1 & x2 & r' & _ & _ & E' & _ & _ & _ & O).
  rewrite E in E'. injection E' as <-.
  rewrite O by (simpl; intuition discriminate). reflexivity.
Qed.

(** ** An absent answer of the completion service *)

Section AbsentAnswer.
Context {W : Type}.
Variable search_and_format : str -> W -> str * W.
Variable ai_generate : str -> option str -> Z -> W -> option str * W.
Variable single_prompt : str -> str -> str.
Variable multi_prompt : str -> str -> str -> str.
Variable template_generate : str -> option str -> io W dict.
Variable save_content : str -> value -> dict -> io W value.
Variable http_exception_str : Z -> str -> str.

(** C6, as the code has it.  When the completion service answers [None] or
    the empty text, [generate] raises [Exception("Failed to generate
    content from AI")]; the handler of [/api/generate] catches it and
    raises an [HTTPException] with status 500 and this text, which is what
    the caller of the endpoint receives. *)
Theorem C6_absent_response_raises (topic : str) (context model : option str) (w : W) :
  opt_truthy (completion_answer search_and_format ai_generate single_prompt topic context model w) = false ->
  (exists w',
     AIContentGenerator.generate search_and_format ai_generate single_prompt
       true topic context model w
     = (Raised (Exception (py "Failed to generate content from AI")), w'))
  /\ (forall g : Api.globals,
        is_empty topic = false -> Api.ai_generator g = Some true ->
        exists w',
          Api.generate_content search_and_format ai_generate single_prompt
            multi_prompt template_generate save_content http_exception_str g
            {| Api.topic := topic; Api.context := context; Api.model := model;
               Api.generate_all := Some false; Api.use_ai := Some true |} w
          = (Raised (HTTPException 500 (py "Failed to generate content from AI")),
             w')).
Proof.
  intros H.
  assert (G : exists w',
     AIContentGenerator.generate search_and_format ai_generate single_prompt
       true topic context model w
     = (Raised (Exception (py "Failed to generate content from AI")), w')).
  { unfold completion_answer in H. unfold AIContentGenerator.generate.
    cbn [negb]. unfold mbind, io_bind, bind, call, raise.
    destruct (search_and_format topic w) as [search_context w1].
    destruct (ai_generate _ model 3500%Z w1) as [a w2]. simpl in H.
    exists w2. destruct a as [[|c t]|]; [reflexivity|discriminate|reflexivity]. }
  split; [exact G|].
  intros g Ht Hg. destruct G as [w' G]. exists w'.
  unfold Api.generate_content. cbn [Api.topic Api.context Api.model
    Api.generate_all Api.use_ai]. rewrite Ht, Hg. cbn [default from_option andb id].
  change (bool_decide (is_Some (Some true))) with true. cbv iota.
  unfold try_except, mbind, io_bind, bind. rewrite G. reflexivity.
Qed.

End AbsentAnswer.

Lemma C6_absent_response_raises_witness :
  opt_truthy (completion_answer no_search absent_service topic_prompt
                (py "AI agents") None None tt) = false
  /\ exists w',
       AIContentGenerator.generate no_search absent_service topic_prompt true
         (py "AI agents") None None tt
       = (Raised (Exception (py "Failed to generate content from AI")), w').
Proof.
  split; [reflexivity|].
  apply (C6_absent_response_raises no_search absent_service topic_prompt
           category_prompt (fun _ _ => raise (Exception []))
           (fun _ _ _ => raise (Exception [])) (fun _ detail => detail)
           (py "AI agents") None None tt).
  reflexivity.
Defined.

(** C6 as stated fails: with a completion service that answers [None],
    the single-category call raises, and the endpoint answers the request
    with an error of status 500. *)
Lemma C6_counterexample :
  AIContentGenerator.generate no_search absent_service topic_prompt true
    (py "AI agents") None None tt
  = (Raised (Exception (py "Failed to generate content from AI")), tt)
  /\ Api.generate_content no_search absent_service topic_prompt category_prompt
       (fun _ _ => raise (Exception [])) (fun _ _ _ => raise (Exception []))
       (fun _ detail => detail)
       {| Api.content_generator := true; Api.ai_generator := Some true;
          Api.multi_generator := Some true; Api.db := false;
          Api.db_connected := false |}
       {| Api.topic := py "AI agents"; Api.context := None; Api.model := None;
          Api.generate_all := Some false; Api.use_ai := Some true |} tt
     = (Raised (HTTPException 500 (py "Failed to generate content from AI")), tt).
Proof. split; vm_compute; reflexivity. Qed.

(** The scenario of the specification for the fan-out: the third of the
    six requests fails, the other five records are returned in the order
    of the enumeration, and all six requests are made. *)
Example generate_all_five_of_six :
  let '(o, w') :=
    MultiCategoryGenerator.generate_all no_search flaky_service category_prompt
      true (py "AI agents") None None 0 in
  match o with
  | Returned records => map (fun r : dict => r !! "category") records
  | Raised _ => []
  end
  = [Some (VStr (py "new_tool_intro")); Some (VStr (py "tool_detailed_tutorial"));
     Some (VStr (py "ai_trending_news")); Some (VStr (py "github_open_source_repo"));
     Some (VStr (py "instagram_engagement_content"))]
  /\ w' = 6.
Proof. vm_compute. split; reflexivity. Qed.

(** * Further properties *)

(** ** What the parsers write *)

Section ParserWrites.

Lemma ai_write_field (k : string) (v : value) : ai_write k v -> In k fields.
Proof.
  destruct 1 as [k s H|k l [->| ->]|s|l H]; simpl in *; intuition (subst; tauto).
Qed.

Lemma multi_write_field (k : string) (v : value) : multi_write k v -> In k fields.
Proof. destruct 1 as [k s H|l]; simpl in *; intuition (subst; tauto). Qed.

Variable P : dict -> Prop.

Section Single.
Import AIContentGenerator.
Hypothesis P_write : forall r k v, P r -> ai_write k v -> P (<[k := v]> r).

Lemma ai_store_text_closed (st : locals) :
  ai_section_ok (current_section st) -> P (result st) -> P (store_text st).
Proof.
  intros Hs H. unfold store_text. destruct (current_section st); [|exact H].
  destruct (is_empty _); [exact H|]. apply P_write; [exact H|now constructor].
Qed.

Lemma ai_store_list_closed (key : string) (st : locals) :
  key = "twitter_thread" \/ key = "cta" -> P (result st) -> P (store_list key st).
Proof.
  intros Hk H. unfold store_list. destruct (_ && _); [|exact H].
  apply P_write; [exact H|now constructor].
Qed.

Lemma hashtags_of_hashtags (text : str) :
  forallb is_hashtag (hashtags_of text) = true.
Proof.
  unfold hashtags_of. apply forallb_forall. intros h Hh.
  apply in_map_iff in Hh as (w & <- & Hw). now apply filter_In in Hw as [_ Hw].
Qed.

Lemma ai_step_closed (st : locals) (section : str) :
  ai_section_ok (current_section st) -> P (result st) ->
  ai_section_ok (current_section (step st section)) /\ P (result (step st section)).
Proof.
  intros Hs H. unfold step.
  repeat match goal with
         | |- context [if ?b then _ else _] => destruct b eqn:?
         end;
    simpl; split;
    try (simpl; tauto); try exact Hs;
    auto using ai_store_text_closed, ai_store_list_closed;
    try (match goal with E : current_section _ = None |- _ =>
           rewrite E; exact I end);
    try (apply P_write; [exact H|constructor]; fail);
    (apply P_write; [apply ai_store_list_closed; auto|]);
    constructor; apply hashtags_of_hashtags.
Qed.

Lemma ai_fold_closed (sections : list str) (st : locals) :
  ai_section_ok (current_section st) -> P (result st) ->
  ai_section_ok (current_section (fold_left step sections st))
  /\ P (result (fold_left step sections st)).
Proof.
  revert st. induction sections as [|s l IH]; intros st Hs H; simpl; [now split|].
  destruct (ai_step_closed st s Hs H) as [Hs' H']. now apply IH.
Qed.

Lemma ai_handle_last_closed (st : locals) :
  ai_section_ok (current_section st) -> P (result st) -> P (handle_last st).
Proof.
  intros Hs H. unfold handle_last. destruct (current_section st); [|exact H].
  destruct (is_empty _); [exact H|].
  repeat case_bool_decide; (apply P_write; [exact H|]);
    first [constructor; tauto | constructor; exact Hs].
Qed.

Lemma ai_fill_default_closed (key : string) (v : value) (r r' : dict) :
  ai_write key v -> P r -> fill_default key v r = Completed r' -> P r'.
Proof.
  intros Hw H. unfold fill_default. destruct (r !! key) as [x|]; [|discriminate].
  intros E. injection E as <-. destruct (truthy x); [exact H|now apply P_write].
Qed.

(** Whatever holds of the initial dictionary and is kept by every
    assignment the parser makes holds of the record it returns. *)
Lemma ai_parse_closed (response topic : str) :
  P (initial_result topic) -> P (_parse_response response topic).
Proof.
  intros H0.
  destruct (ai_try_body_completes response topic) as (r & E & ->).
  unfold try_body, ensure_content in E.
  assert (H1 : P (parsed_sections response topic)).
  { unfold parsed_sections, run_sections.
    destruct (ai_fold_closed (split response NN)
                (mk_locals (initial_result topic) None []) I H0) as [Hs H].
    now apply ai_handle_last_closed. }
  destruct (fill_default "master_storyline" _ _) as [r1|] eqn:E1; [|discriminate].
  cbn [and_then] in E.
  destruct (fill_default "twitter_thread" _ _) as [r2|] eqn:E2; [|discriminate].
  cbn [and_then] in E.
  destruct (fill_default "cta" _ _) as [r3|] eqn:E3; [|discriminate].
  cbn [and_then] in E.
  eapply ai_fill_default_closed in E1; [|constructor; simpl; tauto|exact H1].
  eapply ai_fill_default_closed in E2; [|constructor; tauto|exact E1].
  eapply ai_fill_default_closed in E3; [|constructor; tauto|exact E2].
  eapply ai_fill_default_closed in E; [exact E| |exact E3].
  now constructor.
Qed.

End Single.

Section Multi.
Import MultiCategoryGenerator.
Hypothesis P_write : forall r k v, P r -> multi_write k v -> P (<[k := v]> r).

Lemma multi_store_text_closed (st : locals) :
  section_ok (current_section st) -> P (result st) -> P (store_text st).
Proof.
  intros Hs H. unfold store_text. destruct (current_section st); [|exact H].
  destruct (is_empty _); [exact H|]. apply P_write; [exact H|now constructor].
Qed.

Lemma multi_store_thread_closed (st : locals) :
  P (result st) -> P (store_thread st).
Proof.
  intros H. unfold store_thread. destruct (_ && _); [|exact H].
  apply P_write; [exact H|constructor].
Qed.

Lemma multi_step_closed (st : locals) (line : str) :
  section_ok (current_section st) -> P (result st) -> P (result (step st line)).
Proof.
  intros Hs H. unfold step.
  repeat match goal with
         | |- context [if ?b then _ else _] => destruct b eqn:?
         end;
    simpl; auto using multi_store_text_closed, multi_store_thread_closed.
Qed.

Lemma multi_fold_closed (lines : list str) (st : locals) :
  shaped (result st) -> section_ok (current_section st) -> P (result st) ->
  section_ok (current_section (fold_left step lines st))
  /\ P (result (fold_left step lines st)).
Proof.
  revert st. induction lines as [|l lines IH]; intros st Hsh Hs H; simpl;
    [now split|].
  destruct (multi_step_inv st l Hsh Hs) as (Hsh' & Hs' & _).
  apply IH; auto. now apply multi_step_closed.
Qed.

Lemma multi_parse_closed (response topic category : str) :
  P (initial_result topic category) ->
  exists r, _parse_response response topic category = Returned r /\ P r.
Proof.
  intros H0.
  destruct (multi_parse_spec response topic category)
    as (x1 & x2 & r & H1 & H2 & E & _).
  exists r. split; [exact E|].
  assert (Hp : P (parsed_sections response topic category)).
  { unfold parsed_sections, run_lines.
    destruct (multi_fold_closed (split response [LF])
                (mk_locals (initial_result topic category) None [])
                (multi_initial_shaped topic category) I H0) as [Hs H].
    unfold handle_last. destruct (current_section _) eqn:Ec; [|exact H].
    destruct (is_empty _); [exact H|].
    case_bool_decide; apply P_write; try exact H; subst; now constructor. }
  unfold _parse_response, fill_default in E. rewrite H1 in E.
  cbv beta iota in E.
  assert (Hq : P (if truthy x1
                  then parsed_sections response topic category
                  else <["master_storyline" := VStr (slice_to 300 response)]>
                         (parsed_sections response topic category))).
  { destruct (truthy x1); [exact Hp|].
    apply P_write; [exact Hp|constructor; simpl; tauto]. }
  clear H2.
  destruct (_ !! "twitter_thread") as [y|]; [|discriminate].
  injection E as <-. destruct (truthy y); [exact Hq|].
  apply P_write; [exact Hq|constructor].
Qed.

End Multi.

End ParserWrites.

(** ** The fields of a record *)

Lemma well_typed_insert (topic : str) (r : dict) (k : string) (v : value) :
  In k fields -> k <> "topic" ->
  (In k ["category"; "master_storyline"; "youtube_script"; "instagram_script";
         "caption"] -> exists s, v = VStr s) ->
  (k = "hashtags" -> exists l, v = VList l /\ forallb is_hashtag l = true) ->
  is_seq v = true ->
  well_typed topic r -> well_typed topic (<[k := v]> r).
Proof.
  intros Hk Hnt Htext Hhash Hseq (Hd & Ht & Hx & Hh & Hs).
  split; [|split; [|split; [|split]]].
  - rewrite dom_insert_L, Hd.
    apply subseteq_union_1_L, singleton_subseteq_l.
    apply elem_of_list_to_set, list_elem_of_In, Hk.
  - now rewrite lookup_insert_ne.
  - intros k' Hk'. destruct (decide (k = k')) as [<-|Hne].
    + destruct (Htext Hk') as [s ->]. exists s. apply lookup_insert_eq.
    + rewrite lookup_insert_ne by exact Hne. now apply Hx.
  - destruct (decide (k = "hashtags")) as [->|Hne].
    + destruct (Hhash eq_refl) as (l & -> & Hl). exists l.
      now rewrite lookup_insert_eq.
    + now rewrite lookup_insert_ne.
  - intros k' Hk'. destruct (decide (k = k')) as [<-|Hne].
    + exists v. now rewrite lookup_insert_eq.
    + rewrite lookup_insert_ne by exact Hne. now apply Hs.
Qed.

Ltac solve_well_typed_insert H :=
  apply well_typed_insert;
  [ simpl; tauto
  | discriminate
  | let Hin := fresh in
    intros Hin; first [ solve [eauto] | simpl in Hin; intuition discriminate ]
  | let Heq := fresh in
    intros Heq; first [ discriminate Heq | solve [eauto] ]
  | reflexivity
  | exact H ].

Lemma ai_write_well_typed (topic : str) (r : dict) (k : string) (v : value) :
  well_typed topic r -> ai_write k v -> well_typed topic (<[k := v]> r).
Proof.
  intros H Hw. destruct Hw as [k s Hk|k l [->| ->]|s|l Hl].
  - simpl in Hk.
    repeat (destruct Hk as [<-|Hk]; [solve_well_typed_insert H|]). destruct Hk.
  - solve_well_typed_insert H.
  - solve_well_typed_insert H.
  - solve_well_typed_insert H.
  - solve_well_typed_insert H.
Qed.

Lemma multi_write_well_typed (topic : str) (r : dict) (k : string) (v : value) :
  well_typed topic r -> multi_write k v -> well_typed topic (<[k := v]> r).
Proof.
  intros H Hw. destruct Hw as [k s Hk|l].
  - simpl in Hk.
    repeat (destruct Hk as [<-|Hk]; [solve_well_typed_insert H|]). destruct Hk.
  - solve_well_typed_insert H.
Qed.

Lemma ai_initial_well_typed (topic : str) :
  well_typed topic (AIContentGenerator.initial_result topic).
Proof.
  unfold AIContentGenerator.initial_result.
  split; [|split; [|split; [|split]]].
  - rewrite !dom_insert_L, dom_empty_L. reflexivity.
  - by simplify_map_eq.
  - intros k Hk. simpl in Hk.
    repeat (destruct Hk as [<-|Hk]; [eexists; by simplify_map_eq|]). destruct Hk.
  - eexists. split; [by simplify_map_eq|reflexivity].
  - intros k Hk. simpl in Hk.
    repeat (destruct Hk as [<-|Hk]; [eexists; split; [by simplify_map_eq|done]|]).
    destruct Hk.
Qed.

Lemma multi_initial_well_typed (topic category : str) :
  well_typed topic (MultiCategoryGenerator.initial_result topic category).
Proof.
  unfold MultiCategoryGenerator.initial_result.
  split; [|split; [|split; [|split]]].
  - rewrite !dom_insert_L, dom_empty_L. reflexivity.
  - by simplify_map_eq.
  - intros k Hk. simpl in Hk.
    repeat (destruct Hk as [<-|Hk]; [eexists; by simplify_map_eq|]). destruct Hk.
  - eexists. split; [by simplify_map_eq|vm_compute; reflexivity].
  - intros k Hk. simpl in Hk.
    repeat (destruct Hk as [<-|Hk]; [eexists; split; [by simplify_map_eq|done]|]).
    destruct Hk.
Qed.

(** X1.  The record of the single-category parser has exactly the nine
    keys of the initial dictionary.  [topic] is the topic it was called
    with, the category, the storyline, the two scripts and the caption
    are [str], [hashtags] is a list whose elements all start with [#],
    and [twitter_thread] and [cta] hold a [str] or a list: a thread
    section that is closed by the [CTA:] marker is stored as one [str]. *)
Theorem X1_single_record_fields (response topic : str) :
  well_typed topic (AIContentGenerator._parse_response response topic)
  /\ AIContentGenerator._parse_response
       (py "TWITTER_THREAD:" ++ [LF; LF] ++ py "one" ++ [LF] ++ py "---" ++ [LF]
        ++ py "two" ++ [LF; LF] ++ py "CTA:" ++ [LF; LF] ++ py "go")
       topic !! "twitter_thread"
     = Some (VStr (py "one" ++ [LF] ++ py "---" ++ [LF] ++ py "two")).
Proof.
  split; [|vm_compute; reflexivity].
  apply (ai_parse_closed (well_typed topic)).
  - intros r k v. apply ai_write_well_typed.
  - apply ai_initial_well_typed.
Qed.

(** X2.  The [try] block of the single-category parser completes on every
    response: no statement of it raises on a [str], so the record is the
    one the block builds and the values of the [except] branch are never
    returned. *)
Theorem X2_single_parser_try_completes (response topic : str) :
  AIContentGenerator.try_body response topic
  = AIContentGenerator.Completed
      (AIContentGenerator._parse_response response topic).
Proof.
  destruct (ai_try_body_completes response topic) as (r & E & <-). exact E.
Qed.

(** X3.  The multi-category parser returns on every response, the reads
    of its two defaults never raise [KeyError]; its record has exactly
    the nine keys, the topic it was called with, [str] under the text
    keys and a [str] or a list under [twitter_thread]. *)
Theorem X3_multi_record_fields (response topic category : str) :
  exists r,
    MultiCategoryGenerator._parse_response response topic category = Returned r
    /\ well_typed topic r.
Proof.
  apply (multi_parse_closed (well_typed topic)).
  - intros r k v. apply multi_write_well_typed.
  - apply multi_initial_well_typed.
Qed.

(** ** The category of the single-category parser *)

Section SingleCategory.
Import AIContentGenerator.

Lemma ai_step_section_ok (st : locals) (section : str) :
  ai_section_ok (current_section st) ->
  ai_section_ok (current_section (step st section)).
Proof.
  intros Hs.
  exact (proj1 (ai_step_closed (fun _ => True) (fun _ _ _ _ _ => I) st section Hs I)).
Qed.

Lemma ai_fold_section_ok (sections : list str) (st : locals) :
  ai_section_ok (current_section st) ->
  ai_section_ok (current_section (fold_left step sections st)).
Proof.
  intros Hs.
  exact (proj1 (ai_fold_closed (fun _ => True) (fun _ _ _ _ _ => I) sections st Hs I)).
Qed.

Lemma ai_store_text_other (st : locals) (k : string) :
  ai_section_ok (current_section st) -> ~ In k ai_sections ->
  store_text st !! k = result st !! k.
Proof.
  intros Hs Hk. unfold store_text.
  destruct (current_section st) as [c|]; [|reflexivity].
  destruct (is_empty _); [reflexivity|].
  apply lookup_insert_ne. intros ->. exact (Hk Hs).
Qed.

Lemma ai_store_list_other (key : string) (st : locals) (k : string) :
  k <> key -> store_list key st !! k = result st !! k.
Proof.
  intros Hk. unfold store_list. destruct (_ && _); [|reflexivity].
  apply lookup_insert_ne. congruence.
Qed.

Lemma ai_step_category (st : locals) (section : str) :
  ai_section_ok (current_section st) ->
  result (step st section) !! "category"
  = if startswith (strip section) (py "CATEGORY:")
    then Some (VStr (after_marker (strip section) (py "CATEGORY:")))
    else result st !! "category".
Proof.
  intros Hs. unfold step. cbv zeta.
  destruct (startswith (strip section) (py "CATEGORY:"));
    [apply lookup_insert_eq|].
  assert (Hc : ~ In "category" ai_sections) by (simpl; intuition discriminate).
  repeat match goal with
         | |- context [if ?b then _ else _] => destruct b eqn:?
         end; cbn [result];
    rewrite ?lookup_insert_ne by discriminate;
    rewrite ?ai_store_text_other, ?ai_store_list_other by (auto; discriminate);
    reflexivity.
Qed.

Lemma ai_fold_category (sections : list str) (st : locals) :
  ai_section_ok (current_section st) ->
  result (fold_left step sections st) !! "category"
  = match last_category sections with
    | Some c => Some (VStr c)
    | None => result st !! "category"
    end.
Proof.
  revert st. induction sections as [|s l IH]; intros st Hs; [reflexivity|].
  cbn [fold_left last_category].
  rewrite (IH _ (ai_step_section_ok st s Hs)).
  destruct (last_category l); [reflexivity|].
  rewrite (ai_step_category st s Hs).
  now destruct (startswith (strip s) (py "CATEGORY:")).
Qed.

Lemma ai_handle_last_other (st : locals) (k : string) :
  ai_section_ok (current_section st) -> ~ In k ai_sections ->
  handle_last st !! k = result st !! k.
Proof.
  intros Hs Hk. unfold handle_last.
  destruct (current_section st) as [c|]; [|reflexivity].
  destruct (is_empty _); [reflexivity|].
  repeat case_bool_decide; subst; apply lookup_insert_ne;
    intros <-; apply Hk; simpl; tauto || exact Hs.
Qed.

End SingleCategory.

(** X4.  The category of the single-category record is the text after
    [CATEGORY:] in the last paragraph that starts with this marker, kept
    as it is, whether it names one of the six categories or not; without
    such a paragraph it is [new_tool_intro]. *)
Theorem X4_single_category_last_wins (response topic : str) :
  AIContentGenerator._parse_response response topic !! "category"
  = Some (VStr (default (py "new_tool_intro")
                  (last_category (split response AIContentGenerator.NN))))
  /\ AIContentGenerator._parse_response
       (py "CATEGORY: first" ++ [LF; LF] ++ py "CATEGORY: not a category") topic
       !! "category"
     = Some (VStr (py "not a category")).
Proof.
  split; [|vm_compute; reflexivity].
  destruct (ai_try_body_completes response topic) as (r & E & ->).
  unfold AIContentGenerator.try_body in E.
  destruct (ai_ensure_content_spec response _
              (ai_parsed_sections_shaped response topic))
    as (r' & E' & _ & _ & _ & _ & _ & O).
  rewrite E in E'. injection E' as <-.
  rewrite O by (simpl; intuition discriminate).
  unfold AIContentGenerator.parsed_sections, AIContentGenerator.run_sections.
  rewrite ai_handle_last_other;
    [|now apply ai_fold_section_ok|simpl; intuition discriminate].
  rewrite ai_fold_category by exact I.
  destruct (last_category _); [reflexivity|].
  cbn [AIContentGenerator.result]. unfold AIContentGenerator.initial_result.
  by simplify_map_eq.
Qed.

(** ** A response in the order of the prompt *)

Lemma startswith_comparable (s p q : str) :
  startswith s p = true -> startswith s q = true ->
  startswith p q = true \/ startswith q p = true.
Proof.
  revert p q. induction s as [|c s IH]; intros [|a p] [|b q];
    cbn [startswith]; try discriminate; auto;
    try (intros; left; now destruct p); try (intros; right; now destruct q).
  rewrite !andb_true_iff, !N.eqb_eq. intros [-> Hp] [-> Hq].
  destruct (IH p q Hp Hq); tauto.
Qed.

Lemma startswith_exclusive (s p q : str) :
  startswith s p = true -> startswith p q = false -> startswith q p = false ->
  startswith s q = false.
Proof.
  intros Hp Hpq Hqp. destruct (startswith s q) eqn:Hq; [|reflexivity].
  destruct (startswith_comparable s p q Hp Hq); congruence.
Qed.

(** The other markers do not match a paragraph that starts with one of
    them. *)
Ltac other_markers H :=
  repeat match goal with
         | |- context [startswith ?s (py ?m)] =>
             first
               [ rewrite H
               | rewrite (startswith_exclusive s _ (py m) H eq_refl eq_refl) ]
         end.

Section SingleOrder.
Import AIContentGenerator.

Lemma ai_fold_plain (more : list str) (st : locals) (k : string) :
  forallb plain more = true -> current_section st = Some k ->
  fold_left step more st
  = mk_locals (result st) (Some k) (current_content st ++ map strip more).
Proof.
  revert st. induction more as [|p more IH]; intros st H Hk; simpl.
  - rewrite app_nil_r. now destruct st; simpl in *; subst.
  - simpl in H. apply andb_true_iff in H as [Hp H].
    apply negb_true_iff in Hp. rewrite (ai_step_content st p Hp), Hk.
    rewrite (IH (mk_locals (result st) (Some k) (current_content st ++ [strip p]))
               H eq_refl).
    simpl. now rewrite <- app_assoc.
Qed.

Lemma ai_step_opens_category (st : locals) (p : str) :
  startswith (strip p) (py "CATEGORY:") = true ->
  step st p
  = mk_locals
      (<["category" := VStr (after_marker (strip p) (py "CATEGORY:"))]> (result st))
      (current_section st) (current_content st).
Proof. intros H. unfold step. cbv zeta. now other_markers H. Qed.

Lemma ai_step_opens_storyline (st : locals) (p : str) :
  startswith (strip p) (py "MASTER_STORYLINE:") = true ->
  step st p
  = mk_locals (result st) (Some "master_storyline")
      [after_marker (strip p) (py "MASTER_STORYLINE:")].
Proof. intros H. unfold step. cbv zeta. now other_markers H. Qed.

Lemma ai_step_opens_youtube (st : locals) (p : str) :
  startswith (strip p) (py "YOUTUBE_SCRIPT:") = true ->
  step st p
  = mk_locals (store_text st) (Some "youtube_script")
      [after_marker (strip p) (py "YOUTUBE_SCRIPT:")].
Proof. intros H. unfold step. cbv zeta. now other_markers H. Qed.

Lemma ai_step_opens_instagram (st : locals) (p : str) :
  startswith (strip p) (py "INSTAGRAM_SCRIPT:") = true ->
  step st p
  = mk_locals (store_text st) (Some "instagram_script")
      [after_marker (strip p) (py "INSTAGRAM_SCRIPT:")].
Proof. intros H. unfold step. cbv zeta. now other_markers H. Qed.

Lemma ai_step_opens_thread (st : locals) (p : str) :
  startswith (strip p) (py "TWITTER_THREAD:") = true ->
  step st p = mk_locals (store_text st) (Some "twitter_thread") [].
Proof. intros H. unfold step. cbv zeta. now other_markers H. Qed.

Lemma ai_step_opens_caption (st : locals) (p : str) :
  startswith (strip p) (py "CAPTION:") = true ->
  step st p
  = mk_locals (store_list "twitter_thread" st) (Some "caption")
      [after_marker (strip p) (py "CAPTION:")].
Proof. intros H. unfold step. cbv zeta. now other_markers H. Qed.

Lemma ai_step_opens_cta (st : locals) (p : str) :
  startswith (strip p) (py "CTA:") = true ->
  step st p = mk_locals (store_text st) (Some "cta") [].
Proof. intros H. unfold step. cbv zeta. now other_markers H. Qed.

Lemma ai_step_opens_hashtags (st : locals) (p : str) :
  startswith (strip p) (py "HASHTAGS:") = true ->
  step st p
  = mk_locals
      (<["hashtags" := VList (hashtags_of (after_marker (strip p) (py "HASHTAGS:")))]>
         (store_list "cta" st))
      None (current_content st).
Proof. intros H. unfold step. cbv zeta. now other_markers H. Qed.

End SingleOrder.

Section SingleLookups.
Import AIContentGenerator.

Lemma ai_store_text_at (R : dict) (k : string) (content : list str) :
  is_empty content = false ->
  store_text (mk_locals R (Some k) content) !! k
  = Some (VStr (strip (join NN content))).
Proof.
  intros H. unfold store_text. cbn [current_section current_content result].
  rewrite H. apply lookup_insert_eq.
Qed.

Lemma ai_store_text_skip (R : dict) (k k' : string) (content : list str) :
  k' <> k -> store_text (mk_locals R (Some k) content) !! k' = R !! k'.
Proof.
  intros H. unfold store_text. cbn [current_section current_content result].
  destruct (is_empty content); [reflexivity|].
  apply lookup_insert_ne. congruence.
Qed.

Lemma ai_store_list_at (R : dict) (key : string) (content : list str) :
  R !! key = Some (VList []) ->
  store_list key (mk_locals R (Some key) content) !! key
  = Some (VList (dash_segments (join NN content))).
Proof.
  intros H. unfold store_list. cbn [current_section current_content result].
  rewrite bool_decide_eq_true_2 by reflexivity.
  destruct content as [|x c]; [exact H|]. apply lookup_insert_eq.
Qed.

End SingleLookups.

(** Passes the assignments to other keys. *)
Ltac ai_peel :=
  repeat first
    [ rewrite lookup_insert_ne by discriminate
    | rewrite ai_store_list_other by discriminate;
      cbn [AIContentGenerator.result]
    | rewrite ai_store_text_skip by discriminate ].

Section SingleDocumented.
Import AIContentGenerator.

Variables (topic : str).
Variables (pre cat_more ms_more yt_more ig_more tt_more cap_more cta_more post
           : list str).
Variables (cat ms yt ig tt cap cta ht : str).

Hypothesis Hpre : forallb plain pre = true.
Hypothesis Hcat : block (py "CATEGORY:") cat cat_more = true.
Hypothesis Hms : block (py "MASTER_STORYLINE:") ms ms_more = true.
Hypothesis Hyt : block (py "YOUTUBE_SCRIPT:") yt yt_more = true.
Hypothesis Hig : block (py "INSTAGRAM_SCRIPT:") ig ig_more = true.
Hypothesis Htt : block (py "TWITTER_THREAD:") tt tt_more = true.
Hypothesis Hcap : block (py "CAPTION:") cap cap_more = true.
Hypothesis Hcta : block (py "CTA:") cta cta_more = true.
Hypothesis Hht : block (py "HASHTAGS:") ht post = true.

Lemma ai_parsed_documented :
  let r := handle_last
             (run_sections topic
                (documented_order pre cat cat_more ms ms_more yt yt_more ig ig_more
                   tt tt_more cap cap_more cta cta_more ht post)) in
  r !! "category" = Some (VStr (after_marker (strip cat) (py "CATEGORY:")))
  /\ r !! "master_storyline"
     = Some (VStr (section_text (py "MASTER_STORYLINE:") ms ms_more))
  /\ r !! "youtube_script"
     = Some (VStr (section_text (py "YOUTUBE_SCRIPT:") yt yt_more))
  /\ r !! "instagram_script"
     = Some (VStr (section_text (py "INSTAGRAM_SCRIPT:") ig ig_more))
  /\ r !! "twitter_thread"
     = Some (VList (dash_segments (join NN (map strip tt_more))))
  /\ r !! "caption" = Some (VStr (section_text (py "CAPTION:") cap cap_more))
  /\ r !! "cta" = Some (VList (dash_segments (join NN (map strip cta_more))))
  /\ r !! "hashtags"
     = Some (VList (hashtags_of (after_marker (strip ht) (py "HASHTAGS:")))).
Proof.
  unfold block in *.
  apply andb_true_iff in Hcat as [Mcat Pcat], Hms as [Mms Pms], Hyt as [Myt Pyt],
    Hig as [Mig Pig], Htt as [Mtt Ptt], Hcap as [Mcap Pcap], Hcta as [Mcta Pcta],
    Hht as [Mht Pht].
  unfold run_sections, documented_order.
  rewrite fold_left_app, (ai_fold_idle pre) by (exact Hpre || reflexivity).
  cbn [fold_left]. rewrite (ai_step_opens_category _ _ Mcat).
  rewrite fold_left_app, (ai_fold_idle cat_more) by (exact Pcat || reflexivity).
  cbn [fold_left]. rewrite (ai_step_opens_storyline _ _ Mms).
  rewrite fold_left_app, (ai_fold_plain ms_more _ "master_storyline")
    by (exact Pms || reflexivity).
  cbn [fold_left]. rewrite (ai_step_opens_youtube _ _ Myt).
  rewrite fold_left_app, (ai_fold_plain yt_more _ "youtube_script")
    by (exact Pyt || reflexivity).
  cbn [fold_left]. rewrite (ai_step_opens_instagram _ _ Mig).
  rewrite fold_left_app, (ai_fold_plain ig_more _ "instagram_script")
    by (exact Pig || reflexivity).
  cbn [fold_left]. rewrite (ai_step_opens_thread _ _ Mtt).
  rewrite fold_left_app, (ai_fold_plain tt_more _ "twitter_thread")
    by (exact Ptt || reflexivity).
  cbn [fold_left]. rewrite (ai_step_opens_caption _ _ Mcap).
  rewrite fold_left_app, (ai_fold_plain cap_more _ "caption")
    by (exact Pcap || reflexivity).
  cbn [fold_left]. rewrite (ai_step_opens_cta _ _ Mcta).
  rewrite fold_left_app, (ai_fold_plain cta_more _ "cta")
    by (exact Pcta || reflexivity).
  cbn [fold_left]. rewrite (ai_step_opens_hashtags _ _ Mht).
  rewrite (ai_fold_idle post) by (exact Pht || reflexivity).
  unfold handle_last. cbn [current_section result]. unfold section_text.
  repeat split.
  - ai_peel. apply lookup_insert_eq.
  - ai_peel. now apply ai_store_text_at.
  - ai_peel. now apply ai_store_text_at.
  - ai_peel. now apply ai_store_text_at.
  - ai_peel. apply ai_store_list_at. ai_peel. vm_compute; reflexivity.
  - ai_peel. now apply ai_store_text_at.
  - ai_peel. apply ai_store_list_at. ai_peel. vm_compute; reflexivity.
  - apply lookup_insert_eq.
Qed.

End SingleDocumented.

(** X5.  A response whose paragraphs come in the order of the prompt
    (category, storyline, YouTube script, Instagram script, thread,
    caption, CTA, hashtags, each marker at the start of a paragraph and no
    other paragraph starting with a marker) is read as follows.  The
    category, the four texts and the hashtags are taken from the marker
    paragraph with the marker removed, the texts with the paragraphs
    that follow.  The thread and the CTA are taken from the paragraphs that
    follow the marker paragraph only, joined and cut at [---]: what
    shares the paragraph of [TWITTER_THREAD:] or [CTA:] is dropped, so a
    thread or CTA that stands in the paragraph of its marker, as in the
    layout of the prompt, is lost and the field gets its default.  An
    empty storyline, thread, CTA or hashtag list gets its default. *)
Theorem X5_single_prompt_order (response topic : str)
    (pre cat_more ms_more yt_more ig_more tt_more cap_more cta_more post : list str)
    (cat ms yt ig tt cap cta ht : str) :
  split response AIContentGenerator.NN
  = documented_order pre cat cat_more ms ms_more yt yt_more ig ig_more
      tt tt_more cap cap_more cta cta_more ht post ->
  forallb plain pre = true ->
  block (py "CATEGORY:") cat cat_more = true ->
  block (py "MASTER_STORYLINE:") ms ms_more = true ->
  block (py "YOUTUBE_SCRIPT:") yt yt_more = true ->
  block (py "INSTAGRAM_SCRIPT:") ig ig_more = true ->
  block (py "TWITTER_THREAD:") tt tt_more = true ->
  block (py "CAPTION:") cap cap_more = true ->
  block (py "CTA:") cta cta_more = true ->
  block (py "HASHTAGS:") ht post = true ->
  let r := AIContentGenerator._parse_response response topic in
  let storyline := section_text (py "MASTER_STORYLINE:") ms ms_more in
  let thread := dash_segments (join AIContentGenerator.NN (map strip tt_more)) in
  let ctas := dash_segments (join AIContentGenerator.NN (map strip cta_more)) in
  let tags :=
    AIContentGenerator.hashtags_of
      (AIContentGenerator.after_marker (strip ht) (py "HASHTAGS:")) in
  r !! "category"
    = Some (VStr (AIContentGenerator.after_marker (strip cat) (py "CATEGORY:")))
  /\ r !! "master_storyline"
     = Some (VStr (if is_empty storyline then slice_to 500 response else storyline))
  /\ r !! "youtube_script"
     = Some (VStr (section_text (py "YOUTUBE_SCRIPT:") yt yt_more))
  /\ r !! "instagram_script"
     = Some (VStr (section_text (py "INSTAGRAM_SCRIPT:") ig ig_more))
  /\ r !! "twitter_thread"
     = Some (VList (if is_empty thread then [slice_to 280 response] else thread))
  /\ r !! "caption" = Some (VStr (section_text (py "CAPTION:") cap cap_more))
  /\ r !! "cta"
     = Some (VList (if is_empty ctas then AIContentGenerator.default_cta else ctas))
  /\ r !! "hashtags"
     = Some (VList (if is_empty tags then AIContentGenerator.default_hashtags
                    else tags))
  /\ (tt_more = [] ->
      r !! "twitter_thread" = Some (VList [slice_to 280 response]))
  /\ (cta_more = [] ->
      r !! "cta" = Some (VList AIContentGenerator.default_cta)).
Proof.
  intros Hsplit Hpre Hcat Hms Hyt Hig Htt Hcap Hcta Hht.
  destruct (ai_parsed_documented topic pre cat_more ms_more yt_more ig_more
              tt_more cap_more cta_more post cat ms yt ig tt cap cta ht
              Hpre Hcat Hms Hyt Hig Htt Hcap Hcta Hht)
    as (Lc & Lm & Ly & Li & Lt & Lp & La & Lh).
  rewrite <- Hsplit in Lc, Lm, Ly, Li, Lt, Lp, La, Lh.
  fold (AIContentGenerator.parsed_sections response topic)
    in Lc, Lm, Ly, Li, Lt, Lp, La, Lh.
  destruct (ai_try_body_completes response topic) as (r & E & ->).
  unfold AIContentGenerator.try_body in E.
  destruct (ai_ensure_content_spec response _
              (ai_parsed_sections_shaped response topic))
    as (r' & E' & _ & Dm & Dt & Da & Dh & O).
  rewrite E in E'. injection E' as <-.
  cbv zeta. repeat split.
  - rewrite O by (simpl; intuition discriminate). exact Lc.
  - rewrite (Dm _ Lm). simpl. now destruct (is_empty _).
  - rewrite O by (simpl; intuition discriminate). exact Ly.
  - rewrite O by (simpl; intuition discriminate). exact Li.
  - rewrite (Dt _ Lt). simpl. now destruct (is_empty _).
  - rewrite O by (simpl; intuition discriminate). exact Lp.
  - rewrite (Da _ La). simpl. now destruct (is_empty _).
  - rewrite (Dh _ Lh). simpl. now destruct (is_empty _).
  - intros ->. rewrite (Dt _ Lt). reflexivity.
  - intros ->. rewrite (Da _ La). reflexivity.
Qed.

Lemma X5_single_prompt_order_witness :
  (AIContentGenerator._parse_response sample_response (py "AI") !! "master_storyline"
   = Some (VStr (py "Big news." ++ [LF; LF] ++ py "More news."))
   /\ AIContentGenerator._parse_response sample_response (py "AI") !! "twitter_thread"
      = Some (VList [py "Tweet 1"; py "Tweet 2"]))
  /\ (AIContentGenerator._parse_response prompt_layout_response (py "AI")
        !! "twitter_thread"
      = Some (VList [slice_to 280 prompt_layout_response])
      /\ AIContentGenerator._parse_response prompt_layout_response (py "AI") !! "cta"
         = Some (VList AIContentGenerator.default_cta)).
Proof.
  split.
  - destruct (X5_single_prompt_order sample_response (py "AI")
                [] [] [py "More news."] [] []
                [py "Tweet 1" ++ [LF] ++ py "---" ++ [LF] ++ py "Tweet 2"] []
                [py "Follow" ++ [LF] ++ py "---" ++ [LF] ++ py "Share"] []
                (py "CATEGORY: ai_trending_news")
                (py "MASTER_STORYLINE:" ++ [LF] ++ py "Big news.")
                (py "YOUTUBE_SCRIPT:" ++ [LF] ++ py "[0:00] Hook")
                (py "INSTAGRAM_SCRIPT:" ++ [LF] ++ py "HOOK: look")
                (py "TWITTER_THREAD:")
                (py "CAPTION:" ++ [LF] ++ py "Read this")
                (py "CTA:")
                (py "HASHTAGS:" ++ [LF] ++ py "#AI #News"))
      as (_ & Hm & _ & _ & Ht & _); try (vm_compute; reflexivity).
    split; [exact Hm|exact Ht].
  - destruct (X5_single_prompt_order prompt_layout_response (py "AI")
                [] [] [] [] [] [] [] [] []
                (py "CATEGORY: ai_trending_news")
                (py "MASTER_STORYLINE:" ++ [LF] ++ py "Big news.")
                (py "YOUTUBE_SCRIPT:" ++ [LF] ++ py "[0:00] Hook")
                (py "INSTAGRAM_SCRIPT:" ++ [LF] ++ py "HOOK: look")
                (py "TWITTER_THREAD:" ++ [LF] ++ py "Tweet 1" ++ [LF] ++ py "---"
                 ++ [LF] ++ py "Tweet 2")
                (py "CAPTION:" ++ [LF] ++ py "Read this")
                (py "CTA:" ++ [LF] ++ py "Follow" ++ [LF] ++ py "---" ++ [LF]
                 ++ py "Share")
                (py "HASHTAGS:" ++ [LF] ++ py "#AI #News"))
      as (_ & _ & _ & _ & _ & _ & _ & _ & Ht & Hc); try (vm_compute; reflexivity).
    split; [exact (Ht eq_refl)|exact (Hc eq_refl)].
Defined.

(** ** A multi-category response in the order of the prompt *)

Section MultiOrder.
Import MultiCategoryGenerator.

Lemma multi_fold_quiet (more : list str) (st : locals) (k : string) :
  forallb quiet more = true -> current_section st = Some k ->
  fold_left step more st = mk_locals (result st) (Some k) (content st ++ more).
Proof.
  revert st. induction more as [|l more IH]; intros st H Hk; simpl.
  - rewrite app_nil_r. now destruct st; simpl in *; subst.
  - simpl in H. apply andb_true_iff in H as [Hl H].
    apply negb_true_iff in Hl. rewrite (multi_step_content st l Hl), Hk.
    rewrite (IH (mk_locals (result st) (Some k) (content st ++ [l])) H eq_refl).
    simpl. now rewrite <- app_assoc.
Qed.

Lemma multi_fold_idle (more : list str) (st : locals) :
  forallb quiet more = true -> current_section st = None ->
  fold_left step more st = st.
Proof.
  induction more as [|l more IH]; intros H Hk; simpl; [reflexivity|].
  simpl in H. apply andb_true_iff in H as [Hl H].
  apply negb_true_iff in Hl. rewrite (multi_step_content st l Hl), Hk.
  now apply IH.
Qed.

Lemma multi_fold_quiet_at (more : list str) (R : dict) (k : string)
    (c : list str) :
  forallb quiet more = true ->
  fold_left step more (mk_locals R (Some k) c) = mk_locals R (Some k) (c ++ more).
Proof.
  intros H. now rewrite (multi_fold_quiet more (mk_locals R (Some k) c) k H eq_refl).
Qed.

Lemma multi_step_opens_storyline (st : locals) (line : str) :
  opened_by line = Some "master_storyline" ->
  step st line = mk_locals (result st) (Some "master_storyline") [].
Proof.
  unfold opened_by, step.
  repeat match goal with
         | |- context [if contains ?m line then _ else _] =>
             destruct (contains m line)
         end; intros E; try discriminate; reflexivity.
Qed.

Lemma multi_step_opens_text (st : locals) (line : str) (k : string) :
  opened_by line = Some k -> k <> "master_storyline" -> k <> "caption" ->
  step st line = mk_locals (store_text st) (Some k) [].
Proof.
  unfold opened_by, step.
  repeat match goal with
         | |- context [if contains ?m line then _ else _] =>
             destruct (contains m line)
         end; intros E; try discriminate; injection E as <-;
    intros H1 H2; try reflexivity; congruence.
Qed.

Lemma multi_step_opens_caption (st : locals) (line : str) :
  opened_by line = Some "caption" ->
  step st line = mk_locals (store_thread st) (Some "caption") [].
Proof.
  unfold opened_by, step.
  repeat match goal with
         | |- context [if contains ?m line then _ else _] =>
             destruct (contains m line)
         end; intros E; try discriminate; reflexivity.
Qed.

Lemma multi_store_text_at (R : dict) (k : string) (c : list str) :
  R !! k = Some (VStr []) ->
  store_text (mk_locals R (Some k) c) !! k = Some (VStr (strip (join [LF] c))).
Proof.
  intros H. unfold store_text. cbn [current_section content result].
  destruct c as [|x c]; [exact H|]. apply lookup_insert_eq.
Qed.

Lemma multi_store_text_skip (R : dict) (k k' : string) (c : list str) :
  k' <> k -> store_text (mk_locals R (Some k) c) !! k' = R !! k'.
Proof.
  intros H. unfold store_text. cbn [current_section content result].
  destruct (is_empty c); [reflexivity|]. apply lookup_insert_ne. congruence.
Qed.

Lemma multi_store_thread_at (R : dict) (c : list str) :
  R !! "twitter_thread" = Some (VList []) ->
  store_thread (mk_locals R (Some "twitter_thread") c) !! "twitter_thread"
  = Some (VList (dash_segments (join [LF] c))).
Proof.
  intros H. unfold store_thread. cbn [current_section content result].
  rewrite bool_decide_eq_true_2 by reflexivity.
  destruct c as [|x c]; [exact H|]. apply lookup_insert_eq.
Qed.

Lemma multi_store_thread_skip (st : locals) (k : string) :
  k <> "twitter_thread" -> store_thread st !! k = result st !! k.
Proof.
  intros H. unfold store_thread. destruct (_ && _); [|reflexivity].
  apply lookup_insert_ne. congruence.
Qed.

Lemma multi_handle_last_at (R : dict) (k : string) (c : list str) :
  k <> "twitter_thread" -> R !! k = Some (VStr []) ->
  handle_last (mk_locals R (Some k) c) !! k = Some (VStr (strip (join [LF] c))).
Proof.
  intros Hk H. unfold handle_last. cbn [current_section content result].
  destruct c as [|x c]; [exact H|]. cbn [is_empty].
  rewrite bool_decide_eq_false_2 by exact Hk. apply lookup_insert_eq.
Qed.

Lemma multi_handle_last_skip (R : dict) (k k' : string) (c : list str) :
  k' <> k -> handle_last (mk_locals R (Some k) c) !! k' = R !! k'.
Proof.
  intros H. unfold handle_last. cbn [current_section content result].
  destruct (is_empty c); [reflexivity|].
  case_bool_decide; subst; apply lookup_insert_ne; congruence.
Qed.

Ltac multi_peel :=
  repeat first
    [ rewrite lookup_insert_ne by discriminate
    | rewrite multi_handle_last_skip by discriminate
    | rewrite multi_store_thread_skip by discriminate; cbn [result]
    | rewrite multi_store_text_skip by discriminate ].

Lemma multi_parsed_documented (topic category : str)
    (pre ms_b yt_b ig_b tt_b cap_b : list str) (l_ms l_yt l_ig l_tt l_cap : str) :
  forallb quiet pre = true ->
  multi_block "master_storyline" l_ms ms_b = true ->
  multi_block "youtube_script" l_yt yt_b = true ->
  multi_block "instagram_script" l_ig ig_b = true ->
  multi_block "twitter_thread" l_tt tt_b = true ->
  multi_block "caption" l_cap cap_b = true ->
  let r := handle_last
             (run_lines topic category
                (multi_documented_order pre l_ms ms_b l_yt yt_b l_ig ig_b
                   l_tt tt_b l_cap cap_b)) in
  r !! "master_storyline" = Some (VStr (strip (join [LF] ms_b)))
  /\ r !! "youtube_script" = Some (VStr (strip (join [LF] yt_b)))
  /\ r !! "instagram_script" = Some (VStr (strip (join [LF] ig_b)))
  /\ r !! "twitter_thread" = Some (VList (dash_segments (join [LF] tt_b)))
  /\ r !! "caption" = Some (VStr (strip (join [LF] cap_b))).
Proof.
  unfold multi_block. intros Hpre Hms Hyt Hig Htt Hcap.
  apply andb_true_iff in Hms as [Mms Pms], Hyt as [Myt Pyt], Hig as [Mig Pig],
    Htt as [Mtt Ptt], Hcap as [Mcap Pcap].
  apply bool_decide_eq_true_1 in Mms, Myt, Mig, Mtt, Mcap.
  unfold run_lines, multi_documented_order.
  rewrite fold_left_app, (multi_fold_idle pre) by (exact Hpre || reflexivity).
  cbn [fold_left]. rewrite (multi_step_opens_storyline _ _ Mms). cbn [result].
  rewrite fold_left_app, (multi_fold_quiet_at ms_b) by exact Pms.
  cbn [fold_left app].
  rewrite (multi_step_opens_text _ _ _ Myt) by discriminate.
  rewrite fold_left_app, (multi_fold_quiet_at yt_b) by exact Pyt.
  cbn [fold_left app].
  rewrite (multi_step_opens_text _ _ _ Mig) by discriminate.
  rewrite fold_left_app, (multi_fold_quiet_at ig_b) by exact Pig.
  cbn [fold_left app].
  rewrite (multi_step_opens_text _ _ _ Mtt) by discriminate.
  rewrite fold_left_app, (multi_fold_quiet_at tt_b) by exact Ptt.
  cbn [fold_left app].
  rewrite (multi_step_opens_caption _ _ Mcap).
  rewrite (multi_fold_quiet_at cap_b) by exact Pcap. cbn [app].
  cbv zeta. repeat split.
  - multi_peel. apply multi_store_text_at. vm_compute; reflexivity.
  - multi_peel. apply multi_store_text_at. multi_peel. vm_compute; reflexivity.
  - multi_peel. apply multi_store_text_at. multi_peel. vm_compute; reflexivity.
  - multi_peel. apply multi_store_thread_at. multi_peel. vm_compute; reflexivity.
  - apply multi_handle_last_at; [discriminate|]. multi_peel.
    vm_compute; reflexivity.
Qed.

End MultiOrder.

(** X6.  A response whose lines carry the five sections of the
    multi-category prompt in their order (a line that mentions the
    marker, then lines that mention none) is recovered section by
    section: each text is its lines joined and stripped, the thread is
    cut at [---]; the text on a marker line itself is dropped; an empty
    storyline gets the first 300 characters of the response and an empty
    thread its first 280. *)
Theorem X6_multi_prompt_order (response topic category : str)
    (pre ms_b yt_b ig_b tt_b cap_b : list str) (l_ms l_yt l_ig l_tt l_cap : str) :
  split response [LF]
  = multi_documented_order pre l_ms ms_b l_yt yt_b l_ig ig_b l_tt tt_b l_cap cap_b ->
  forallb quiet pre = true ->
  multi_block "master_storyline" l_ms ms_b = true ->
  multi_block "youtube_script" l_yt yt_b = true ->
  multi_block "instagram_script" l_ig ig_b = true ->
  multi_block "twitter_thread" l_tt tt_b = true ->
  multi_block "caption" l_cap cap_b = true ->
  let storyline := strip (join [LF] ms_b) in
  let thread := dash_segments (join [LF] tt_b) in
  exists r,
    MultiCategoryGenerator._parse_response response topic category = Returned r
    /\ r !! "master_storyline"
       = Some (VStr (if is_empty storyline then slice_to 300 response else storyline))
    /\ r !! "youtube_script" = Some (VStr (strip (join [LF] yt_b)))
    /\ r !! "instagram_script" = Some (VStr (strip (join [LF] ig_b)))
    /\ r !! "twitter_thread"
       = Some (VList (if is_empty thread then [slice_to 280 response] else thread))
    /\ r !! "caption" = Some (VStr (strip (join [LF] cap_b))).
Proof.
  intros Hsplit Hpre Hms Hyt Hig Htt Hcap.
  destruct (multi_parsed_documented topic category pre ms_b yt_b ig_b tt_b cap_b
              l_ms l_yt l_ig l_tt l_cap Hpre Hms Hyt Hig Htt Hcap)
    as (Lm & Ly & Li & Lt & Lp).
  rewrite <- Hsplit in Lm, Ly, Li, Lt, Lp.
  fold (MultiCategoryGenerator.parsed_sections response topic category)
    in Lm, Ly, Li, Lt, Lp.
  unfold MultiCategoryGenerator._parse_response,
    MultiCategoryGenerator.fill_default.
  rewrite Lm. cbv beta iota zeta.
  set (r1 := if truthy _ then _ else _).
  assert (H1 : r1 !! "master_storyline"
               = Some (VStr (if is_empty (strip (join [LF] ms_b))
                             then slice_to 300 response
                             else strip (join [LF] ms_b)))).
  { subst r1. simpl. destruct (is_empty (strip (join [LF] ms_b))); simpl;
      [apply lookup_insert_eq|exact Lm]. }
  assert (O1 : forall k, k <> "master_storyline" ->
                 r1 !! k = MultiCategoryGenerator.parsed_sections response topic
                             category !! k).
  { intros k Hk. subst r1. destruct (truthy _); [reflexivity|].
    now apply lookup_insert_ne. }
  rewrite (O1 "twitter_thread"), Lt by discriminate.
  eexists. split; [reflexivity|].
  cbn [truthy]. destruct (is_empty (dash_segments (join [LF] tt_b))); cbn [negb].
  - repeat split; rewrite ?lookup_insert_eq;
      rewrite ?lookup_insert_ne by discriminate;
      first [exact H1 | rewrite O1 by discriminate; assumption | reflexivity].
  - repeat split;
      first [exact H1 | rewrite O1 by discriminate; assumption].
Qed.

Lemma X6_multi_prompt_order_witness :
  exists r,
    MultiCategoryGenerator._parse_response sample_multi_response (py "AI")
      (py "ai_trending_news") = Returned r
    /\ r !! "youtube_script"
       = Some (VStr (py "[0:00] Hook" ++ [LF] ++ py "[0:10] Point"))
    /\ r !! "twitter_thread" = Some (VList [py "Tweet 1"; py "Tweet 2"]).
Proof.
  destruct (X6_multi_prompt_order sample_multi_response (py "AI")
              (py "ai_trending_news")
              [py "Here is the content."] [py "Big news."]
              [py "[0:00] Hook"; py "[0:10] Point"] [py "Hook"]
              [py "Tweet 1"; py "---"; py "Tweet 2"] [py "Read this"]
              (py "MASTER_STORYLINE:") (py "YOUTUBE_SCRIPT:")
              (py "INSTAGRAM_SCRIPT:") (py "TWITTER_THREAD:") (py "CAPTION:"))
    as (r & E & _ & Hy & _ & Ht & _); try (vm_compute; reflexivity).
  exists r. split; [exact E|]. split; [exact Hy|exact Ht].
Defined.

(** ** The context of the prompts *)

(** X7.  The context [generate_all] hands to the prompt builder is never
    empty: it is the context [generate] builds when the search found
    something or a context was given, and otherwise the sentence
    [No specific context provided.]; the search text is never taken for
    it alone. *)
Theorem X7_multi_context_never_empty (search_context : str) (context : option str) :
  is_empty (MultiCategoryGenerator.full_context_of search_context context) = false
  /\ MultiCategoryGenerator.full_context_of search_context context
     = (if is_empty (AIContentGenerator.full_context_of search_context context)
        then py "No specific context provided."
        else AIContentGenerator.full_context_of search_context context)
  /\ (is_empty (AIContentGenerator.full_context_of search_context context) = true
      <-> is_empty search_context = true /\ opt_truthy context = false).
Proof.
  assert (H : is_empty (AIContentGenerator.full_context_of search_context context)
              = true
              <-> is_empty search_context = true /\ opt_truthy context = false).
  { unfold AIContentGenerator.full_context_of.
    destruct search_context as [|c s], context as [[|d t]|]; simpl;
      intuition discriminate. }
  unfold MultiCategoryGenerator.full_context_of.
  destruct (is_empty (AIContentGenerator.full_context_of search_context context))
    eqn:E.
  - destruct (proj1 H eq_refl) as [Es _].
    split; [|split; [|exact H]]; rewrite Es; reflexivity.
  - split; [exact E|]. split; [reflexivity|exact H].
Qed.

(** ** The handler of [POST /api/generate] *)

Section HandlerFacts.
Context {W : Type}.
Variable search_and_format : str -> W -> str * W.
Variable ai_generate : str -> option str -> Z -> W -> option str * W.
Variable single_prompt : str -> str -> str.
Variable multi_prompt : str -> str -> str -> str.
Variable template_generate : str -> option str -> io W dict.
Variable save_content : str -> value -> dict -> io W value.
Variable http_exception_str : Z -> str -> str.

Let handler :=
  Api.generate_content search_and_format ai_generate single_prompt multi_prompt
    template_generate save_content http_exception_str.

(** X8.  Whatever the services do, the handler answers or raises an
    [HTTPException] and nothing else: with status 400 when the topic is
    empty, before any service is called, and with status 500 otherwise. *)
Theorem X8_handler_error_statuses (g : Api.globals) (request : Api.GenerateRequest)
    (w : W) :
  match handler g request w with
  | (Returned _, _) => is_empty (Api.topic request) = false
  | (Raised (HTTPException status_code _), w') =>
      (status_code = 400%Z /\ is_empty (Api.topic request) = true /\ w' = w)
      \/ (status_code = 500%Z /\ is_empty (Api.topic request) = false)
  | (Raised _, _) => False
  end.
Proof.
  unfold handler, Api.generate_content.
  destruct (is_empty (Api.topic request)); [simpl; tauto|].
  unfold try_except at 1.
  match goal with |- context [match ?m w with _ => _ end] => destruct (m w) as [[r|e] w'] end;
    simpl; tauto.
Qed.

(** X9.  A failure of the database never fails a single-category request:
    when [generate] returns a record, the handler answers with it in mode
    [single_ai]; saving can only add the key [id], and when the save
    raises, or the database is not connected, the record is returned as
    it is. *)
Theorem X9_save_failure_is_not_fatal (g : Api.globals) (topic : str)
    (context model : option str) (flag : option bool) (r : dict) (w w1 : W) :
  is_empty topic = false ->
  default false flag = false ->
  Api.ai_generator g = Some true ->
  AIContentGenerator.generate search_and_format ai_generate single_prompt true
    topic context model w = (Returned r, w1) ->
  exists r' w2,
    handler g
      {| Api.topic := topic; Api.context := context; Api.model := model;
         Api.generate_all := flag; Api.use_ai := Some true |} w
    = (Returned {| Api.status := py "success"; Api.mode := py "single_ai";
                   Api.data := Api.One r' |}, w2)
    /\ (forall k, k <> "id" -> r' !! k = r !! k)
    /\ (Api.db g && Api.db_connected g = false -> r' = r /\ w2 = w1)
    /\ (forall category e w',
          r !! "category" = Some category ->
          save_content topic category r w1 = (Raised e, w') -> r' = r).
Proof.
  intros Ht Hf Hg Hr.
  unfold handler, Api.generate_content.
  cbn [Api.topic Api.context Api.model Api.generate_all Api.use_ai].
  rewrite Ht, Hf, Hg. cbn [default from_option id andb].
  change (bool_decide (is_Some (Some true))) with true. cbv iota.
  unfold try_except at 1. unfold mbind at 1. unfold io_bind, bind at 1.
  rewrite Hr. unfold mbind at 1. unfold io_bind, bind at 1.
  unfold Api.save_if_connected. cbn [Api.topic].
  destruct (Api.db g && Api.db_connected g) eqn:Hdb.
  - unfold try_except, Api.getitem, mbind, io_bind, bind, mret, io_ret, ret, raise.
    destruct (r !! "category") as [category|] eqn:Hc.
    + destruct (save_content topic category r w1) as [[content_id|e] w2] eqn:Hs.
      * exists (<["id" := content_id]> r), w2. split; [reflexivity|]. split.
        -- intros k Hk. apply lookup_insert_ne. congruence.
        -- split; [discriminate|]. intros c e w' Hc' Hs'.
           injection Hc' as <-. rewrite Hs in Hs'. discriminate.
      * exists r, w2. repeat split; auto; discriminate.
    + exists r, w1. repeat split; auto; discriminate.
  - unfold mret, io_ret, ret. exists r, w1. repeat split; auto.
Qed.

(** X10.  Without an available AI generator the handler serves the
    template generator whatever [use_ai] and [generate_all] ask for, and
    calls neither the search nor the completion service; when the
    template generator is not initialised, the error it raises is caught
    by its own handler and the detail of the answer is the text of that
    exception, not its detail. *)
Theorem X10_template_fallback (g : Api.globals) (request : Api.GenerateRequest)
    (w : W) :
  is_empty (Api.topic request) = false ->
  default false (Api.ai_generator g) = false ->
  (Api.content_generator g = false ->
   handler g request w
   = (Raised (HTTPException 500
                (http_exception_str 500 (py "Content generator not initialized"))),
      w))
  /\ (forall r w',
        Api.content_generator g = true ->
        template_generate (Api.topic request) (Api.context request) w
        = (Returned r, w') ->
        handler g request w
        = (Returned {| Api.status := py "success"; Api.mode := py "template";
                       Api.data := Api.One r |}, w'))
  /\ (forall e w',
        Api.content_generator g = true ->
        template_generate (Api.topic request) (Api.context request) w
        = (Raised e, w') ->
        handler g request w
        = (Raised (HTTPException 500 (Api.exn_str http_exception_str e)), w')).
Proof.
  intros Ht Hg. unfold handler, Api.generate_content. rewrite Ht, Hg.
  rewrite !andb_false_r. cbn [andb].
  split; [|split].
  - intros ->. reflexivity.
  - intros r w' Hc He. rewrite Hc. cbn [negb].
    unfold try_except, mbind, io_bind, bind. now rewrite He.
  - intros e w' Hc He. rewrite Hc. cbn [negb].
    unfold try_except, mbind, io_bind, bind. now rewrite He.
Qed.

(** X11.  A request for all categories to available generators always
    succeeds, also when [use_ai] is set and when every category fails:
    the answer has mode [multi] and carries the records of
    [generate_all], at most six, and nothing is saved. *)
Theorem X11_multi_mode_always_answers (g : Api.globals) (topic : str)
    (context model : option str) (flag : option bool) (w : W) :
  is_empty topic = false ->
  Api.ai_generator g = Some true ->
  Api.multi_generator g = Some true ->
  exists records w',
    MultiCategoryGenerator.generate_all search_and_format ai_generate multi_prompt
      true topic context model w = (Returned records, w')
    /\ handler g
         {| Api.topic := topic; Api.context := context; Api.model := model;
            Api.generate_all := Some true; Api.use_ai := flag |} w
       = (Returned {| Api.status := py "success"; Api.mode := py "multi";
                      Api.data := Api.Many records |}, w')
    /\ length records <= 6.
Proof.
  intros Ht Hg Hm.
  destruct (generate_all_spec search_and_format ai_generate multi_prompt
              topic context model w) as (records & w' & E & F & Hc).
  exists records, w'. split; [exact E|]. split.
  - unfold handler, Api.generate_content.
    cbn [Api.topic Api.context Api.model Api.generate_all Api.use_ai].
    rewrite Ht, Hg, Hm. cbn [default from_option id andb].
    change (bool_decide (is_Some (Some true))) with true. cbv iota.
    unfold try_except, mbind, io_bind, bind. rewrite E. reflexivity.
  - apply Forall2_length in F. rewrite F.
    pose proof (succeeded_sublist
                  (fan_out_answers search_and_format ai_generate multi_prompt
                     topic context model w)) as Hs.
    apply sublist_length in Hs. rewrite !length_map in Hs.
    assert (Hl := f_equal (@length _) Hc). rewrite !length_map in Hl.
    simpl in Hl. lia.
Qed.

End HandlerFacts.

Lemma X9_save_failure_is_not_fatal_witness :
  exists r' w2,
    Api.generate_content no_search steady_service topic_prompt category_prompt
      no_template failing_save starlette_str all_up
      {| Api.topic := py "AI agents"; Api.context := None; Api.model := None;
         Api.generate_all := Some false; Api.use_ai := Some true |} tt
    = (Returned {| Api.status := py "success"; Api.mode := py "single_ai";
                   Api.data := Api.One r' |}, w2)
    /\ r' !! "master_storyline" = Some (VStr (py "A story.")).
Proof.
  destruct (X9_save_failure_is_not_fatal no_search steady_service topic_prompt
              category_prompt no_template failing_save starlette_str all_up
              (py "AI agents") None None (Some false)
              (AIContentGenerator._parse_response
                 (py "MASTER_STORYLINE:" ++ [LF; LF] ++ py "A story.")
                 (py "AI agents")) tt tt)
    as (r' & w2 & E & O & _); try reflexivity.
  exists r', w2. split; [exact E|].
  rewrite O by discriminate. vm_compute. reflexivity.
Defined.

Lemma X10_template_fallback_witness :
  Api.generate_content no_search steady_service topic_prompt category_prompt
    no_template failing_save starlette_str
    {| Api.content_generator := false; Api.ai_generator := None;
       Api.multi_generator := None; Api.db := false; Api.db_connected := false |}
    {| Api.topic := py "AI agents"; Api.context := None; Api.model := None;
       Api.generate_all := Some true; Api.use_ai := Some true |} tt
  = (Raised (HTTPException 500
               (starlette_str 500%Z (py "Content generator not initialized"))), tt).
Proof.
  apply (X10_template_fallback no_search steady_service topic_prompt
           category_prompt no_template failing_save starlette_str); reflexivity.
Defined.

Lemma X11_multi_mode_always_answers_witness :
  exists records w',
    Api.generate_content no_search flaky_service topic_prompt category_prompt
      (fun _ _ => raise (Exception [])) (fun _ _ _ => raise (Exception []))
      starlette_str all_up
      {| Api.topic := py "AI agents"; Api.context := None; Api.model := None;
         Api.generate_all := Some true; Api.use_ai := Some true |} 0
    = (Returned {| Api.status := py "success"; Api.mode := py "multi";
                   Api.data := Api.Many records |}, w')
    /\ length records <= 6.
Proof.
  destruct (X11_multi_mode_always_answers no_search flaky_service topic_prompt
              category_prompt (fun _ _ => raise (Exception []))
              (fun _ _ _ => raise (Exception [])) starlette_str all_up
              (py "AI agents") None None (Some true) 0)
    as (records & w' & _ & E & L); try reflexivity.
  exists records, w'. split; [exact E|exact L].
Defined.

(** ** The handler of [GET /api/content/{content_id}] *)

(** X12.  The handler of [api.py] never answers 404: without a connected
    database it raises 503 before the database is asked, and otherwise
    every failure is a 500; the [HTTPException] with status 404 that it
    raises for a missing row is caught by its own [except Exception], so
    a missing row is reported as a 500 whose detail is the text of that
    exception. *)
Theorem X12_content_read_statuses {W : Type}
    (get_content_by_id : Z -> io W (option dict))
    (http_exception_str : Z -> str -> str) (g : Api.globals) (content_id : Z)
    (w : W) :
  match Api.get_content get_content_by_id http_exception_str g content_id w with
  | (Returned reply, _) =>
      Api.db g && Api.db_connected g = true
      /\ Api.content_status reply = py "success"
      /\ Api.content_data reply <> ∅
  | (Raised (HTTPException status_code detail), w') =>
      (status_code = 503%Z /\ Api.db g && Api.db_connected g = false /\ w' = w)
      \/ (status_code = 500%Z /\ Api.db g && Api.db_connected g = true)
  | (Raised _, _) => False
  end
  /\ (forall w',
        Api.db g && Api.db_connected g = true ->
        get_content_by_id content_id w = (Returned None, w') ->
        Api.get_content get_content_by_id http_exception_str g content_id w
        = (Raised (HTTPException 500
                     (http_exception_str 404%Z (py "Content not found"))), w')).
Proof.
  unfold Api.get_content.
  destruct (Api.db g), (Api.db_connected g); cbn [negb orb andb];
    try (split; [unfold raise; tauto|discriminate]).
  unfold try_except, mbind, io_bind, bind, raise, mret, io_ret, ret.
  split.
  - destruct (get_content_by_id content_id w) as [[[d|]|e] w']; cbn;
      try tauto.
    case_bool_decide; cbn; [tauto|]. repeat split; auto.
  - intros w' _ ->. reflexivity.
Qed.

Lemma X12_content_read_statuses_witness :
  Api.get_content no_row starlette_str all_up 7%Z tt
  = (Raised (HTTPException 500 (py "404: Content not found")), tt).
Proof.
  apply (proj2 (X12_content_read_statuses no_row starlette_str all_up 7%Z tt));
    reflexivity.
Defined.

(** ** The template generator *)

Section TemplateFacts.
Import ContentGenerator.

Lemma strip_incl (s : str) (c : char) : In c (strip s) -> In c s.
Proof.
  intros H. destruct (strip_decompose s) as (a & b & E & _).
  rewrite E. apply in_or_app. right. apply in_or_app. now left.
Qed.

Lemma clean_undecorated (line : str) : undecorated (clean line) = true.
Proof.
  unfold undecorated, clean. apply forallb_forall. intros c Hc.
  apply strip_incl in Hc. unfold undecorate in Hc.
  now apply filter_In in Hc as [_ Hc].
Qed.

Lemma clean_stripped (line : str) : strip (clean line) = clean line.
Proof. apply strip_idempotent. Qed.

End TemplateFacts.

(** X13.  The hook [_extract_hook] takes from a storyline is never short
    or decorated: it has more than 20 characters, no whitespace at its
    ends, none of the characters the generator removes, and does not end
    with a colon; this holds for the fixed sentence it falls back to as
    well. *)
Theorem X13_hook_is_clean (storyline : str) :
  let hook := ContentGenerator._extract_hook storyline in
  20 < length hook
  /\ strip hook = hook
  /\ undecorated hook = true
  /\ ContentGenerator.endswith hook (py ":") = false.
Proof.
  unfold ContentGenerator._extract_hook. cbv zeta.
  destruct (List.find _ _) as [h|] eqn:E; cbn [default from_option id].
  - apply find_some in E as [Hin Hp].
    apply in_map_iff in Hin as (line & <- & _).
    apply andb_true_iff in Hp as [Hp He]. apply andb_true_iff in Hp as [_ Hl].
    apply Nat.ltb_lt in Hl. apply negb_true_iff in He.
    repeat split; auto using clean_stripped, clean_undecorated.
  - repeat split; try (vm_compute; reflexivity). vm_compute. lia.
Qed.

Section ThreadFacts.
Import ContentGenerator.

Lemma str_of_nat_digit (i : nat) : i < 10 -> length (str_of_nat i) = 1.
Proof.
  intros H. do 10 (destruct i as [|i]; [reflexivity|]). lia.
Qed.

Lemma tweet_content_bound (section : list str) :
  length (tweet_content_of section) <= 280.
Proof.
  unfold tweet_content_of. cbv zeta.
  destruct (280 <? length _)%nat eqn:E.
  - unfold slice_to. rewrite length_app, length_firstn.
    change (length (py "...")) with 3. lia.
  - apply Nat.ltb_ge in E. exact E.
Qed.

Lemma numbered_length (i : nat) (sections : list (list str)) :
  length (numbered i sections) = length sections.
Proof.
  revert i. induction sections as [|x l IH]; intros i; simpl; [reflexivity|].
  now rewrite IH.
Qed.

Lemma numbered_bound (sections : list (list str)) (i : nat) :
  i + length sections <= 10 ->
  Forall (fun tweet => length tweet <= 283) (numbered i sections).
Proof.
  revert i. induction sections as [|x l IH]; intros i H; simpl; constructor.
  - rewrite !length_app, str_of_nat_digit by (simpl in H; lia).
    pose proof (tweet_content_bound x). simpl. lia.
  - apply IH. simpl in H. lia.
Qed.

End ThreadFacts.

Lemma thread_decomposition (storyline category : str) :
  let tweets := ContentGenerator._adapt_for_twitter storyline category in
  2 <= length tweets <= 7
  /\ (exists middle,
        tweets
        = [ContentGenerator._extract_hook storyline ++ [LF; LF] ++ py "A thread "
           ++ [0x1f9f5%N]]
          ++ middle
          ++ [ContentGenerator.str_of_nat (length tweets)
              ++ py "/ Found this helpful?" ++ [LF; LF]
              ++ [0x2022%N] ++ py " Follow me for daily AI insights" ++ [LF]
              ++ [0x2022%N] ++ py " RT the first tweet to share" ++ [LF]
              ++ [0x2022%N] ++ py " Reply with your thoughts!"]
        /\ length middle <= 5
        /\ Forall (fun tweet => length tweet <= 283) middle).
Proof.
  unfold ContentGenerator._adapt_for_twitter. cbv zeta.
  set (sections := firstn 5 (fst (fold_left ContentGenerator.group_step _ _))).
  assert (Hs : length sections <= 5) by (subst sections; apply firstn_le_length).
  rewrite !length_app, numbered_length. cbn [length].
  split; [lia|].
  exists (ContentGenerator.numbered 2 sections).
  split; [|split].
  - now rewrite <- app_assoc.
  - now rewrite numbered_length.
  - apply numbered_bound. lia.
Qed.

(** X14.  A thread of the template generator has between two and seven
    tweets: the hook with [A thread] and the thread mark, at most five
    numbered tweets of at most 283 characters each (a number, a slash, a
    blank and at most 280 characters of text), and a closing tweet that
    carries the number of tweets.  Seven is reached, by the storyline of
    the first template for one. *)
Theorem X14_thread_shape (storyline category : str) :
  let tweets := ContentGenerator._adapt_for_twitter storyline category in
  2 <= length tweets <= 7
  /\ (exists middle,
        tweets
        = [ContentGenerator._extract_hook storyline ++ [LF; LF] ++ py "A thread "
           ++ [0x1f9f5%N]]
          ++ middle
          ++ [ContentGenerator.str_of_nat (length tweets)
              ++ py "/ Found this helpful?" ++ [LF; LF]
              ++ [0x2022%N] ++ py " Follow me for daily AI insights" ++ [LF]
              ++ [0x2022%N] ++ py " RT the first tweet to share" ++ [LF]
              ++ [0x2022%N] ++ py " Reply with your thoughts!"]
        /\ length middle <= 5
        /\ Forall (fun tweet => length tweet <= 283) middle)
  /\ length (ContentGenerator._adapt_for_twitter
               (ContentGenerator._new_tool_intro_template (py "Cursor") None)
               (py "new_tool_intro")) = 7.
Proof.
  destruct (thread_decomposition storyline category) as [H1 H2].
  split; [exact H1|]. split; [exact H2|]. vm_compute. reflexivity.
Qed.

Section HashtagFacts.
Import ContentGenerator.

Lemma fromkeys_from_spec (l seen : list str) (x : str) :
  In x (fromkeys_from seen l) <-> In x l /\ ~ In x seen.
Proof.
  revert seen. induction l as [|y l IH]; intros seen; simpl; [tauto|].
  case_bool_decide as Hy; rewrite list_elem_of_In in Hy.
  - rewrite IH. split; [tauto|]. intros [[->|H] Hn]; tauto.
  - simpl. rewrite IH. simpl. split.
    + intros [->|[H Hn]]; tauto.
    + intros [[->|H] Hn]; [tauto|].
      destruct (decide (y = x)) as [->|Hne]; [tauto|]. right. tauto.
Qed.

Lemma fromkeys_from_NoDup (l seen : list str) : List.NoDup (fromkeys_from seen l).
Proof.
  revert seen. induction l as [|y l IH]; intros seen; simpl; [constructor|].
  case_bool_decide; [apply IH|]. constructor; [|apply IH].
  rewrite fromkeys_from_spec. simpl. tauto.
Qed.

Lemma fromkeys_from_length (l seen : list str) :
  length (fromkeys_from seen l) <= length l.
Proof.
  revert seen. induction l as [|y l IH]; intros seen; simpl; [lia|].
  case_bool_decide; simpl.
  - specialize (IH seen). lia.
  - specialize (IH (y :: seen)). lia.
Qed.

(** A prefix without repetitions is kept as it is. *)
Lemma fromkeys_from_prefix (p q seen : list str) :
  List.NoDup p -> (forall x, In x p -> ~ In x seen) ->
  fromkeys_from seen (p ++ q) = p ++ fromkeys_from (rev p ++ seen) q.
Proof.
  revert seen. induction p as [|y p IH]; intros seen Hnd Hs; [reflexivity|].
  apply List.NoDup_cons_iff in Hnd as [Hy Hnd]. cbn [app fromkeys_from].
  rewrite bool_decide_eq_false_2
    by (rewrite list_elem_of_In; apply Hs; now left).
  f_equal. rewrite IH; [|exact Hnd|].
  - simpl. now rewrite <- app_assoc.
  - intros x Hx [->|Hin]; [tauto|]. apply (Hs x); [now right|exact Hin].
Qed.

Lemma firstn_incl {A} (n : nat) (l : list A) (x : A) :
  In x (firstn n l) -> In x l.
Proof.
  revert l. induction n as [|n IH]; intros [|y l]; simpl; try tauto.
  intros [->|H]; [now left|right; now apply IH].
Qed.

Lemma dict_get_cases {A} (d : list (str * A)) (key : str) (default : A) :
  dict_get d key default = default \/ In (dict_get d key default) (map snd d).
Proof.
  induction d as [|[k v] d IH]; simpl; [now left|].
  case_bool_decide; [right; now left|]. destruct IH; [now left|right; now right].
Qed.

End HashtagFacts.

(** X15.  The hashtags of the template generator, whatever lower-casing
    and capitalising do: they begin with the four base tags, hold no tag
    twice, are at most eleven (the cut at twelve never cuts), and each
    starts with [#]. *)
Theorem X15_template_hashtags (lower capitalize : str -> str) (topic category : str) :
  let tags := ContentGenerator._generate_hashtags lower capitalize topic category in
  firstn 4 tags = ContentGenerator.base_tags
  /\ List.NoDup tags
  /\ length tags <= 11
  /\ forallb is_hashtag tags = true.
Proof.
  unfold ContentGenerator._generate_hashtags. cbv zeta.
  set (ctags := ContentGenerator.dict_get ContentGenerator.category_tags category []).
  set (ttags := firstn 3 _).
  assert (Hc : length ctags <= 4 /\ forallb is_hashtag ctags = true).
  { subst ctags.
    destruct (dict_get_cases ContentGenerator.category_tags category [])
      as [->|Hin]; [split; [simpl; lia|reflexivity]|].
    revert Hin. generalize (ContentGenerator.dict_get
                              ContentGenerator.category_tags category []).
    intros l Hin. cbn [ContentGenerator.category_tags map snd] in Hin.
    repeat (destruct Hin as [<-|Hin]; [split; [simpl; lia|vm_compute; reflexivity]|]).
    destruct Hin. }
  assert (Ht : length ttags <= 3 /\ forallb is_hashtag ttags = true).
  { subst ttags. split; [apply firstn_le_length|].
    apply forallb_forall. intros h Hh. apply firstn_incl in Hh.
    apply in_map_iff in Hh as (w & <- & _).
    apply startswith_spec. now exists (capitalize w). }
  destruct Hc as [Lc Fc], Ht as [Lt Ft].
  assert (Hlen : length (ContentGenerator.fromkeys
                           (ContentGenerator.base_tags ++ ctags ++ ttags)) <= 11).
  { unfold ContentGenerator.fromkeys.
    etransitivity; [apply fromkeys_from_length|].
    rewrite !length_app. change (length ContentGenerator.base_tags) with 4.
    unfold str, char in *. lia. }
  assert (Hcut : firstn 12 (ContentGenerator.fromkeys
                              (ContentGenerator.base_tags ++ ctags ++ ttags))
                 = ContentGenerator.fromkeys
                     (ContentGenerator.base_tags ++ ctags ++ ttags)).
  { apply firstn_all2. apply Nat.le_trans with 11; [exact Hlen|lia]. }
  rewrite Hcut.
  split; [|split; [|split]].
  - unfold ContentGenerator.fromkeys.
    rewrite fromkeys_from_prefix.
    + now rewrite firstn_app, firstn_all2 by (simpl; lia).
    + vm_compute. repeat constructor; simpl; intuition discriminate.
    + intros x _ [].
  - apply fromkeys_from_NoDup.
  - exact Hlen.
  - apply forallb_forall. intros h Hh.
    apply fromkeys_from_spec in Hh as [Hh _].
    rewrite !in_app_iff in Hh. rewrite forallb_forall in Fc, Ft.
    destruct Hh as [Hh|[Hh|Hh]]; auto.
    cbn [ContentGenerator.base_tags] in Hh.
    repeat (destruct Hh as [<-|Hh]; [reflexivity|]). destruct Hh.
Qed.

(** ** The record of the template generator *)

Section TemplateRecord.
Import ContentGenerator.

Lemma classify_range (lower : str -> str) (topic : str) (context : option str) :
  In (_classify_content lower topic context)
     (map fst MultiCategoryGenerator.CATEGORIES).
Proof.
  unfold _classify_content. cbv zeta.
  repeat match goal with
         | |- context [if ?b then _ else _] => destruct b
         end; vm_compute; tauto.
Qed.

Lemma fromkeys_prefix_length (p q : list str) :
  List.NoDup p -> length p <= length (fromkeys (p ++ q)) <= length p + length q.
Proof.
  intros Hp. split.
  - unfold fromkeys. rewrite fromkeys_from_prefix by (exact Hp || (intros x _ [])).
    rewrite length_app. lia.
  - unfold fromkeys. etransitivity; [apply fromkeys_from_length|].
    rewrite length_app. lia.
Qed.

End TemplateRecord.

(** X16.  The record of the template generator, whatever the topic, the
    context and the case mapping: it has the eight keys of the source and
    no [topic]; its category is one of the six category identifiers,
    [cta] holds three entries and [hashtags] between eight and eleven. *)
Theorem X16_template_record (lower capitalize : str -> str) (topic : str)
    (context : option str) :
  let r := ContentGenerator.generate lower capitalize topic context in
  dom r = (list_to_set template_fields : gset string)
  /\ r !! "topic" = None
  /\ exists category cta hashtags,
       r !! "category" = Some (VStr category)
       /\ In category (map fst MultiCategoryGenerator.CATEGORIES)
       /\ r !! "cta" = Some (VList cta) /\ length cta = 3
       /\ r !! "hashtags" = Some (VList hashtags)
       /\ 8 <= length hashtags <= 11.
Proof.
  cbv zeta. unfold ContentGenerator.generate. cbv zeta.
  pose proof (classify_range lower topic context) as Hc.
  set (category := ContentGenerator._classify_content lower topic context) in *.
  split; [rewrite !dom_insert_L, dom_empty_L; reflexivity|].
  split; [reflexivity|].
  exists category, (ContentGenerator._generate_cta category),
    (ContentGenerator._generate_hashtags lower capitalize topic category).
  split; [reflexivity|]. split; [exact Hc|].
  split; [reflexivity|]. split.
  { clearbody category. cbn [map fst MultiCategoryGenerator.CATEGORIES] in Hc.
    repeat (destruct Hc as [<-|Hc]; [vm_compute; reflexivity|]). destruct Hc. }
  split; [reflexivity|].
  unfold ContentGenerator._generate_hashtags. cbv zeta.
  set (ttags := firstn 3 _).
  assert (Lt : length ttags <= 3) by apply firstn_le_length.
  clearbody ttags category.
  assert (Hp : List.NoDup (ContentGenerator.base_tags
                           ++ ContentGenerator.dict_get
                                ContentGenerator.category_tags category [])
               /\ length (ContentGenerator.base_tags
                          ++ ContentGenerator.dict_get
                               ContentGenerator.category_tags category []) = 8).
  { cbn [map fst MultiCategoryGenerator.CATEGORIES] in Hc.
    repeat (destruct Hc as [<-|Hc];
            [split; [apply NoDup_ListNoDup; apply (bool_decide_unpack _);
                     vm_compute; exact I
                    |vm_compute; reflexivity]|]).
    destruct Hc. }
  destruct Hp as [Hnd Hl8].
  rewrite app_assoc.
  pose proof (fromkeys_prefix_length _ ttags Hnd) as [Hlo Hhi].
  rewrite Hl8 in Hlo, Hhi.
  assert (H11 : length (ContentGenerator.fromkeys
                          ((ContentGenerator.base_tags
                            ++ ContentGenerator.dict_get
                                 ContentGenerator.category_tags category [])
                           ++ ttags)) <= 11).
  { etransitivity; [exact Hhi|]. apply (Nat.add_le_mono_l _ 3 8). exact Lt. }
  rewrite firstn_all2 by (etransitivity; [exact H11|repeat constructor]).
  split; [exact Hlo|exact H11].
Qed.

(** ** The handlers of [main.py] *)

(** X17.  The handler of [POST /api/generate] of [main.py] saves every
    record it generates, and a failure of the save fails the request:
    the record always has its category, so the save is called with it,
    and no [KeyError] arises; when the save returns, the answer has
    exactly the fields of [ContentResponse], with the identifier of the
    row and the time, and the record otherwise unchanged; when the save
    raises, the handler raises status 500 with the text of the exception
    after [Content generation failed: ]. *)
Theorem X17_main_save_failure_is_fatal {W : Type} (lower capitalize : str -> str)
    (save_content : str -> value -> dict -> io W value)
    (now_isoformat : W -> str * W) (http_exception_str : Z -> str -> str)
    (request : Main.ContentRequest) (w : W) :
  let r := ContentGenerator.generate lower capitalize (Main.topic request)
             (Main.context request) in
  let handler := Main.generate_content lower capitalize save_content now_isoformat
                   http_exception_str in
  exists category,
    r !! "category" = Some (VStr category)
    /\ match save_content (Main.topic request) (VStr category) r w with
       | (Returned content_id, w1) =>
           exists reply,
             handler request w = (Returned reply, snd (now_isoformat w1))
             /\ dom reply = (list_to_set content_response_fields : gset string)
             /\ reply !! "id" = Some content_id
             /\ reply !! "created_at" = Some (VStr (fst (now_isoformat w1)))
             /\ (forall k, k <> "id" -> k <> "created_at" -> reply !! k = r !! k)
       | (Raised e, w1) =>
           handler request w
           = (Raised (HTTPException 500
                        (py "Content generation failed: "
                         ++ Api.exn_str http_exception_str e)), w1)
       end.
Proof.
  cbv zeta.
  set (r := ContentGenerator.generate lower capitalize (Main.topic request)
              (Main.context request)).
  assert (Hd : dom r = (list_to_set template_fields : gset string)).
  { subst r. unfold ContentGenerator.generate. cbv zeta.
    rewrite !dom_insert_L, dom_empty_L. reflexivity. }
  assert (Hc : r !! "category"
               = Some (VStr (ContentGenerator._classify_content lower
                               (Main.topic request) (Main.context request))))
    by reflexivity.
  exists (ContentGenerator._classify_content lower (Main.topic request)
            (Main.context request)).
  split; [exact Hc|].
  unfold Main.generate_content. cbv zeta. fold r.
  unfold try_except, mbind, io_bind, bind, Api.getitem. rewrite Hc.
  unfold mret, io_ret, ret, call, raise.
  clearbody r.
  destruct (save_content (Main.topic request) _ r w) as [[content_id|e] w1];
    [|reflexivity].
  destruct (now_isoformat w1) as [created_at w2]. cbn [fst snd].
  eexists. split; [reflexivity|].
  split; [rewrite !dom_insert_L, Hd; vm_compute; reflexivity|].
  split; [rewrite lookup_insert_ne by discriminate; apply lookup_insert_eq|].
  split; [apply lookup_insert_eq|].
  intros k H1 H2. now rewrite !lookup_insert_ne by congruence.
Qed.

(** X18.  The handler of [GET /api/content/{content_id}] of [main.py]
    hands an [HTTPException] on as it is: a missing row is answered with
    status 404 and the detail [Content not found]; only another
    exception of the database becomes a 500, with its text after
    [Failed to fetch content: ]; and what it returns is the row of the
    database, which is not empty. *)
Theorem X18_main_read_statuses {W : Type}
    (get_content_by_id : Z -> io W (option dict))
    (http_exception_str : Z -> str -> str) (content_id : Z) (w : W) :
  let handler := Main.get_content get_content_by_id http_exception_str in
  (forall content w',
     get_content_by_id content_id w = (Returned content, w') ->
     if Api.content_truthy content
     then exists row, content = Some row /\ row <> ∅
                      /\ handler content_id w = (Returned row, w')
     else handler content_id w
          = (Raised (HTTPException 404 (py "Content not found")), w'))
  /\ (forall e w',
        get_content_by_id content_id w = (Raised e, w') ->
        match e with
        | HTTPException _ _ => handler content_id w = (Raised e, w')
        | _ => handler content_id w
               = (Raised (HTTPException 500
                            (py "Failed to fetch content: "
                             ++ Api.exn_str http_exception_str e)), w')
        end)
  /\ (forall reply w', handler content_id w = (Returned reply, w') -> reply <> ∅).
Proof.
  cbv zeta. unfold Main.get_content, try_except, mbind, io_bind, bind.
  split; [|split].
  - intros content w' ->. destruct content as [d|]; [|reflexivity].
    unfold Api.content_truthy. case_bool_decide as Hd; cbn.
    + subst d. reflexivity.
    + exists d. repeat split; auto.
  - intros e w' ->. destruct e; reflexivity.
  - intros reply w'.
    destruct (get_content_by_id content_id w) as [[[d|]|e] w1]; cbn.
    + case_bool_decide as Hd; cbn; [discriminate|].
      unfold mret, io_ret, ret. intros [= <- _]. exact Hd.
    + discriminate.
    + destruct e; discriminate.
Qed.

Lemma X18_main_read_statuses_witness :
  Main.get_content no_row starlette_str 7%Z tt
  = (Raised (HTTPException 404 (py "Content not found")), tt)
  /\ Main.get_content failing_read starlette_str 7%Z tt
     = (Raised (HTTPException 500 (py "Failed to fetch content: connection lost")),
        tt).
Proof.
  destruct (X18_main_read_statuses no_row starlette_str 7%Z tt) as (H & _ & _).
  destruct (X18_main_read_statuses failing_read starlette_str 7%Z tt)
    as (_ & H' & _).
  split.
  - exact (H None tt eq_refl).
  - exact (H' (Exception (py "connection lost")) tt eq_refl).
Defined.
